(** * PurchaseOrderEditor: state model, persistence and derived values

    A shallow embedding of [src/components/PurchaseOrderEditor.jsx].

    - JavaScript numbers are IEEE-754 binary64 values ([spec_float] with
      precision 53 and maximal exponent 1024), so that [parseFloat],
      [String] on numbers, [Math.min], [Math.max] and [Math.ceil] compute
      on concrete inputs exactly the values an engine produces.
    - JavaScript values are the JSON values plus [undefined]; objects are
      association lists in insertion order. A text is held as the bytes
      of its UTF-8 form and is counted and indexed in UTF-16 code units.
    - Code that can raise runs in an error monad; [try]/[catch] is an
      explicit handler. [String(v)] is such code: it raises on an object
      that has a field named [toString].
    - [localStorage] is a finite map from keys to strings, which reads
      and writes without failure. *)

From Stdlib Require Import ZArith NArith Ascii String List Bool Lia.
From Stdlib Require Import Floats.SpecFloat DecimalString.
From stdpp Require Import base option list gmap strings.

Local Open Scope string_scope.
Local Open Scope list_scope.

(* ================================================================== *)
(** ** Numbers: the binary64 values of the host language *)
(* ================================================================== *)

Module Num.

Definition number := spec_float.

Definition prec : Z := 53.
Definition emax : Z := 1024.

Definition nan : number := S754_nan.
Definition zero : number := S754_zero false.

Definition is_nan (x : number) : bool :=
  match x with S754_nan => true | _ => false end.

(** [Number.isFinite] *)
Definition isFinite (x : number) : bool :=
  match x with
  | S754_zero _ | S754_finite _ _ _ => true
  | S754_infinity _ | S754_nan => false
  end.

Definition is_zero (x : number) : bool :=
  match x with S754_zero _ => true | _ => false end.

Definition sign_bit (x : number) : bool :=
  match x with
  | S754_zero s | S754_infinity s | S754_finite s _ _ => s
  | S754_nan => false
  end.

(** The number denoted by an integer literal. *)
Definition of_Z (z : Z) : number := binary_normalize prec emax z 0 false.

(** The binary64 value nearest to [m * 10^x] (ties to even), with the
    sign [neg]: the value of a decimal literal. *)
Definition of_decimal (neg : bool) (m : N) (x : Z) : number :=
  match m with
  | N0 => S754_zero neg
  | Npos p =>
      match x with
      | Zneg k =>
          SFdiv prec emax (S754_finite neg p 0)
                (S754_finite false (Pos.pow 10 k) 0)
      | Z0 => binary_round prec emax neg p 0
      | Zpos k => binary_round prec emax neg (p * Pos.pow 10 k) 0
      end
  end.

(** Comparison operators on numbers: [<], [<=], [===], [!==]. *)
Definition lt (a b : number) : bool := SFltb a b.
Definition le (a b : number) : bool := SFleb a b.
Definition strict_eq (a b : number) : bool := SFeqb a b.
Definition strict_ne (a b : number) : bool := negb (SFeqb a b).

Definition sub (a b : number) : number := SFsub prec emax a b.
Definition mul (a b : number) : number := SFmul prec emax a b.
Definition div (a b : number) : number := SFdiv prec emax a b.
Definition abs (a : number) : number := SFabs a.

(** [Math.max] and [Math.min] of two numbers: NaN is contagious and
    the negative zero is smaller than the positive one. *)
Definition max (a b : number) : number :=
  match SFcompare a b with
  | None => nan
  | Some Lt => b
  | Some Gt => a
  | Some Eq => if sign_bit a then b else a
  end.

Definition min (a b : number) : number :=
  match SFcompare a b with
  | None => nan
  | Some Lt => a
  | Some Gt => b
  | Some Eq => if sign_bit a then a else b
  end.

(** [Math.ceil] *)
Definition ceil (x : number) : number :=
  match x with
  | S754_finite s m (Zneg k) =>
      let q := Z.shiftr (Zpos m) (Zpos k) in
      let exact := Z.eqb (Z.shiftl q (Zpos k)) (Zpos m) in
      if s then
        match q with
        | Z0 => S754_zero true
        | _ => binary_normalize prec emax (Z.opp q) 0 true
        end
      else binary_normalize prec emax (if exact then q else q + 1) 0 false
  | _ => x
  end.

(** *** Decimal text *)

Definition is_digit (c : ascii) : bool :=
  let n := nat_of_ascii c in (48 <=? n)%nat && (n <=? 57)%nat.

Definition digit_val (c : ascii) : N := N.of_nat (nat_of_ascii c - 48).

(** Longest prefix of decimal digits, and what follows it. *)
Fixpoint take_digits (cs : list ascii) : list ascii * list ascii :=
  match cs with
  | c :: r =>
      if is_digit c then let '(d, r') := take_digits r in (c :: d, r')
      else ([], cs)
  | [] => ([], [])
  end.

Definition digits_value (ds : list ascii) : N :=
  fold_left (fun acc c => (10 * acc + digit_val c)%N) ds 0%N.

Definition is_space (c : ascii) : bool :=
  let n := nat_of_ascii c in
  (n =? 32)%nat || ((9 <=? n)%nat && (n <=? 13)%nat).

Fixpoint skip_spaces (cs : list ascii) : list ascii :=
  match cs with
  | c :: r => if is_space c then skip_spaces r else cs
  | [] => []
  end.

Definition take_sign (cs : list ascii) : bool * list ascii :=
  match cs with
  | "-"%char :: r => (true, r)
  | "+"%char :: r => (false, r)
  | _ => (false, cs)
  end.

Fixpoint starts_with (p cs : list ascii) : bool :=
  match p, cs with
  | [], _ => true
  | a :: p', c :: r => if Ascii.eqb a c then starts_with p' r else false
  | _ :: _, [] => false
  end.

(** The exponent part [e<sign><digits>] of a literal, 0 when absent. *)
Definition exponent_part (cs : list ascii) : Z :=
  match cs with
  | c :: r =>
      if Ascii.eqb c "e" || Ascii.eqb c "E" then
        let '(neg, r') := take_sign r in
        let '(ds, _) := take_digits r' in
        match ds with
        | [] => 0
        | _ => let v := Z.of_N (digits_value ds) in if neg then - v else v
        end
      else 0
  | [] => 0
  end%Z.

(** [parseFloat]: the value of the longest prefix of the text, after
    leading (ASCII) white space, that is a decimal literal; NaN when
    there is none. *)
Definition parseFloat (s : string) : number :=
  let cs := skip_spaces (list_ascii_of_string s) in
  let '(neg, cs) := take_sign cs in
  if starts_with (list_ascii_of_string "Infinity") cs then S754_infinity neg
  else
    let '(ip, r1) := take_digits cs in
    let '(fp, r2) :=
      match r1 with
      | "."%char :: r => take_digits r
      | _ => ([], r1)
      end in
    match ip ++ fp with
    | [] => nan
    | ds =>
        of_decimal neg (digits_value ds)
                   (exponent_part r2 - Z.of_nat (length fp))
    end.

(** *** Printing: [String(x)] for a number [x] *)

Definition N_to_string (n : N) : string :=
  NilZero.string_of_uint (N.to_uint n).

Fixpoint zeros (n : nat) : string :=
  match n with O => "" | S n' => String "0" (zeros n') end.

Fixpoint strip_zeros_rev (cs : list ascii) : list ascii :=
  match cs with
  | "0"%char :: r => strip_zeros_rev r
  | _ => cs
  end.

Definition strip_trailing_zeros (s : string) : string :=
  string_of_list_ascii (rev (strip_zeros_rev (rev (list_ascii_of_string s)))).

(** For [0 < num/den < 1]: the least [j >= 1] with [num * 10^j >= den]. *)
Fixpoint leading_shift (fuel : nat) (num den : positive) (j : Z) : Z :=
  match fuel with
  | O => j
  | S f =>
      if (den <=? num * 10)%positive then j
      else leading_shift f (num * 10)%positive den (j + 1)%Z
  end.

(** The exponent [n] with [10^(n-1) <= num/den < 10^n]. *)
Definition decimal_exponent (num den : positive) : Z :=
  if (den <=? num)%positive then
    Z.of_nat (String.length (N_to_string (Npos num / Npos den)))
  else (1 - leading_shift 400 num den 1)%Z.

(** The shortest decimal that reads back as [v = num/den]: tries
    1, 2, ... significant digits, at each length [k] the two multiples
    of [10^(n0-k)] around [v], and keeps the nearer one that reads back
    (the even one on a tie). Returns the digits as a number, and [k]. *)
Fixpoint shortest (fuel : nat) (v : number) (num den : positive)
         (n0 : Z) (k : Z) : N * Z :=
  match fuel with
  | O => (0%N, k)
  | S f =>
      let x := (n0 - k)%Z in
      let '(A, B) :=
        match x with
        | Zneg j => (Npos (num * Pos.pow 10 j), Npos den)
        | Z0 => (Npos num, Npos den)
        | Zpos j => (Npos num, Npos (den * Pos.pow 10 j))
        end in
      let lo := (A / B)%N in
      let hi := (lo + 1)%N in
      let r := (A mod B)%N in
      let ok c := SFeqb (of_decimal false c x) v in
      match ok lo, ok hi with
      | true, true =>
          match (2 * r ?= B)%N with
          | Lt => (lo, k)
          | Gt => (hi, k)
          | Eq => (if N.even lo then lo else hi, k)
          end
      | true, false => (lo, k)
      | false, true => (hi, k)
      | false, false => shortest f v num den n0 (k + 1)%Z
      end
  end.

Definition string_take (n : nat) (s : string) : string := substring 0 n s.
Definition string_drop (n : nat) (s : string) : string :=
  substring n (String.length s - n) s.

(** The text of a positive finite number with digits [ds] (no trailing
    zero) and decimal point after position [n]. *)
Definition layout (ds : string) (n : Z) : string :=
  let k := Z.of_nat (String.length ds) in
  if ((-6 <? n) && (n <=? 21))%Z then
    if (k <=? n)%Z then (ds ++ zeros (Z.to_nat (n - k)))%string
    else if (0 <? n)%Z then
      (string_take (Z.to_nat n) ds ++ "." ++ string_drop (Z.to_nat n) ds)%string
    else ("0." ++ zeros (Z.to_nat (- n)) ++ ds)%string
  else
    let e := (n - 1)%Z in
    let es := ((if (0 <? e)%Z then "+" else "-")
               ++ N_to_string (Z.to_N (Z.abs e)))%string in
    if (k =? 1)%Z then (ds ++ "e" ++ es)%string
    else (string_take 1 ds ++ "." ++ string_drop 1 ds ++ "e" ++ es)%string.

Definition to_string_pos (m : positive) (e : Z) : string :=
  let '(num, den) :=
    match e with
    | Zneg j => (m, Pos.pow 2 j)
    | Z0 => (m, 1%positive)
    | Zpos j => ((m * Pos.pow 2 j)%positive, 1%positive)
    end in
  let n0 := decimal_exponent num den in
  let '(s, k) := shortest 17 (S754_finite false m e) num den n0 1 in
  let raw := N_to_string s in
  layout (strip_trailing_zeros raw)
         (n0 - k + Z.of_nat (String.length raw)).

(** [String(x)] *)
Definition to_string (x : number) : string :=
  match x with
  | S754_nan => "NaN"
  | S754_zero _ => "0"
  | S754_infinity s => if s then "-Infinity" else "Infinity"
  | S754_finite s m e =>
      ((if s then "-" else "") ++ to_string_pos m e)%string
  end.

(** *** Addition, and [x.toFixed(2)] *)

Definition add (a b : number) : number := SFadd prec emax a b.

Definition ten21 : number := Eval vm_compute in of_decimal false 1 21.

(** The integer nearest to [100 * m * 2^e], the larger one on a tie. *)
Definition hundredths (m : positive) (e : Z) : N :=
  match e with
  | Zneg k =>
      let A := (Npos m * 100)%N in
      let B := Npos (Pos.pow 2 k) in
      let q := (A / B)%N in
      if (B <=? 2 * (A mod B))%N then (q + 1)%N else q
  | Z0 => (Npos m * 100)%N
  | Zpos k => (Npos m * 100 * Npos (Pos.pow 2 k))%N
  end.

(** The digits of [n] hundredths, with the point before the last two. *)
Definition two_decimals (n : N) : string :=
  let ds := N_to_string n in
  let ds := (zeros (3 - String.length ds) ++ ds)%string in
  let k := String.length ds in
  (string_take (k - 2) ds ++ "." ++ string_drop (k - 2) ds)%string.

(** [x.toFixed(2)] *)
Definition toFixed2 (x : number) : string :=
  match x with
  | S754_nan | S754_infinity _ => to_string x
  | S754_zero _ => "0.00"
  | S754_finite s m e =>
      ((if s then "-" else "")
       ++ (if le ten21 (S754_finite false m e) then to_string_pos m e
           else two_decimals (hundredths m e)))%string
  end.

End Num.

(* ================================================================== *)
(** ** Values, property access and exceptions *)
(* ================================================================== *)

#[local] Set Warnings "-register-all".

(** The values a document can hold: what [JSON.parse] produces, and
    [undefined]. An object lists its own properties in insertion order. *)
Inductive value : Type :=
  | VUndef
  | VNull
  | VBool (b : bool)
  | VNum (n : Num.number)
  | VStr (s : string)
  | VArr (l : list value)
  | VObj (o : list (string * value)).

Inductive exn : Type := SyntaxError | TypeError.

Inductive result (A : Type) : Type :=
  | Ok (a : A)
  | Throw (e : exn).
Arguments Ok {A} a.
Arguments Throw {A} e.

#[global] Instance result_ret : MRet result := @Ok.
#[global] Instance result_bind : MBind result :=
  fun A B f m => match m with Ok a => f a | Throw e => Throw e end.

#[global] Instance result_fmap : FMap result :=
  fun A B f m => match m with Ok a => Ok (f a) | Throw e => Throw e end.

(** [try c catch (e) h] *)
Definition try_catch {A} (c : result A) (h : exn -> A) : A :=
  match c with Ok a => a | Throw e => h e end.

(** *** Texts

    A text is held as the bytes of its UTF-8 form; a surrogate that
    stands alone has the three-byte form of its code. The host language
    counts and indexes the UTF-16 code units of a text, and iterates over
    its code points. *)
Module Text.

Definition byte (c : ascii) : N := N_of_ascii c.

(** A continuation byte. *)
Definition cont (b : N) : bool := ((128 <=? b) && (b <? 192))%N.

(** The UTF-16 code units of a byte sequence; a byte that starts no
    well-formed sequence counts as the replacement character. *)
Fixpoint units (bs : list N) : list N :=
  match bs with
  | [] => []
  | b0 :: r0 =>
      if (b0 <? 128)%N then b0 :: units r0
      else
        match r0 with
        | b1 :: r1 =>
            if ((192 <=? b0) && (b0 <? 224))%N && cont b1 then
              ((b0 - 192) * 64 + (b1 - 128))%N :: units r1
            else
              match r1 with
              | b2 :: r2 =>
                  if ((224 <=? b0) && (b0 <? 240))%N && cont b1 && cont b2 then
                    ((b0 - 224) * 4096 + (b1 - 128) * 64 + (b2 - 128))%N
                      :: units r2
                  else
                    match r2 with
                    | b3 :: r3 =>
                        if ((240 <=? b0) && (b0 <? 248))%N
                           && cont b1 && cont b2 && cont b3 then
                          let cp := ((b0 - 240) * 262144 + (b1 - 128) * 4096
                                     + (b2 - 128) * 64 + (b3 - 128))%N in
                          (55296 + (cp - 65536) / 1024)%N
                            :: (56320 + (cp - 65536) mod 1024)%N :: units r3
                        else 65533%N :: units r0
                    | [] => 65533%N :: units r0
                    end
              | [] => 65533%N :: units r0
              end
        | [] => [65533%N]
        end
  end.

Definition of_bytes (bs : list N) : string :=
  string_of_list_ascii (map ascii_of_N bs).

(** The text made of one code unit. *)
Definition of_unit (u : N) : string :=
  of_bytes
    (if (u <? 128)%N then [u]
     else if (u <? 2048)%N then [192 + u / 64; 128 + u mod 64]%N
     else [224 + u / 4096; 128 + (u / 64) mod 64; 128 + u mod 64]%N).

(** The text made of the code point of a surrogate pair. *)
Definition of_pair (hi lo : N) : string :=
  let cp := (65536 + (hi - 55296) * 1024 + (lo - 56320))%N in
  of_bytes [240 + cp / 262144; 128 + (cp / 4096) mod 64;
            128 + (cp / 64) mod 64; 128 + cp mod 64]%N.

Definition code_units (s : string) : list N :=
  units (map byte (list_ascii_of_string s)).

(** [s.length] *)
Definition length (s : string) : nat := List.length (code_units s).

(** [s[0], s[1], ...]: the code units of [s], each as a text. *)
Definition chars (s : string) : list string := map of_unit (code_units s).

Fixpoint pair_up (us : list N) : list string :=
  match us with
  | [] => []
  | u :: r =>
      match r with
      | v :: r' =>
          if ((55296 <=? u) && (u <? 56320) && (56320 <=? v) && (v <? 57344))%N
          then of_pair u v :: pair_up r'
          else of_unit u :: pair_up r
      | [] => [of_unit u]
      end
  end.

(** [[...s]]: the code points of [s], each as a text. *)
Definition code_points (s : string) : list string := pair_up (code_units s).

End Text.

Module JS.

(** [v == null] *)
Definition is_nullish (v : value) : bool :=
  match v with VUndef | VNull => true | _ => false end.

(** [a ?? b] *)
Definition coalesce (a b : value) : value := if is_nullish a then b else a.

(** Truthiness, as tested by [if], [!] and [||]. *)
Definition truthy (v : value) : bool :=
  match v with
  | VUndef | VNull => false
  | VBool b => b
  | VNum n => negb (Num.is_nan n || Num.is_zero n)
  | VStr s => negb (String.eqb s "")
  | VArr _ | VObj _ => true
  end.

(** [a || b] *)
Definition or_else (a b : value) : value := if truthy a then a else b.

Definition isArray (v : value) : bool :=
  match v with VArr _ => true | _ => false end.

Fixpoint join (sep : string) (l : list string) : string :=
  match l with
  | [] => ""
  | [a] => a
  | a :: r => (a ++ sep ++ join sep r)%string
  end.

(** Own properties of an object: lookup of the first entry for a key,
    and assignment, which keeps the position of an existing key and
    appends a new one. *)
Fixpoint assoc_get (k : string) (o : list (string * value)) : option value :=
  match o with
  | [] => None
  | (k', v) :: r => if String.eqb k k' then Some v else assoc_get k r
  end.

Fixpoint assoc_set (k : string) (v : value) (o : list (string * value))
  : list (string * value) :=
  match o with
  | [] => [(k, v)]
  | (k', v') :: r =>
      if String.eqb k k' then (k, v) :: r else (k', v') :: assoc_set k v r
  end.

(** [String(v)], and with the same outcome [v + ""], a template literal
    on [v] and the conversion of [v] to a property name. An array is
    joined with commas, null and undefined elements giving the empty
    text. An object is converted by its [toString]: the inherited one
    gives "[object Object]"; a field of the object named [toString]
    hides it, and since no value of a document is a function the
    conversion then falls back on [valueOf], which gives no text either,
    and raises a TypeError. *)
Fixpoint to_string (v : value) : result string :=
  match v with
  | VUndef => Ok "undefined"
  | VNull => Ok "null"
  | VBool b => Ok (if b then "true" else "false")
  | VNum n => Ok (Num.to_string n)
  | VStr s => Ok s
  | VArr l =>
      join "," <$>
        ((fix elems (l : list value) : result (list string) :=
            match l with
            | [] => Ok []
            | e :: r =>
                s ← (if is_nullish e then Ok "" else to_string e);
                ss ← elems r;
                Ok (s :: ss)
            end) l)
  | VObj o =>
      match assoc_get "toString" o with
      | Some _ => Throw TypeError
      | None => Ok "[object Object]"
      end
  end.

Definition length_of {A} (l : list A) : value :=
  VNum (Num.of_Z (Z.of_nat (length l))).

Definition chars (s : string) : list value := map VStr (Text.chars s).

(** [v.k] for a property name [k] that is an identifier. The names the
    editor reads are data fields and [length]; none of them is defined
    on the prototypes of numbers, booleans, strings or arrays, except
    [length] on strings and arrays. *)
Definition get (v : value) (k : string) : result value :=
  match v with
  | VUndef | VNull => Throw TypeError
  | VObj o => Ok (default VUndef (assoc_get k o))
  | VArr l => Ok (if String.eqb k "length" then length_of l else VUndef)
  | VStr s =>
      Ok (if String.eqb k "length" then length_of (Text.code_units s)
          else VUndef)
  | VBool _ | VNum _ => Ok VUndef
  end.

(** [v?.k] *)
Definition get_opt (v : value) (k : string) : value :=
  match get v k with Ok x => x | Throw _ => VUndef end.

(** [v[i]] for an array index [i]. *)
Definition index_key (i : nat) : string := Num.N_to_string (N.of_nat i).

Definition get_index (v : value) (i : nat) : result value :=
  match v with
  | VUndef | VNull => Throw TypeError
  | VArr l => Ok (default VUndef (l !! i))
  | VStr s => Ok (default VUndef (chars s !! i))
  | VObj o => Ok (default VUndef (assoc_get (index_key i) o))
  | VBool _ | VNum _ => Ok VUndef
  end.

Definition indexed (l : list value) : list (string * value) :=
  imap (fun i v => (index_key i, v)) l.

(** The properties copied by [{...v}]. *)
Definition spread (v : value) : list (string * value) :=
  match v with
  | VObj o => o
  | VArr l => indexed l
  | VStr s => indexed (chars s)
  | VUndef | VNull | VBool _ | VNum _ => []
  end.

(** [a === b]. Two objects or arrays are equal only when they are the
    same object; the operands compared by the editor are never the same
    object, so such a pair is unequal. *)
Definition strict_eq (a b : value) : bool :=
  match a, b with
  | VUndef, VUndef | VNull, VNull => true
  | VBool x, VBool y => Bool.eqb x y
  | VNum x, VNum y => Num.strict_eq x y
  | VStr x, VStr y => String.eqb x y
  | _, _ => false
  end.

(** [[...v]]: the elements of an iterable. *)
Definition elements (v : value) : result (list value) :=
  match v with
  | VArr l => Ok l
  | VStr s => Ok (map VStr (Text.code_points s))
  | _ => Throw TypeError
  end.

(** The receiver of an array method ([map], [filter]): anything else
    has no such method, or no properties at all. *)
Definition as_array (v : value) : result (list value) :=
  match v with
  | VArr l => Ok l
  | _ => Throw TypeError
  end.

Definition number_eqb (x y : Num.number) : bool :=
  match x, y with
  | S754_zero s, S754_zero s' | S754_infinity s, S754_infinity s' =>
      Bool.eqb s s'
  | S754_nan, S754_nan => true
  | S754_finite s m e, S754_finite s' m' e' =>
      Bool.eqb s s' && Pos.eqb m m' && Z.eqb e e'
  | _, _ => false
  end.

(** [Object.is(a, b)], used to compare the dependencies of an effect:
    equality of primitive values (NaN is itself, the two zeros differ)
    and identity of objects and arrays. The embedding has no object
    identity; two objects or arrays are compared by structure, which
    decides identity wherever the editor asks: a dependency that is an
    object is compared either with that very object, still held by the
    document, or with a text; the one event that puts a new object in its
    place, the import, makes the effect forget what it saw (see
    [imported_into]). *)
Fixpoint same_value (a b : value) : bool :=
  match a, b with
  | VUndef, VUndef | VNull, VNull => true
  | VBool x, VBool y => Bool.eqb x y
  | VNum x, VNum y => number_eqb x y
  | VStr x, VStr y => String.eqb x y
  | VArr l, VArr l' =>
      (fix all2 (l l' : list value) : bool :=
         match l, l' with
         | [], [] => true
         | x :: r, y :: r' => same_value x y && all2 r r'
         | _, _ => false
         end) l l'
  | VObj o, VObj o' =>
      (fix all2 (o o' : list (string * value)) : bool :=
         match o, o' with
         | [], [] => true
         | (k, x) :: r, (k', y) :: r' =>
             String.eqb k k' && same_value x y && all2 r r'
         | _, _ => false
         end) o o'
  | _, _ => false
  end.

(** [arr[i] = x] on a copy of [arr]: writes inside the array and appends
    at its end. Beyond the end the source leaves the slots in between
    empty; the embedding has no empty slots and holds [undefined] there,
    which reads the same through an index, [length], [String] and JSON,
    but which [filter] and [reduce] of the source would skip. What is
    proved of a write is therefore stated through the position written,
    or for a position inside the array or at its end. *)
Definition array_store (l : list value) (i : nat) (x : value) : list value :=
  if (i <? length l)%nat then <[i := x]> l
  else l ++ replicate (i - length l) VUndef ++ [x].

End JS.

(* ================================================================== *)
(** ** Helpers *)
(* ================================================================== *)

(** The characters kept by [replace(/[^\d.-]/g, "")]. *)
Definition keeps (c : ascii) : bool :=
  Num.is_digit c || Ascii.eqb c "." || Ascii.eqb c "-".

Definition strip (s : string) : string :=
  string_of_list_ascii (filter (fun c => keeps c = true) (list_ascii_of_string s)).

Definition parseNum (v : value) : result Num.number :=
  match v with
  | VNull | VUndef => Ok Num.zero
  | _ =>
      s ← JS.to_string v;
      let n := Num.parseFloat (strip s) in
      Ok (if Num.isFinite n then n else Num.zero)
  end.

Section Clock.
(** The host's calendar: the time value (milliseconds, NaN when the
    text is no date) of [new Date(text)], and the time value of
    [new Date(today.toDateString())], today's local midnight. *)
Variable Date_of_string : string -> Num.number.
Variable today_start : Num.number.

Definition ms_per_day : Num.number := Eval vm_compute in Num.of_Z 86400000.

(** [dateISO + "T23:59:59"] raises when [dateISO] has no text form; the
    handler of the [try] then gives NaN. *)
Definition daysUntil (dateISO : value) : Num.number :=
  try_catch
    (s ← JS.to_string dateISO;
     let target := Date_of_string (s ++ "T23:59:59")%string in
     Ok (Num.ceil (Num.div (Num.sub target today_start) ms_per_day)))
    (fun _ => Num.nan).
End Clock.

(** The banner under the header card. *)
Record banner : Type := Banner { text : string; color : string }.

Definition fifteen : Num.number := Eval vm_compute in Num.of_Z 15.

(** The body of the [francoInfo] memo, for the day count [d]. *)
Definition francoInfo_of (d : Num.number) : banner :=
  if Num.is_nan d then Banner "Invalid Franco Date" "#b91c1c"
  else if Num.lt d Num.zero then
    Banner ("Franco date passed by " ++ Num.to_string (Num.abs d) ++ " day(s).")%string
           "#b91c1c"
  else if Num.le d fifteen then
    Banner (Num.to_string d ++ " day(s) left until Franco date.")%string "#b45309"
  else
    Banner (Num.to_string d ++ " day(s) left until Franco date.")%string "#065f46".

Definition francoInfo (Date_of_string : string -> Num.number)
           (today_start : Num.number) (header : value) : result banner :=
  francoDate ← JS.get header "francoDate";
  Ok (francoInfo_of (daysUntil Date_of_string today_start francoDate)).

(* ================================================================== *)
(** ** Constants, storage and defaults *)
(* ================================================================== *)

Definition preset (name number label : string) : value :=
  VObj [("beneficiaryName", VStr name); ("ltsaNumber", VStr number);
        ("label", VStr label)].

Definition BENEFICIARY_OPTIONS : list (string * value) :=
  [("KNPC_73000",
     preset "Kuwait National Petroleum Company" "73000"
            "Option 1: 73000 – Kuwait National Petroleum Company");
   ("KIPIC_71449",
     preset "Kuwait Integrated Petroleum Industries Company" "71449"
            "Option 2: 71449 – Kuwait Integrated Petroleum Industries Company")].

(** Names every object literal inherits from [Object.prototype]: looking
    one of them up in the table yields a function or object, which has
    none of the preset's fields. *)
Definition inherited_names : list string :=
  ["constructor"; "__proto__"; "hasOwnProperty"; "isPrototypeOf";
   "propertyIsEnumerable"; "toLocaleString"; "toString"; "valueOf";
   "__defineGetter__"; "__defineSetter__"; "__lookupGetter__";
   "__lookupSetter__"].

(** [BENEFICIARY_OPTIONS[option]]; the option is converted to a property
    name first. *)
Definition lookup_option (option : value) : result value :=
  k ← JS.to_string option;
  Ok match JS.assoc_get k BENEFICIARY_OPTIONS with
     | Some b => b
     | None => if bool_decide (k ∈ inherited_names) then VObj [] else VUndef
     end.

Definition STORAGE_KEY : string := "po_app_state_v3".

Definition defaultHeader : value :=
  VObj [("poNumber", VStr "419513");
        ("ltsaNumber", VStr "73000");
        ("beneficiaryName", VStr "Kuwait National Petroleum Company");
        ("ltsaDescription",
          VStr "Long-Term Service Agreement related to supply and support for refinery operations.");
        ("dateOfIssue", VStr "2025-04-16");
        ("siteDate", VStr "2025-08-14");
        ("francoDate", VStr "2025-08-14");
        ("status", VStr "Supplier PO Released")].

Definition item_fields : list string :=
  ["maximoNo"; "item"; "description"; "tpi"; "material"; "grade";
   "unitCode"; "qty"; "unitPrice"].

Definition defaultItem : value :=
  VObj (map (fun k => (k, VStr "")) item_fields).

Definition defaultState : value :=
  VObj [("option", VStr "KNPC_73000");
        ("header", defaultHeader);
        ("items", VArr [defaultItem]);
        ("sales", VArr [])].

Abbreviation storage := (gmap string string).

(** [localStorage.getItem(k) || "null"] *)
Definition getItem_or_null (st : storage) (k : string) : string :=
  match st !! k with
  | Some s => if String.eqb s "" then "null" else s
  | None => "null"
  end.

(* ================================================================== *)
(** ** The editor component *)
(* ================================================================== *)

(** What the user is told through [alert]. *)
Inductive report : Type :=
  | InvalidPOFile
  | ImportFailed (e : exn).

(** The component between two events: the committed document, the
    storage, the alerts shown so far, and the dependency values the two
    effects saw when they last ran. [None] stands for a dependency that
    nothing the document holds can be identical to: before the first
    render, and for [option_dep] after an import put a new object or
    array in [option]. The transient "saved" flag of [setAndSave]
    decorates the page only and is left out, and so is the selected
    tab. *)
Record comp : Type := Comp {
  state : value;
  store : storage;
  alerts : list report;
  option_dep : option value;
  length_dep : option value;
}.

(** [alert(...)]: the component with one more report. *)
Definition rejected (c : comp) (r : report) : comp :=
  Comp (state c) (store c) (alerts c ++ [r]) (option_dep c) (length_dep c).

(** What a render reads from the committed document. *)
Record snapshot : Type := Snapshot {
  r_option : value;
  r_header : value;
  r_items : value;
  r_sales : value;
}.

Definition qtyOf (row : value) : result Num.number :=
  parseNum (JS.get_opt row "qty").

(** [{ maximoNo: r.maximoNo ?? "", ..., qty: r.qty ?? r.ltsaQty ?? "", ... }],
    the row normalization shared by the migration and the import. *)
Definition normalize_item (r : value) : result value :=
  maximoNo ← JS.get r "maximoNo";
  item ← JS.get r "item";
  description ← JS.get r "description";
  tpi ← JS.get r "tpi";
  material ← JS.get r "material";
  grade ← JS.get r "grade";
  unitCode ← JS.get r "unitCode";
  qty ← JS.get r "qty";
  qty' ← (if JS.is_nullish qty then JS.get r "ltsaQty" else Ok qty);
  unitPrice ← JS.get r "unitPrice";
  Ok (VObj [("maximoNo", JS.coalesce maximoNo (VStr ""));
            ("item", JS.coalesce item (VStr ""));
            ("description", JS.coalesce description (VStr ""));
            ("tpi", JS.coalesce tpi (VStr ""));
            ("material", JS.coalesce material (VStr ""));
            ("grade", JS.coalesce grade (VStr ""));
            ("unitCode", JS.coalesce unitCode (VStr ""));
            ("qty", JS.coalesce qty' (VStr ""));
            ("unitPrice", JS.coalesce unitPrice (VStr ""))]).

(** [(s) => (s === 0 ? "" : String(s ?? ""))] *)
Definition legacy_sale (s : value) : result value :=
  if JS.strict_eq s (VNum Num.zero) then Ok (VStr "")
  else VStr <$> JS.to_string (JS.coalesce s (VStr "")).

(** [(s) => (s == null ? "" : String(s))] *)
Definition imported_sale (s : value) : result value :=
  if JS.is_nullish s then Ok (VStr "") else VStr <$> JS.to_string s.

(** The migration block of the state initializer, for a truthy [old]. *)
Definition migrate (old : value) : result value :=
  old_items ← JS.get old "items";
  items ← match old_items with
          | VArr l => VArr <$> mapM normalize_item l
          | _ => Ok (VArr [defaultItem])
          end;
  old_sales ← JS.get old "sales";
  sales ← match old_sales with
          | VArr l => VArr <$> mapM legacy_sale l
          | _ => Ok (VArr [])
          end;
  Ok (VObj (JS.assoc_set "sales" sales
             (JS.assoc_set "items" items (JS.spread old)))).

Section Editor.

(** [JSON.parse] and [JSON.stringify] of the host. Parsing raises a
    [SyntaxError] on text that is not JSON. *)
Variable JSON_parse : string -> result value.
Variable JSON_stringify : value -> string.

(** *** Loading *)

Definition load_body (st : storage) : result (value * storage) :=
  v3 ← JSON_parse (getItem_or_null st STORAGE_KEY);
  if JS.truthy v3 then Ok (v3, st)
  else
    v2 ← JSON_parse (getItem_or_null st "po_app_state_v2");
    v1 ← JSON_parse (getItem_or_null st "po_app_state_v1");
    let old := JS.or_else v2 v1 in
    if JS.truthy old then
      migrated ← migrate old;
      Ok (migrated, <[STORAGE_KEY := JSON_stringify migrated]> st)
    else Ok (defaultState, st).

(** The state initializer: the document the editor starts with, and the
    storage it leaves. *)
Definition load (st : storage) : value * storage :=
  try_catch (load_body st) (fun _ => (defaultState, st)).

(** *** Committing a new document *)

Definition with_state (c : comp) (s : value) (st : storage) : comp :=
  Comp s st (alerts c) (option_dep c) (length_dep c).

(** [setAndSave(updater)] *)
Definition setAndSave (updater : value -> result value) (c : comp)
  : result comp :=
  next ← updater (state c);
  Ok (with_state c next (<[STORAGE_KEY := JSON_stringify next]> (store c))).

(** *** The two effects *)

(** The effect that follows [option]: it looks the preset up and queues
    an updater that reads it. A raise of the lookup and a raise of the
    updater end the render alike, so the two are held as one step. *)
Definition sync_header (option : value) (s : value) : result value :=
  b ← lookup_option option;
  header ← JS.get s "header";
  beneficiaryName ← JS.get b "beneficiaryName";
  ltsaNumber ← JS.get b "ltsaNumber";
  Ok (VObj (JS.assoc_set "header"
             (VObj (JS.assoc_set "ltsaNumber" ltsaNumber
                     (JS.assoc_set "beneficiaryName" beneficiaryName
                        (JS.spread header))))
             (JS.spread s))).

(** [items.map((_, i) => (sales[i] == null ? "" : String(sales[i])))] *)
Definition nextSales (items sales : value) : result (list value) :=
  l ← JS.as_array items;
  mapM (fun i => x ← JS.get_index sales i; imported_sale x)
       (seq 0 (length l)).

Definition set_sales (sales : list value) (s : value) : result value :=
  Ok (VObj (JS.assoc_set "sales" (VArr sales) (JS.spread s))).

(** The body of the effect that follows [items.length]: the updater it
    queues, if any. *)
Definition sync_sales (snap : snapshot)
  : result (option (value -> result value)) :=
  sales_length ← JS.get (r_sales snap) "length";
  items_length ← JS.get (r_items snap) "length";
  if negb (JS.strict_eq sales_length items_length) then
    next ← nextSales (r_items snap) (r_sales snap);
    Ok (Some (set_sales next))
  else Ok None.

(** *** Derived values computed by every render *)

Definition lineTotals (items : value) : result (list Num.number) :=
  l ← JS.as_array items;
  mapM (fun r => qty ← qtyOf r;
                 unitPrice ← JS.get r "unitPrice";
                 price ← parseNum unitPrice;
                 Ok (Num.mul qty price)) l.

Definition remainingByRow (items sales : value) : result (list Num.number) :=
  l ← JS.as_array items;
  mapM (fun '(i, r) =>
          qty ← qtyOf r;
          sale ← JS.get_index sales i;
          sold ← parseNum sale;
          Ok (Num.max (Num.sub qty sold) Num.zero))
       (imap pair l).

(** The body of the component function up to its [return]: reading the
    four fields, the derived values, and the dependency values of the
    hooks. The markup it returns is not modelled. Given to React, the
    markup can still end a render: a field shown as a child or as the
    value of an input must be a text or a number. The properties that say
    a render succeeds are therefore stated for documents whose fields are
    texts ([plain] below), for which the markup has nothing to refuse;
    the other properties allow a render to raise. *)
Definition render (s : value) : result snapshot :=
  option ← JS.get s "option";
  header ← JS.get s "header";
  items ← JS.get s "items";
  sales ← JS.get s "sales";
  _ ← lineTotals items;
  _ ← JS.get header "francoDate";
  _ ← JS.get items "length";
  _ ← remainingByRow items sales;
  Ok (Snapshot option header items sales).

Definition dep_changed (old : option value) (new : value) : bool :=
  match old with
  | None => true
  | Some v => negb (JS.same_value v new)
  end.

Definition queued {A} (u : option A) : bool :=
  match u with Some _ => true | None => false end.

Definition apply_opt (u : option (value -> result value)) (c : comp)
  : result comp :=
  match u with Some f => setAndSave f c | None => Ok c end.

(** One render and the effects it triggers. Each effect runs when its
    dependency differs from the one it saw last (always after the first
    render); the updaters they queue apply in order. The flag tells
    whether a new document was committed, which asks for a new render. *)
Definition commit (c : comp) : result (bool * comp) :=
  snap ← render (state c);
  items_length ← JS.get (r_items snap) "length";
  let run1 := dep_changed (option_dep c) (r_option snap) in
  let run2 := dep_changed (length_dep c) items_length in
  let u1 := if run1 then Some (sync_header (r_option snap)) else None in
  u2 ← (if run2 then sync_sales snap else Ok None);
  let c0 := Comp (state c) (store c) (alerts c)
                 (Some (r_option snap)) (Some items_length) in
  c1 ← apply_opt u1 c0;
  c2 ← apply_opt u2 c1;
  Ok (queued u1 || queued u2, c2).

(** Each effect on its own, run on the committed document whatever its
    dependency: what re-running it does. *)
Definition run_sync_header (c : comp) : result comp :=
  snap ← render (state c);
  setAndSave (sync_header (r_option snap)) c.

Definition run_sync_sales (c : comp) : result comp :=
  snap ← render (state c);
  u ← sync_sales snap;
  apply_opt u c.

(** Renders until no effect commits a new document. [None]: the
    renders allowed by [fuel] were not enough. *)
Fixpoint settle (fuel : nat) (c : comp) : option (result comp) :=
  match fuel with
  | O => None
  | S f =>
      match commit c with
      | Throw e => Some (Throw e)
      | Ok (true, c') => settle f c'
      | Ok (false, c') => Some (Ok c')
      end
  end.

(** The editor right after its first render settled. *)
Definition mount (fuel : nat) (st : storage) : option (result comp) :=
  let '(s, st') := load st in
  settle fuel (Comp s st' [] None None).

(** *** Actions *)

Definition newPO_state : value :=
  VObj [("option", VStr "KNPC_73000");
        ("header", defaultHeader);
        ("items", VArr [defaultItem]);
        ("sales", VArr [VStr ""])].

Definition newPO : comp -> result comp :=
  setAndSave (fun _ => Ok newPO_state).

(** The handler of the option picker; [key] is the value of the chosen
    entry, one of the keys of [BENEFICIARY_OPTIONS]. *)
Definition setOption (key : string) : comp -> result comp :=
  setAndSave (fun s => Ok (VObj (JS.assoc_set "option" (VStr key) (JS.spread s)))).

Definition updateHeader (patch : list (string * value)) : comp -> result comp :=
  setAndSave (fun s =>
    header ← JS.get s "header";
    Ok (VObj (JS.assoc_set "header"
               (VObj (foldl (fun o '(k, v) => JS.assoc_set k v o)
                            (JS.spread header) patch))
               (JS.spread s)))).

Definition updateItem (i : nat) (k : string) (v : value) : comp -> result comp :=
  setAndSave (fun s =>
    items ← JS.get s "items";
    l ← JS.as_array items;
    Ok (VObj (JS.assoc_set "items"
               (VArr (imap (fun idx r =>
                              if (idx =? i)%nat
                              then VObj (JS.assoc_set k v (JS.spread r))
                              else r) l))
               (JS.spread s)))).

Definition addRow : comp -> result comp :=
  setAndSave (fun s =>
    items ← JS.get s "items";
    l ← JS.elements items;
    sales ← JS.get s "sales";
    sl ← JS.elements sales;
    Ok (VObj (JS.assoc_set "sales" (VArr (sl ++ [VStr ""]))
               (JS.assoc_set "items" (VArr (l ++ [defaultItem]))
                  (JS.spread s))))).

(** [arr.filter((_, x) => x !== i)] *)
Definition remove_at (i : nat) (l : list value) : list value :=
  omap (fun '(x, v) => if (x =? i)%nat then None else Some v) (imap pair l).

Definition removeRow (i : nat) : comp -> result comp :=
  setAndSave (fun s =>
    items ← JS.get s "items";
    n ← JS.get items "length";
    if JS.strict_eq n (VNum (Num.of_Z 1)) then Ok s
    else
      l ← JS.as_array items;
      sales ← JS.get s "sales";
      sl ← JS.as_array sales;
      Ok (VObj (JS.assoc_set "sales" (VArr (remove_at i sl))
                 (JS.assoc_set "items" (VArr (remove_at i l))
                    (JS.spread s))))).

Definition clearAllItems : comp -> result comp :=
  setAndSave (fun s =>
    Ok (VObj (JS.assoc_set "sales" (VArr [VStr ""])
               (JS.assoc_set "items" (VArr [defaultItem]) (JS.spread s))))).

(** The text the sold-quantity field of row [i] stores for the typed
    text; [items] is the item list of the current render. *)
Definition sold_text (items : value) (i : nat) (typed : string) : result string :=
  row ← JS.get_index items i;
  qtyN ← qtyOf row;
  p ← parseNum (VStr typed);
  let soldN := Num.min qtyN (Num.max p Num.zero) in
  Ok (if Num.strict_ne p soldN then Num.to_string soldN else typed).

(** The [onChange] handler of the sold-quantity field of row [i]. *)
Definition editSold (i : nat) (typed : string) (c : comp) : result comp :=
  items ← JS.get (state c) "items";
  nextVal ← sold_text items i typed;
  setAndSave (fun s =>
    sales ← JS.get s "sales";
    next ← JS.elements sales;
    Ok (VObj (JS.assoc_set "sales"
               (VArr (JS.array_store next i (VStr nextVal)))
               (JS.spread s)))) c.

(** *** Import *)

(** [localStorage.setItem(STORAGE_KEY, JSON.stringify(migrated));
    setState(migrated)]. The import touches no effect. An object or
    array it brings as [option] is a new one, which the header effect
    will find different from whatever it saw: the dependency is
    forgotten. A primitive option is compared by value as ever. *)
Definition imported_into (c : comp) (migrated : value) : comp :=
  Comp migrated (<[STORAGE_KEY := JSON_stringify migrated]> (store c))
       (alerts c)
       (match JS.get_opt migrated "option" with
        | VArr _ | VObj _ => None
        | _ => option_dep c
        end)
       (length_dep c).

Definition import_body (text : string) (c : comp) : result comp :=
  data ← JSON_parse text;
  if negb (JS.truthy data) then Ok (rejected c InvalidPOFile)
  else
    header ← JS.get data "header";
    items ← JS.get data "items";
    if negb (JS.truthy header) || negb (JS.isArray items) then
      Ok (rejected c InvalidPOFile)
    else
      l ← JS.as_array items;
      items' ← mapM normalize_item l;
      sales ← JS.get data "sales";
      sales' ← match sales with
               | VArr sl => VArr <$> mapM imported_sale sl
               | _ => Ok (VArr [])
               end;
      let migrated :=
        VObj (JS.assoc_set "sales" sales'
               (JS.assoc_set "items" (VArr items') (JS.spread data))) in
      Ok (imported_into c migrated).

(** [importJSON(file)], for a file whose text is [text]. *)
Definition importJSON (text : string) (c : comp) : comp :=
  try_catch (import_body text c) (fun e => rejected c (ImportFailed e)).

(** [clearStorage()], once the user confirmed. *)
Definition clearStorage (c : comp) : result comp :=
  newPO (with_state c (state c) (delete STORAGE_KEY (store c))).

End Editor.

(* ================================================================== *)
(** ** A host for the examples *)
(* ================================================================== *)

(** The examples below run the editor on concrete texts.
    [Host.stringify] is [JSON.stringify] on the values of the model.
    [Host.parse docs] stands for [JSON.parse] on the text [null] and on
    the serializations of the values listed in [docs] (none of which holds
    [undefined] or a number that is not finite, so that each text denotes
    the value it comes from); any other text is taken as malformed. *)
Module Host.

Definition hex_digit (n : nat) : ascii :=
  ascii_of_nat (if (n <? 10)%nat then 48 + n else 87 + n).

Definition dquote : ascii := ascii_of_nat 34.
Definition backslash : ascii := ascii_of_nat 92.

(** A character as it stands inside a JSON string. *)
Definition escape (c : ascii) : string :=
  let n := nat_of_ascii c in
  if (n =? 34)%nat then String backslash (String dquote "")
  else if (n =? 92)%nat then String backslash (String backslash "")
  else if (n =? 8)%nat then String backslash "b"
  else if (n =? 9)%nat then String backslash "t"
  else if (n =? 10)%nat then String backslash "n"
  else if (n =? 12)%nat then String backslash "f"
  else if (n =? 13)%nat then String backslash "r"
  else if (n <? 32)%nat then
    String backslash
      ("u00" ++ String (hex_digit (n / 16)) (String (hex_digit (n mod 16)) ""))
  else String c "".

Definition quote (s : string) : string :=
  (String dquote (String.concat "" (map escape (list_ascii_of_string s)))
   ++ String dquote "")%string.

Fixpoint stringify (v : value) : string :=
  match v with
  | VUndef | VNull => "null"
  | VBool b => if b then "true" else "false"
  | VNum n => if Num.isFinite n then Num.to_string n else "null"
  | VStr s => quote s
  | VArr l =>
      ("[" ++ JS.join ","
         ((fix elems (l : list value) : list string :=
             match l with
             | [] => []
             | e :: r => stringify e :: elems r
             end) l) ++ "]")%string
  | VObj o =>
      ("{" ++ JS.join ","
         ((fix props (o : list (string * value)) : list string :=
             match o with
             | [] => []
             | (k, VUndef) :: r => props r
             | (k, e) :: r => (quote k ++ ":" ++ stringify e)%string :: props r
             end) o) ++ "}")%string
  end.

Fixpoint parse (docs : list value) (text : string) : result value :=
  if String.eqb text "null" then Ok VNull
  else
    match docs with
    | [] => Throw SyntaxError
    | v :: r => if String.eqb (stringify v) text then Ok v else parse r text
    end.

End Host.

(* ================================================================== *)
(** ** Displayed values and export *)
(* ================================================================== *)

(** [money(n)] *)
Definition money (n : value) : result string := Num.toFixed2 <$> parseNum n.

(** [lineTotals.reduce((a, b) => a + b, 0)] *)
Definition grandTotal (items : value) : result Num.number :=
  totals ← lineTotals items;
  Ok (foldl Num.add Num.zero totals).

(** [sales.reduce((a, b) => a + parseNum(b), 0)], the total of the sold
    column. *)
Fixpoint sum_sold (a : Num.number) (l : list value) : result Num.number :=
  match l with
  | [] => Ok a
  | b :: r => x ← parseNum b; sum_sold (Num.add a x) r
  end.

Definition totalSold (sales : value) : result Num.number :=
  l ← JS.as_array sales;
  sum_sold Num.zero l.

(** [remainingByRow.reduce((a, b) => a + b, 0)] *)
Definition totalRemaining (items sales : value) : result Num.number :=
  rem ← remainingByRow items sales;
  Ok (foldl Num.add Num.zero rem).

(** The cell of a line total, [money(lineTotals[i])], and the cell of the
    grand total, [money(grandTotal)]. *)
Definition money_cell (total : Num.number) : result string :=
  money (VNum total).

(** [header.status === "Invoiced" || header.status === "Completed"] *)
Definition salesEnabled (header : value) : result bool :=
  status ← JS.get header "status";
  Ok (JS.strict_eq status (VStr "Invoiced")
      || JS.strict_eq status (VStr "Completed")).

(** What [exportJSON] does: it offers a file for download, or tells that
    the export failed. *)
Inductive export_outcome : Type :=
  | Downloaded (name text : string)
  | ExportFailed (e : exn).

Section ExportFile.
(** [JSON.stringify(value, null, 2)] of the host. *)
Variable JSON_pretty : value -> string.

Definition export_body (s : value) : result (string * string) :=
  let text := JSON_pretty s in
  header ← JS.get s "header";
  poNumber ← JS.get header "poNumber";
  number ← JS.to_string (JS.or_else poNumber (VStr "draft"));
  Ok (("purchase-order-" ++ number ++ ".json")%string, text).

(** [exportJSON()] on the committed document. *)
Definition exportJSON (c : comp) : export_outcome :=
  try_catch (uncurry Downloaded <$> export_body (state c)) ExportFailed.
End ExportFile.

(* ================================================================== *)
(** ** The spec's vocabulary, and data for the examples *)
(* ================================================================== *)

(** The characters the spec lists as kept: the digits, the dot and the
    minus sign. *)
Definition kept_chars : list ascii := list_ascii_of_string "0123456789.-".

(** A text of 400 nines: a decimal too large for a finite number. *)
Definition nines : string := string_of_list_ascii (replicate 400 "9"%char).

(** The number the spec gives to a text that parses to [n]: [n] itself,
    and 0 in place of NaN and of the infinities. *)
Definition finite_or_zero (n : Num.number) : Num.number :=
  if Num.isFinite n then n else Num.zero.

(** A decimal text: an optional minus sign, the digits before the point
    and, if there is a point, the digits after it. *)
Definition decimal_chars (neg : bool) (ip : list ascii)
           (fp : option (list ascii)) : list ascii :=
  (if neg then ["-"%char] else [])
  ++ ip ++ match fp with Some ds => "."%char :: ds | None => [] end.

(** What can follow a decimal without being part of it: nothing, or a
    character that is no digit (and, after a decimal without a point, no
    point). *)
Definition ends_decimal (fp : option (list ascii)) (r : list ascii) : Prop :=
  match r with
  | [] => True
  | c :: _ => Num.is_digit c = false /\ (fp = None -> c <> "."%char)
  end.

(** [x] clamped to the interval from [lo] to [hi], as the spec words it:
    [lo] below the interval, [hi] above it, [x] itself inside it. *)
Definition clamp (lo hi x : Num.number) : Num.number :=
  if Num.lt x lo then lo else if Num.lt hi x then hi else x.

(** An editor with one row of the quantity [qty] and nothing sold. *)
Definition one_row (qty : string) : value :=
  VObj [("items", VArr [VObj [("qty", VStr qty)]]); ("sales", VArr [VStr ""])].

(** A calendar for the examples: today's midnight is 1 793 577 600 000 ms
    after the epoch, and the only date text it reads is the one given. *)
Definition example_today : Num.number :=
  Eval vm_compute in Num.of_Z 1793577600000.

Definition example_calendar (date : string) (ms : Z) (text : string) : Num.number :=
  if String.eqb text (date ++ "T23:59:59")%string then Num.of_Z ms else Num.nan.

(** The colour the spec gives to a whole number of days. *)
Definition tier_color (days : Z) : string :=
  if (days <? 0)%Z then "#b91c1c"
  else if (days <=? 15)%Z then "#b45309"
  else "#065f46".

(** The row the spec describes: every recognized field copied, a missing
    one (absent or null) replaced by the empty string, and [qty] taken
    from [ltsaQty] when [qty] itself is missing. *)
Definition field_or_empty (r : value) (k : string) : value :=
  JS.coalesce (JS.get_opt r k) (VStr "").

Definition normalized_row (r : value) : value :=
  VObj (map (fun k =>
               (k, if String.eqb k "qty"
                   then JS.coalesce (JS.coalesce (JS.get_opt r "qty")
                                                 (JS.get_opt r "ltsaQty"))
                                    (VStr "")
                   else field_or_empty r k))
            item_fields).

(** Whether a value has a string form: every value has one, except an
    object with a field named [toString] and an array that holds such an
    object at any depth. *)
Fixpoint stringable (v : value) : bool :=
  match v with
  | VArr l =>
      (fix all (l : list value) : bool :=
         match l with
         | [] => true
         | e :: r => stringable e && all r
         end) l
  | VObj o =>
      match JS.assoc_get "toString" o with Some _ => false | None => true end
  | _ => true
  end.

(** An object that has no string form. *)
Definition no_text : value := VObj [("toString", VNum (Num.of_Z 1))].

(** The text the spec gives to a legacy sales entry: empty for the
    numeric zero and for a missing entry, its string form otherwise. *)
Definition sale_text (s : value) : result string :=
  match s with
  | VNum n => Ok (if Num.strict_eq n Num.zero then "" else Num.to_string n)
  | VNull | VUndef => Ok ""
  | _ => JS.to_string s
  end.

(** The text the spec gives to an imported sales entry: empty for a
    missing entry, its string form otherwise. *)
Definition coerced (s : value) : result string :=
  if JS.is_nullish s then Ok "" else JS.to_string s.

(** The legacy shape of the spec's example. *)
Definition legacy_example : value :=
  VObj [("items", VArr [VObj [("ltsaQty", VStr "5")]]);
        ("sales", VArr [VNum Num.zero])].

Section Vocabulary.
Variable JSON_parse : string -> result value.
Variable JSON_stringify : value -> string.

(** What a slot holds, in the spec's reading: an absent slot, a text
    that does not parse and a value that is not truthy all count as
    nothing found. *)
Definition found (st : storage) (k : string) : option value :=
  match JSON_parse (getItem_or_null st k) with
  | Ok v => if JS.truthy v then Some v else None
  | Throw _ => None
  end.

Definition migrated_or_default (st : storage) (old : value) : value * storage :=
  match migrate old with
  | Ok m => (m, <[STORAGE_KEY := JSON_stringify m]> st)
  | Throw _ => (defaultState, st)
  end.

(** [load] as the spec words it: the current slot if it holds something,
    else the newer legacy slot, else the older one, else the default. *)
Definition load_spec (st : storage) : value * storage :=
  match found st STORAGE_KEY with
  | Some v3 => (v3, st)
  | None =>
      match found st "po_app_state_v2" with
      | Some old => migrated_or_default st old
      | None =>
          match found st "po_app_state_v1" with
          | Some old => migrated_or_default st old
          | None => (defaultState, st)
          end
      end
  end.

(** Every action but the option picker, [newPO] and the import. *)
Inductive keeps_option : (comp -> result comp) -> Prop :=
  | keeps_updateHeader patch : keeps_option (updateHeader JSON_stringify patch)
  | keeps_updateItem i k v : keeps_option (updateItem JSON_stringify i k v)
  | keeps_addRow : keeps_option (addRow JSON_stringify)
  | keeps_removeRow i : keeps_option (removeRow JSON_stringify i)
  | keeps_clearAllItems : keeps_option (clearAllItems JSON_stringify)
  | keeps_editSold i t : keeps_option (editSold JSON_stringify i t)
  | keeps_sync_header : keeps_option (run_sync_header JSON_stringify)
  | keeps_sync_sales : keeps_option (run_sync_sales JSON_stringify).

End Vocabulary.

(** A storage whose current slot holds a truncated text while the newer
    legacy slot holds the legacy example. *)
Definition storage_malformed_current : storage :=
  {[ STORAGE_KEY := "{"; "po_app_state_v2" := Host.stringify legacy_example ]}.

(** A storage with the legacy example in the newer legacy slot only. *)
Definition storage_legacy : storage :=
  {[ "po_app_state_v2" := Host.stringify legacy_example ]}.

(** The document an accepted import builds from the parsed [data] whose
    [items] are [rows], with the [sales] it made of the sales of
    [data]. *)
Definition imported (data : value) (rows sales : list value) : value :=
  VObj (JS.assoc_set "sales" (VArr sales)
          (JS.assoc_set "items" (VArr (map normalized_row rows))
             (JS.spread data))).

(** The sales an import makes: every entry of a sales array as a text,
    and no entry when there is no such array. *)
Definition imported_sales (data : value) : result (list value) :=
  match JS.get_opt data "sales" with
  | VArr sl => map VStr <$> mapM coerced sl
  | _ => Ok []
  end.

(** The editor after it started on an empty storage: the default
    document, padded and saved by the two effects. *)
Definition settled_default : comp :=
  Comp newPO_state {[ STORAGE_KEY := Host.stringify newPO_state ]} []
       (Some (VStr "KNPC_73000")) (Some (VNum (Num.of_Z 1))).

(** Files for the examples: one whose header is a text, *)
Definition file_text_header : value :=
  VObj [("header", VStr "x"); ("items", VArr [])].

(** one with a null row, *)
Definition file_null_row : value :=
  VObj [("header", VObj []); ("items", VArr [VNull])].

(** and a document with one row and no sales array. *)
Definition file_no_sales : value :=
  VObj [("option", VStr "KNPC_73000");
        ("header", defaultHeader);
        ("items", VArr [VObj [("qty", VStr "1")]])].

Definition example_files : list value :=
  [file_text_header; file_null_row; file_no_sales].

(** What [typeof v === "object"] accepts, null apart. *)
Definition is_object (v : value) : bool :=
  match v with VObj _ | VArr _ => true | _ => false end.

(** The reports of an import as the spec words them: "Import failed"
    exactly when parsing raises, "Invalid PO file" exactly when the
    parsed value lacks a [header] object or an [items] array. *)
Definition import_reports_spec (parsed : result value) : list report :=
  match parsed with
  | Throw e => [ImportFailed e]
  | Ok data =>
      if is_object (JS.get_opt data "header")
         && JS.isArray (JS.get_opt data "items")
      then [] else [InvalidPOFile]
  end.

(** A document with no row, otherwise well formed. *)
Definition file_no_items : value :=
  VObj [("option", VStr "KNPC_73000");
        ("header", defaultHeader);
        ("items", VArr []);
        ("sales", VArr [])].

(** The sales are as long as the items. *)
Definition aligned (s : value) : Prop :=
  exists rows sales,
    JS.get s "items" = Ok (VArr rows)
    /\ JS.get s "sales" = Ok (VArr sales)
    /\ length sales = length rows.

(** The option of a document selects a preset of the table. *)
Definition option_valid (s : value) : Prop :=
  exists opt k b,
    JS.get s "option" = Ok opt
    /\ JS.to_string opt = Ok k
    /\ JS.assoc_get k BENEFICIARY_OPTIONS = Some b.

(** A file that names an option the table does not have. *)
Definition file_unknown_option : value :=
  VObj [("option", VStr "OTHER");
        ("header", defaultHeader);
        ("items", VArr [defaultItem]);
        ("sales", VArr [VStr ""])].

(** A row as the editor writes it: the nine fields in their order, none
    of them null or undefined. *)
Definition is_row (r : value) : Prop :=
  exists o,
    r = VObj o /\ map fst o = item_fields
    /\ Forall (fun kv => JS.is_nullish (snd kv) = false) o.

(** A document of the current shape: an object whose [items] are such
    rows, whose [sales] are texts and whose [header] is truthy. *)
Definition current_shape (s : value) : Prop :=
  exists o rows texts,
    s = VObj o
    /\ JS.assoc_get "items" o = Some (VArr rows)
    /\ Forall is_row rows
    /\ JS.assoc_get "sales" o = Some (VArr (map VStr texts))
    /\ JS.truthy (default VUndef (JS.assoc_get "header" o)) = true.

(** [sales.length === items.length] holds on the document. *)
Definition lengths_equal (s : value) : Prop :=
  exists items sales sl il,
    JS.get s "items" = Ok items
    /\ JS.get s "sales" = Ok sales
    /\ JS.get sales "length" = Ok sl
    /\ JS.get items "length" = Ok il
    /\ JS.strict_eq sl il = true.

(** The current slot holds the text of the committed document. *)
Definition saved (JSON_stringify : value -> string) (c : comp) : Prop :=
  store c !! STORAGE_KEY = Some (JSON_stringify (state c)).

Section Steps.
Variable JSON_stringify : value -> string.

(** What the page lets happen to the editor, one event at a time: a
    button or a field of the page, or a render with its effects. A sold
    quantity is typed in the row of an existing item. The import is left
    out. *)
Inductive step : comp -> comp -> Prop :=
  | step_newPO c c' :
      newPO JSON_stringify c = Ok c' -> step c c'
  | step_clearStorage c c' :
      clearStorage JSON_stringify c = Ok c' -> step c c'
  | step_setOption key c c' :
      In key (map fst BENEFICIARY_OPTIONS) ->
      setOption JSON_stringify key c = Ok c' -> step c c'
  | step_updateHeader patch c c' :
      updateHeader JSON_stringify patch c = Ok c' -> step c c'
  | step_updateItem i k v c c' :
      updateItem JSON_stringify i k v c = Ok c' -> step c c'
  | step_addRow c c' :
      addRow JSON_stringify c = Ok c' -> step c c'
  | step_removeRow i c c' :
      removeRow JSON_stringify i c = Ok c' -> step c c'
  | step_clearAllItems c c' :
      clearAllItems JSON_stringify c = Ok c' -> step c c'
  | step_editSold i t rows c c' :
      JS.get (state c) "items" = Ok (VArr rows) -> i < length rows ->
      editSold JSON_stringify i t c = Ok c' -> step c c'
  | step_commit b c c' :
      commit JSON_stringify c = Ok (b, c') -> step c c'.

(** The handlers of the page with any argument, and the render. *)
Inductive handler : (comp -> result comp) -> Prop :=
  | handler_newPO : handler (newPO JSON_stringify)
  | handler_clearStorage : handler (clearStorage JSON_stringify)
  | handler_setOption key : handler (setOption JSON_stringify key)
  | handler_updateHeader patch : handler (updateHeader JSON_stringify patch)
  | handler_updateItem i k v : handler (updateItem JSON_stringify i k v)
  | handler_addRow : handler (addRow JSON_stringify)
  | handler_removeRow i : handler (removeRow JSON_stringify i)
  | handler_clearAllItems : handler (clearAllItems JSON_stringify)
  | handler_editSold i t : handler (editSold JSON_stringify i t)
  | handler_render : handler (fun c => snd <$> commit JSON_stringify c).

End Steps.

(** A document the editor can work on: an object with at least one item
    row, no row null or undefined, as many sales as rows, a header that is
    not null or undefined, and an option of the table. *)
Definition sound (s : value) : Prop :=
  exists o rows sales,
    s = VObj o
    /\ JS.assoc_get "items" o = Some (VArr rows)
    /\ rows <> []
    /\ Forall (fun r => JS.is_nullish r = false) rows
    /\ JS.assoc_get "sales" o = Some (VArr sales)
    /\ length sales = length rows
    /\ JS.is_nullish (default VUndef (JS.assoc_get "header" o)) = false
    /\ option_valid s.

(** A document as the page itself writes it: the option is a key of the
    table, the header and the rows are objects whose fields are texts,
    there is at least one row, and the sales are texts, one per row. Every
    field the page shows is a text then. *)
Definition texts_only (o : list (string * value)) : Prop :=
  Forall (fun kv => exists t, snd kv = VStr t) o.

Definition plain (s : value) : Prop :=
  exists o key hdr rows texts,
    s = VObj o
    /\ JS.assoc_get "option" o = Some (VStr key)
    /\ In key (map fst BENEFICIARY_OPTIONS)
    /\ JS.assoc_get "header" o = Some (VObj hdr) /\ texts_only hdr
    /\ JS.assoc_get "items" o = Some (VArr rows) /\ rows <> []
    /\ Forall (fun r => exists ro, r = VObj ro /\ texts_only ro) rows
    /\ JS.assoc_get "sales" o = Some (VArr (map VStr texts))
    /\ length texts = length rows.

(** Both effects have seen the option and the item count of the
    committed document. *)
Definition quiet (c : comp) : Prop :=
  exists o rows,
    state c = VObj o
    /\ option_dep c = Some (default VUndef (JS.assoc_get "option" o))
    /\ default VUndef (JS.assoc_get "items" o) = VArr rows
    /\ length_dep c = Some (JS.length_of rows).

(** The component after [setAndSave] committed the document [s]. *)
Definition committed (JSON_stringify : value -> string) (c : comp) (s : value)
  : comp :=
  Comp s (<[STORAGE_KEY := JSON_stringify s]> (store c))
       (alerts c) (option_dep c) (length_dep c).

(* ================================================================== *)
(** ** Properties *)
(* ================================================================== *)

(** *** The error monad *)

Lemma bind_Ok {A B} (m : result A) (f : A -> result B) (b : B) :
  m ≫= f = Ok b -> exists a, m = Ok a /\ f a = Ok b.
Proof. destruct m as [a|e]; simpl; [eauto | discriminate]. Qed.

Lemma fmap_Ok {A B} (g : A -> B) (m : result A) (b : B) :
  g <$> m = Ok b -> exists a, m = Ok a /\ b = g a.
Proof. destruct m as [a|e]; simpl; [intros [= <-]; eauto | discriminate]. Qed.

(** Splits a hypothesis [x ← m; k = Ok r] into its steps. *)
Ltac ok_steps :=
  repeat match goal with
    | H : _ ≫= _ = Ok _ |- _ =>
        let a := fresh "a" in
        let Ha := fresh "Ha" in
        apply bind_Ok in H as (a & Ha & H)
    | H : Ok _ = Ok _ |- _ => injection H as H
    | H : Throw _ = Ok _ |- _ => discriminate H
    end.

(** Runs the property reads and the monad steps of a goal. *)
Ltac run_reads :=
  cbn [JS.get JS.get_index JS.as_array JS.elements JS.spread
       default from_option id mbind result_bind fmap result_fmap].

Lemma mapM_Ok_length {A B} (f : A -> result B) (l : list A) (l' : list B) :
  mapM f l = Ok l' -> length l' = length l.
Proof.
  revert l'. induction l as [|a l IH]; intros l' H; simpl in H.
  - injection H as <-. reflexivity.
  - apply bind_Ok in H as (b & _ & H).
    apply bind_Ok in H as (bs & Hbs & H).
    injection H as <-. simpl. f_equal. eauto.
Qed.

Lemma mapM_total {A B} (f : A -> result B) (g : A -> B) (l : list A) :
  Forall (fun a => f a = Ok (g a)) l -> mapM f l = Ok (map g l).
Proof.
  induction 1 as [|a l Ha _ IH]; simpl; [reflexivity|].
  rewrite Ha. simpl. rewrite IH. reflexivity.
Qed.

(** *** Objects *)

Lemma assoc_get_set_eq k v o : JS.assoc_get k (JS.assoc_set k v o) = Some v.
Proof.
  induction o as [|[k' v'] o IH]; simpl.
  - rewrite String.eqb_refl. reflexivity.
  - destruct (String.eqb k k') eqn:E; simpl.
    + rewrite String.eqb_refl. reflexivity.
    + rewrite E. exact IH.
Qed.

Lemma assoc_get_set_ne k k' v o :
  k <> k' -> JS.assoc_get k' (JS.assoc_set k v o) = JS.assoc_get k' o.
Proof.
  intros Hne. induction o as [|[k0 v0] o IH]; simpl.
  - destruct (String.eqb k' k) eqn:E; [|reflexivity].
    apply String.eqb_eq in E. congruence.
  - destruct (String.eqb k k0) eqn:E; simpl.
    + apply String.eqb_eq in E. subst k0.
      destruct (String.eqb k' k) eqn:E'; [|reflexivity].
      apply String.eqb_eq in E'. congruence.
    + rewrite IH. reflexivity.
Qed.

Lemma assoc_set_id k v o : JS.assoc_get k o = Some v -> JS.assoc_set k v o = o.
Proof.
  induction o as [|[k' v'] o IH]; simpl; [discriminate|].
  destruct (String.eqb k k') eqn:E.
  - apply String.eqb_eq in E. intros [= ->]. congruence.
  - intros H. rewrite IH; auto.
Qed.

Lemma assoc_set_set k v v' o :
  JS.assoc_set k v (JS.assoc_set k v' o) = JS.assoc_set k v o.
Proof.
  induction o as [|[k0 v0] o IH]; simpl.
  - rewrite String.eqb_refl. reflexivity.
  - destruct (String.eqb k k0) eqn:E; simpl.
    + rewrite String.eqb_refl. reflexivity.
    + rewrite E, IH. reflexivity.
Qed.

(** *** Numbers *)

Lemma to_string_outcome : forall v,
  match JS.to_string v with
  | Ok _ => stringable v = true
  | Throw e => e = TypeError /\ stringable v = false
  end.
Proof.
  fix IH 1. intros [| |b|n|s|l|o]; cbn [JS.to_string stringable];
    try reflexivity.
  - assert (H : match (fix elems (l : list value) : result (list string) :=
                         match l with
                         | [] => Ok []
                         | e :: r =>
                             s ← (if JS.is_nullish e then Ok ""
                                  else JS.to_string e);
                             ss ← elems r;
                             Ok (s :: ss)
                         end) l with
                | Ok _ => (fix all (l : list value) : bool :=
                             match l with
                             | [] => true
                             | e :: r => stringable e && all r
                             end) l = true
                | Throw e => e = TypeError
                             /\ (fix all (l : list value) : bool :=
                                   match l with
                                   | [] => true
                                   | e :: r => stringable e && all r
                                   end) l = false
                end).
    { induction l as [|x l IHl]; [reflexivity|].
      pose proof (IH x) as Hx.
      destruct (JS.is_nullish x) eqn:En.
      - assert (Hs : stringable x = true) by (destruct x; easy).
        rewrite Hs. cbn [mbind result_bind andb].
        destruct ((fix elems (l : list value) : result (list string) :=
                     match l with
                     | [] => Ok []
                     | e :: r =>
                         s ← (if JS.is_nullish e then Ok ""
                              else JS.to_string e);
                         ss ← elems r;
                         Ok (s :: ss)
                     end) l); exact IHl.
      - destruct (JS.to_string x) as [t|e].
        + rewrite Hx. cbn [mbind result_bind andb].
          destruct ((fix elems (l : list value) : result (list string) :=
                       match l with
                       | [] => Ok []
                       | e :: r =>
                           s ← (if JS.is_nullish e then Ok ""
                                else JS.to_string e);
                           ss ← elems r;
                           Ok (s :: ss)
                       end) l); exact IHl.
        + destruct Hx as [-> Hx]. rewrite Hx. split; reflexivity. }
    destruct ((fix elems (l : list value) : result (list string) :=
                 match l with
                 | [] => Ok []
                 | e :: r =>
                     s ← (if JS.is_nullish e then Ok "" else JS.to_string e);
                     ss ← elems r;
                     Ok (s :: ss)
                 end) l); exact H.
  - destruct (JS.assoc_get "toString" o); [split|]; reflexivity.
Qed.

Lemma to_string_stringable v :
  stringable v = true -> exists t, JS.to_string v = Ok t.
Proof.
  intros H. pose proof (to_string_outcome v) as Ho.
  destruct (JS.to_string v) as [t|e]; [eauto|].
  destruct Ho as [_ Ho]. congruence.
Qed.

Lemma to_string_not_stringable v :
  stringable v = false -> JS.to_string v = Throw TypeError.
Proof.
  intros H. pose proof (to_string_outcome v) as Ho.
  destruct (JS.to_string v) as [t|e]; [congruence|].
  destruct Ho as [-> _]. reflexivity.
Qed.

Lemma to_string_TypeError v e : JS.to_string v = Throw e -> e = TypeError.
Proof.
  intros H. pose proof (to_string_outcome v) as Ho. rewrite H in Ho.
  exact (proj1 Ho).
Qed.

(** [parseNum] after the conversion to text. *)
Lemma parseNum_to_string v s :
  JS.is_nullish v = false -> JS.to_string v = Ok s ->
  parseNum v = Ok (finite_or_zero (Num.parseFloat (strip s))).
Proof.
  intros Hn Hs. unfold parseNum.
  destruct v; try discriminate Hn; rewrite Hs; reflexivity.
Qed.

Lemma parseNum_text s :
  parseNum (VStr s) = Ok (finite_or_zero (Num.parseFloat (strip s))).
Proof. reflexivity. Qed.

Lemma parseNum_Throw v e :
  JS.to_string v = Throw e -> JS.is_nullish v = false -> parseNum v = Throw e.
Proof.
  intros Hs Hn. unfold parseNum.
  destruct v; try discriminate Hn; rewrite Hs; reflexivity.
Qed.

Lemma finite_or_zero_finite n : Num.isFinite (finite_or_zero n) = true.
Proof.
  unfold finite_or_zero. destruct (Num.isFinite n) eqn:E; [exact E|reflexivity].
Qed.

Lemma parseNum_finite v n : parseNum v = Ok n -> Num.isFinite n = true.
Proof.
  unfold parseNum. intros H.
  destruct v; try (injection H as <-; reflexivity);
    apply bind_Ok in H as (? & _ & H); injection H as <-;
    apply finite_or_zero_finite.
Qed.

(** [parseNum] returns on every value that has a string form. *)
Lemma parseNum_stringable v :
  stringable v = true -> exists n, parseNum v = Ok n.
Proof.
  intros H. destruct (to_string_stringable v H) as [t Ht].
  destruct (JS.is_nullish v) eqn:En.
  - destruct v; try discriminate En; eexists; reflexivity.
  - rewrite (parseNum_to_string v t En Ht). eauto.
Qed.

Lemma keeps_kept_chars c : keeps c = true <-> c ∈ kept_chars.
Proof.
  assert (H : keeps c = bool_decide (c ∈ kept_chars)).
  { destruct c as [[] [] [] [] [] [] [] []]; vm_compute; reflexivity. }
  rewrite H. apply bool_decide_eq_true.
Qed.

Lemma strip_filter s :
  list_ascii_of_string (strip s)
  = filter (fun c => c ∈ kept_chars) (list_ascii_of_string s).
Proof.
  unfold strip. rewrite list_ascii_of_string_of_list_ascii.
  apply list_filter_iff. intros c. apply keeps_kept_chars.
Qed.

Lemma strip_keeps s : Forall (fun c => keeps c = true) (list_ascii_of_string (strip s)).
Proof.
  unfold strip. rewrite list_ascii_of_string_of_list_ascii.
  apply Forall_forall. intros c Hc.
  apply list_elem_of_filter in Hc. exact (proj1 Hc).
Qed.

(** Stripping twice is stripping once. *)
Lemma strip_strip s : strip (strip s) = strip s.
Proof.
  unfold strip at 1.
  assert (H : forall l, Forall (fun c => keeps c = true) l ->
                        filter (fun c => keeps c = true) l = l).
  { induction 1 as [|c l Hc _ IH]; [reflexivity|].
    rewrite filter_cons. destruct (decide (keeps c = true)); [|contradiction].
    f_equal. exact IH. }
  rewrite (H _ (strip_keeps s)). apply string_of_list_ascii_of_string.
Qed.

(** *** Reading a decimal *)

Lemma take_digits_app ds r :
  Forall (fun c => Num.is_digit c = true) ds ->
  match r with [] => True | c :: _ => Num.is_digit c = false end ->
  Num.take_digits (ds ++ r) = (ds, r).
Proof.
  intros Hds Hr. induction Hds as [|d ds Hd _ IH]; cbn [app Num.take_digits].
  - destruct r as [|c r]; [reflexivity|].
    cbn [Num.take_digits]. rewrite Hr. reflexivity.
  - rewrite Hd, IH. reflexivity.
Qed.

Lemma kept_cases c :
  keeps c = true -> Num.is_digit c = true \/ c = "."%char \/ c = "-"%char.
Proof.
  unfold keeps. intros H.
  apply orb_true_iff in H as [H|H]; [apply orb_true_iff in H as [H|H]|].
  - left. exact H.
  - right. left. apply Ascii.eqb_eq. exact H.
  - right. right. apply Ascii.eqb_eq. exact H.
Qed.

(** A kept character that is no digit starts no exponent. *)
Lemma exponent_part_kept r :
  Forall (fun c => keeps c = true) r ->
  match r with [] => True | c :: _ => Num.is_digit c = false end ->
  Num.exponent_part r = 0%Z.
Proof.
  intros Hk Hr. destruct r as [|c r]; [reflexivity|].
  inversion Hk as [|? ? Hc _]; subst.
  destruct (kept_cases c Hc) as [H|[->| ->]]; [congruence| |]; reflexivity.
Qed.

Lemma digit_head c r :
  Num.is_digit c = true ->
  Num.skip_spaces (c :: r) = c :: r
  /\ Num.take_sign (c :: r) = (false, c :: r)
  /\ Num.starts_with (list_ascii_of_string "Infinity") (c :: r) = false.
Proof.
  destruct c as [[] [] [] [] [] [] [] []]; try discriminate;
    intros _; repeat split.
Qed.

(** The value [parseFloat] gives to a stripped text that starts with a
    decimal. *)
Lemma parseFloat_decimal s neg ip fp r :
  list_ascii_of_string (strip s) = decimal_chars neg ip fp ++ r ->
  Forall (fun c => Num.is_digit c = true) ip ->
  Forall (fun c => Num.is_digit c = true) (default [] fp) ->
  ip ++ default [] fp <> [] ->
  ends_decimal fp r ->
  Num.parseFloat (strip s)
  = Num.of_decimal neg (Num.digits_value (ip ++ default [] fp))
                   (- Z.of_nat (length (default [] fp))).
Proof.
  intros Hs Hip Hfp Hne Hr.
  pose proof (strip_keeps s) as Hk. rewrite Hs in Hk.
  assert (Hkr : Forall (fun c => keeps c = true) r).
  { apply Forall_app in Hk as [_ Hk]. exact Hk. }
  assert (Hr0 : match r with [] => True | c :: _ => Num.is_digit c = false end).
  { destruct r; [exact I | exact (proj1 Hr)]. }
  (* what follows the digits before the point *)
  set (tail := match fp with Some ds => "."%char :: ds | None => [] end ++ r).
  assert (Htail : Num.take_digits (ip ++ tail) = (ip, tail)).
  { apply take_digits_app; [exact Hip|].
    subst tail. destruct fp as [ds|]; [reflexivity | exact Hr0]. }
  assert (Hfrac :
            (let '(fp', r2) :=
               match tail with
               | "."%char :: r' => Num.take_digits r'
               | _ => ([], tail)
               end in (fp', Num.exponent_part r2))
            = (default [] fp, 0%Z)).
  { subst tail. destruct fp as [ds|]; cbn [default from_option app].
    - cbn [option_rect id]. unfold id.
      rewrite (take_digits_app ds r Hfp Hr0).
      rewrite (exponent_part_kept r Hkr Hr0). reflexivity.
    - destruct r as [|c r']; [reflexivity|].
      destruct Hr as [Hd Hdot]. specialize (Hdot eq_refl).
      inversion Hkr as [|? ? Hc _]; subst.
      destruct (kept_cases c Hc) as [H|[->| ->]];
        [congruence | contradiction | reflexivity]. }
  assert (Hbody : forall cs,
             cs = ip ++ tail ->
             Num.starts_with (list_ascii_of_string "Infinity") cs = false ->
             (if Num.starts_with (list_ascii_of_string "Infinity") cs
              then S754_infinity neg
              else
                let '(ip0, r1) := Num.take_digits cs in
                let '(fp0, r2) :=
                  match r1 with
                  | "."%char :: r' => Num.take_digits r'
                  | _ => ([], r1)
                  end in
                match ip0 ++ fp0 with
                | [] => Num.nan
                | ds =>
                    Num.of_decimal neg (Num.digits_value ds)
                      (Num.exponent_part r2 - Z.of_nat (length fp0))
                end)
             = Num.of_decimal neg (Num.digits_value (ip ++ default [] fp))
                              (- Z.of_nat (length (default [] fp)))).
  { intros cs -> Hinf. rewrite Hinf, Htail.
    destruct (match tail with
              | "."%char :: r' => Num.take_digits r'
              | _ => ([], tail)
              end) as [fp0 r2] eqn:E.
    cbv zeta iota beta in Hfrac. injection Hfrac as -> He.
    rewrite He.
    destruct (ip ++ default [] fp) eqn:Eds; [contradiction|].
    reflexivity. }
  assert (Hhead : Num.starts_with (list_ascii_of_string "Infinity") (ip ++ tail)
                  = false
                  /\ (neg = false ->
                      Num.skip_spaces (ip ++ tail) = ip ++ tail
                      /\ Num.take_sign (ip ++ tail) = (false, ip ++ tail))).
  { destruct Hip as [|d ip Hd _].
    - subst tail. destruct fp as [ds|]; [|contradiction].
      repeat split.
    - cbn [app]. destruct (digit_head d (ip ++ tail) Hd) as (H1 & H2 & H3).
      split; [exact H3|]. intros _. split; assumption. }
  destruct Hhead as [Hinf Hpos].
  unfold Num.parseFloat. rewrite Hs. unfold decimal_chars.
  fold tail. rewrite <- !app_assoc. fold tail.
  destruct neg.
  - cbn [app Num.skip_spaces Num.take_sign].
    replace (Num.is_space "-") with false by reflexivity.
    apply Hbody; [reflexivity | exact Hinf].
  - cbn [app]. destruct (Hpos eq_refl) as [-> ->].
    apply Hbody; [reflexivity | exact Hinf].
Qed.

(** C10, amended. [parseNum] returns a finite number on every input
    that has a string form, and on every text in particular: null and
    undefined give 0; any other input is turned into text, stripped of
    every character that is not a digit, a dot or a minus sign, and read
    as a decimal (an optional minus sign, digits, an optional point and
    digits, whatever follows being ignored), with 0 in place of NaN and
    of the infinities. It raises a TypeError, with [String], on an object
    that has a field named [toString] and on an array that holds one. In
    particular "12.50 KWD" gives 12.5 (= 25/2), "-5" gives -5, null
    gives 0, a text without digits gives 0, and a text whose value
    overflows gives 0. *)
Theorem parseNum_total :
  (forall v, stringable v = true ->
             exists n, parseNum v = Ok n /\ Num.isFinite n = true) /\
  (forall s, exists n, parseNum (VStr s) = Ok n /\ Num.isFinite n = true) /\
  (forall v, stringable v = false -> parseNum v = Throw TypeError) /\
  (forall v s,
      JS.is_nullish v = false -> JS.to_string v = Ok s ->
      parseNum v = parseNum (VStr s)) /\
  (forall s, parseNum (VStr s) = parseNum (VStr (strip s))) /\
  (forall s,
      list_ascii_of_string (strip s)
      = filter (fun c => c ∈ kept_chars) (list_ascii_of_string s)) /\
  (forall s neg ip fp r,
      list_ascii_of_string (strip s) = decimal_chars neg ip fp ++ r ->
      Forall (fun c => Num.is_digit c = true) ip ->
      Forall (fun c => Num.is_digit c = true) (default [] fp) ->
      ip ++ default [] fp <> [] ->
      ends_decimal fp r ->
      parseNum (VStr s)
      = Ok (finite_or_zero
              (Num.of_decimal neg (Num.digits_value (ip ++ default [] fp))
                              (- Z.of_nat (length (default [] fp)))))) /\
  (parseNum (VStr "12.50 KWD") = Ok (Num.div (Num.of_Z 25) (Num.of_Z 2))
   /\ parseNum (VStr "-5") = Ok (Num.of_Z (-5))
   /\ parseNum (VStr "3 pcs") = Ok (Num.of_Z 3)
   /\ parseNum (VStr "1-7") = Ok (Num.of_Z 1)
   /\ parseNum (VNum (Num.of_Z (-5))) = Ok (Num.of_Z (-5))) /\
  (parseNum VNull = Ok Num.zero /\ parseNum VUndef = Ok Num.zero) /\
  (Num.parseFloat (strip "KWD") = Num.nan
   /\ parseNum (VStr "KWD") = Ok Num.zero) /\
  (Num.parseFloat (strip nines) = S754_infinity false
   /\ parseNum (VStr nines) = Ok Num.zero).
Proof.
  split.
  { intros v Hv. destruct (parseNum_stringable v Hv) as [n Hn].
    exists n. split; [exact Hn | exact (parseNum_finite v n Hn)]. }
  split.
  { intros s. eexists. split; [apply parseNum_text|].
    apply finite_or_zero_finite. }
  split.
  { intros v Hv. apply parseNum_Throw.
    - apply to_string_not_stringable, Hv.
    - destruct v; try discriminate Hv; reflexivity. }
  split.
  { intros v s Hn Hs. rewrite (parseNum_to_string v s Hn Hs).
    symmetry. apply parseNum_text. }
  split.
  { intros s. rewrite !parseNum_text, strip_strip. reflexivity. }
  split; [exact strip_filter|].
  split.
  { intros s neg ip fp r Hs Hip Hfp Hne Hr.
    rewrite parseNum_text.
    rewrite (parseFloat_decimal s neg ip fp r Hs Hip Hfp Hne Hr).
    reflexivity. }
  repeat split; vm_compute; reflexivity.
Qed.

(** C10 as stated fails: [parseNum] raises on an object that has a field
    named [toString], which a file or a storage slot can hold, as the
    quantity of a row for one. *)
Lemma parseNum_raises_counterexample :
  JS.to_string no_text = Throw TypeError
  /\ parseNum no_text = Throw TypeError
  /\ qtyOf (VObj [("qty", no_text)]) = Throw TypeError
  /\ parseNum (VArr [VStr "1"; no_text]) = Throw TypeError.
Proof. repeat split. Qed.

(** The theorem at the text "-12.5 KWD", whose kept characters are a
    decimal. *)
Lemma parseNum_total_witness :
  list_ascii_of_string (strip "-12.5 KWD")
  = decimal_chars true (list_ascii_of_string "12")
                  (Some (list_ascii_of_string "5")) ++ []
  /\ parseNum (VStr "-12.5 KWD")
     = Ok (finite_or_zero (Num.of_decimal true 125 (-1))).
Proof.
  assert (H : list_ascii_of_string (strip "-12.5 KWD")
              = decimal_chars true (list_ascii_of_string "12")
                              (Some (list_ascii_of_string "5")) ++ [])
    by reflexivity.
  split; [exact H|].
  refine (proj1 (proj2 (proj2 (proj2 (proj2 (proj2 (proj2 parseNum_total))))))
                "-12.5 KWD" true (list_ascii_of_string "12")
                (Some (list_ascii_of_string "5")) [] H _ _ _ I).
  - repeat constructor.
  - repeat constructor.
  - discriminate.
Defined.

(** *** The order on numbers *)

Lemma SFcompare_antisym (a b : Num.number) :
  SFcompare b a = CompOpp <$> SFcompare a b.
Proof.
  destruct a as [s|s| |s m e], b as [s'|s'| |s' m' e']; simpl;
    try reflexivity;
    try (destruct s; reflexivity); try (destruct s'; reflexivity);
    try (destruct s, s'; reflexivity).
  destruct s, s'; simpl; try reflexivity;
    rewrite (Z.compare_antisym e e');
    destruct (e ?= e')%Z; simpl; try reflexivity;
    change (Pos.compare_cont Eq m' m) with (m' ?= m)%positive;
    change (Pos.compare_cont Eq m m') with (m ?= m')%positive;
    rewrite (Pos.compare_antisym m m');
    destruct (m ?= m')%positive; reflexivity.
Qed.

Lemma SFcompare_Eq_finite s m e s' m' e' :
  SFcompare (S754_finite s m e) (S754_finite s' m' e') = Some Eq ->
  S754_finite s m e = S754_finite s' m' e'.
Proof.
  simpl. destruct s, s'; try discriminate;
    destruct (e ?= e')%Z eqn:He; try discriminate;
    apply Z.compare_eq in He; subst e';
    change (Pos.compare_cont Eq m m') with (m ?= m')%positive;
    destruct (m ?= m')%positive eqn:Hm; try discriminate;
    apply Pos.compare_eq in Hm; subst m'; reflexivity.
Qed.

(** On a non-empty interval starting at 0 the [Math.min]/[Math.max]
    composition of the handler is the clamp, up to the sign of a zero,
    which neither [!==] nor [String] sees. *)
Lemma min_max_clamp (p q : Num.number) :
  Num.isFinite p = true -> Num.isFinite q = true ->
  Num.le Num.zero q = true ->
  let n := Num.min q (Num.max p Num.zero) in
  Num.strict_ne p n = Num.strict_ne p (clamp Num.zero q p)
  /\ Num.to_string n = Num.to_string (clamp Num.zero q p).
Proof.
  intros Hp Hq H0q.
  destruct q as [sq| | |sq mq eq]; try discriminate;
    [|destruct sq; [discriminate|]];
    (destruct p as [sp| | |sp mp ep]; try discriminate;
     [|destruct sp]).
  - destruct sp, sq; split; reflexivity.
  - destruct sq; split; reflexivity.
  - destruct sq; split; reflexivity.
  - destruct sp; split; reflexivity.
  - split; reflexivity.
  - intros n. subst n.
    change (Num.max (S754_finite false mp ep) Num.zero)
      with (S754_finite false mp ep).
    unfold clamp.
    change (Num.lt (S754_finite false mp ep) Num.zero) with false.
    cbv iota. unfold Num.min, Num.lt, SFltb.
    destruct (SFcompare (S754_finite false mq eq) (S754_finite false mp ep))
      as [[]|] eqn:E; [| | |discriminate E]; split; reflexivity.
Qed.

Lemma array_store_lookup (l : list value) i x :
  JS.array_store l i x !! i = Some x.
Proof.
  unfold JS.array_store.
  destruct (i <? length l)%nat eqn:E.
  - apply Nat.ltb_lt in E. apply list_lookup_insert_eq; exact E.
  - apply Nat.ltb_ge in E.
    rewrite lookup_app_r by exact E.
    rewrite lookup_app_r by (rewrite length_replicate; lia).
    rewrite length_replicate.
    replace (i - length l - (i - length l)) with 0 by lia. reflexivity.
Qed.

Lemma get_set_eq k v s : JS.get (VObj (JS.assoc_set k v s)) k = Ok v.
Proof. simpl. rewrite assoc_get_set_eq. reflexivity. Qed.

Lemma get_set_ne k k' v s :
  k <> k' -> JS.get (VObj (JS.assoc_set k v s)) k' = JS.get (VObj s) k'.
Proof. intros H. simpl. rewrite assoc_get_set_ne by exact H. reflexivity. Qed.

Section EditorFacts.
Variable JSON_parse : string -> result value.
Variable JSON_stringify : value -> string.

Lemma setAndSave_Ok f c c' :
  setAndSave JSON_stringify f c = Ok c' ->
  exists next,
    f (state c) = Ok next
    /\ c' = Comp next (<[STORAGE_KEY := JSON_stringify next]> (store c))
                 (alerts c) (option_dep c) (length_dep c).
Proof.
  unfold setAndSave, with_state. intros H. ok_steps. subst c'. eauto.
Qed.

(** With a negative quantity the interval from 0 is empty, and the
    number of the handler is the quantity, whatever was typed. *)
Lemma min_max_negative (p q : Num.number) :
  Num.isFinite p = true -> Num.isFinite q = true ->
  Num.lt q Num.zero = true ->
  Num.min q (Num.max p Num.zero) = q.
Proof.
  intros Hp Hq Hneg.
  destruct q as [sq|sq| |[] mq eq]; try discriminate.
  destruct p as [sp|sp| |sp mp ep]; try discriminate; destruct sp; reflexivity.
Qed.

(** C5, amended. The sold-quantity field of an existing row [i], for the
    typed text [t], with [p = parseNum(t)] and [q = parseNum(items[i].qty)]:
    the handler returns, computes [n = Math.min(q, Math.max(p, 0))],
    puts at position [i] of the sales the text of [n] when [n] differs
    from [p] and [t] itself otherwise, and saves the document. When [q] is
    not negative, [n] is [p] clamped to the interval from 0 to [q]. When
    [q] is negative, [n] is [q]. When the quantity of the row has no
    string form the handler raises and nothing is stored. Typing "999"
    against a quantity "10" stores "10"; typing "3 pcs" stores "3 pcs". *)
Theorem sold_quantity_clamped :
  (forall c o rows sales i t row q p,
      state c = VObj o ->
      JS.assoc_get "items" o = Some (VArr rows) ->
      rows !! i = Some row ->
      JS.assoc_get "sales" o = Some (VArr sales) ->
      qtyOf row = Ok q ->
      parseNum (VStr t) = Ok p ->
      let n := Num.min q (Num.max p Num.zero) in
      let stored := if Num.strict_ne p n then Num.to_string n else t in
      exists c' sales',
        editSold JSON_stringify i t c = Ok c'
        /\ state c' = VObj (JS.assoc_set "sales" (VArr sales') o)
        /\ sales' !! i = Some (VStr stored)
        /\ store c' !! STORAGE_KEY = Some (JSON_stringify (state c'))) /\
  (forall c o rows i t row e,
      state c = VObj o ->
      JS.assoc_get "items" o = Some (VArr rows) ->
      rows !! i = Some row ->
      qtyOf row = Throw e ->
      editSold JSON_stringify i t c = Throw e) /\
  (forall p q,
      Num.isFinite p = true -> Num.isFinite q = true ->
      Num.le Num.zero q = true ->
      let n := Num.min q (Num.max p Num.zero) in
      Num.strict_ne p n = Num.strict_ne p (clamp Num.zero q p)
      /\ Num.to_string n = Num.to_string (clamp Num.zero q p)) /\
  (forall p q,
      Num.isFinite p = true -> Num.isFinite q = true ->
      Num.lt q Num.zero = true ->
      Num.min q (Num.max p Num.zero) = q) /\
  (forall row q t p,
      qtyOf row = Ok q -> parseNum (VStr t) = Ok p ->
      Num.isFinite q = true /\ Num.isFinite p = true) /\
  (forall st al d1 d2,
      state <$> editSold JSON_stringify 0 "999" (Comp (one_row "10") st al d1 d2)
      = Ok (VObj [("items", VArr [VObj [("qty", VStr "10")]]);
                  ("sales", VArr [VStr "10"])])
      /\ state <$> editSold JSON_stringify 0 "3 pcs"
                            (Comp (one_row "10") st al d1 d2)
         = Ok (VObj [("items", VArr [VObj [("qty", VStr "10")]]);
                     ("sales", VArr [VStr "3 pcs"])])).
Proof.
  split; [|split; [|split; [|split; [|split]]]].
  - intros c o rows sales i t row q p Hst Hi Hrow Hs Hq Hp n stored.
    exists (Comp (VObj (JS.assoc_set "sales"
                          (VArr (JS.array_store sales i (VStr stored))) o))
                 (<[STORAGE_KEY
                    := JSON_stringify
                         (VObj (JS.assoc_set "sales"
                                  (VArr (JS.array_store sales i (VStr stored)))
                                  o))]> (store c))
                 (alerts c) (option_dep c) (length_dep c)),
      (JS.array_store sales i (VStr stored)).
    split; [|split; [reflexivity|split; [apply array_store_lookup|]]].
    + unfold editSold, sold_text, setAndSave, with_state. rewrite Hst.
      run_reads. rewrite Hi. run_reads. rewrite Hrow. run_reads.
      rewrite Hq. run_reads. rewrite Hp. run_reads. rewrite Hs. run_reads.
      reflexivity.
    + cbn [store state]. apply lookup_insert_eq.
  - intros c o rows i t row e Hst Hi Hrow Hq.
    unfold editSold, sold_text. rewrite Hst.
    run_reads. rewrite Hi. run_reads. rewrite Hrow. run_reads.
    rewrite Hq. reflexivity.
  - intros p q Hp Hq H0 n. exact (min_max_clamp p q Hp Hq H0).
  - exact min_max_negative.
  - intros row q t p Hq Hp.
    split; [exact (parseNum_finite _ _ Hq) | exact (parseNum_finite _ _ Hp)].
  - intros st al d1 d2. split; vm_compute; reflexivity.
Qed.

End EditorFacts.

(** The theorem at the spec's example: row 0 holds the quantity "10" and
    the user types "999". *)
Lemma sold_quantity_clamped_witness :
  qtyOf (VObj [("qty", VStr "10")]) = Ok (Num.of_Z 10)
  /\ parseNum (VStr "999") = Ok (Num.of_Z 999)
  /\ exists c' sales',
       editSold Host.stringify 0 "999" (Comp (one_row "10") ∅ [] None None)
       = Ok c'
       /\ JS.get (state c') "sales" = Ok (VArr sales')
       /\ sales' !! 0 = Some (VStr "10").
Proof.
  assert (Hq : qtyOf (VObj [("qty", VStr "10")]) = Ok (Num.of_Z 10))
    by (vm_compute; reflexivity).
  assert (Hp : parseNum (VStr "999") = Ok (Num.of_Z 999))
    by (vm_compute; reflexivity).
  split; [exact Hq|]. split; [exact Hp|].
  destruct (proj1 (sold_quantity_clamped Host.stringify)
                  (Comp (one_row "10") ∅ [] None None)
                  (JS.spread (one_row "10")) _ _ 0 "999" _ _ _
                  eq_refl eq_refl eq_refl eq_refl Hq Hp)
    as (c' & sales' & Hc & Hst & Hi & _).
  exists c', sales'. split; [exact Hc|].
  split; [rewrite Hst; apply get_set_eq | exact Hi].
Defined.

(** C5 as stated fails for a negative quantity: against the quantity
    "-5" the text "-3" is replaced by "-5", a number below 0, where the
    clamp to an interval that starts at 0 gives 0. *)
Lemma sold_negative_quantity_counterexample :
  qtyOf (VObj [("qty", VStr "-5")]) = Ok (Num.of_Z (-5))
  /\ parseNum (VStr "-3") = Ok (Num.of_Z (-3))
  /\ Num.to_string (clamp Num.zero (Num.of_Z (-5)) (Num.of_Z (-3))) = "0"
  /\ state <$> editSold Host.stringify 0 "-3"
                        (Comp (one_row "-5") ∅ [] None None)
     = Ok (VObj [("items", VArr [VObj [("qty", VStr "-5")]]);
                 ("sales", VArr [VStr "-5"])]).
Proof. repeat split; vm_compute; reflexivity. Qed.


(** *** The franco banner *)

Lemma lt_not_le a b : Num.lt a b = true -> Num.le b a = false.
Proof.
  unfold Num.lt, Num.le, SFltb, SFleb. rewrite (SFcompare_antisym a b).
  destruct (SFcompare a b) as [[]|]; simpl; congruence.
Qed.

Lemma le_not_lt a b : Num.le a b = true -> Num.lt b a = false.
Proof.
  unfold Num.lt, Num.le, SFltb, SFleb. rewrite (SFcompare_antisym a b).
  destruct (SFcompare a b) as [[]|]; simpl; congruence.
Qed.

Lemma lt_not_nan a b : Num.lt a b = true -> Num.is_nan a = false.
Proof. destruct a; [reflexivity | reflexivity | discriminate | reflexivity]. Qed.

Lemma le_not_nan_r a b : Num.le a b = true -> Num.is_nan b = false.
Proof.
  destruct b; try reflexivity. destruct a; discriminate.
Qed.

Lemma lt_trans_zero_fifteen d :
  Num.lt fifteen d = true -> Num.lt d Num.zero = false.
Proof.
  destruct d as [s|[]| |[] m e]; try reflexivity; discriminate.
Qed.

(** The four conditions of the classification leave no number out. *)
Lemma franco_cases d :
  Num.is_nan d = true \/ Num.lt d Num.zero = true
  \/ (Num.le Num.zero d = true /\ Num.le d fifteen = true)
  \/ Num.lt fifteen d = true.
Proof.
  destruct d as [s|[]| |[] m e]; try (left; reflexivity);
    try (right; left; reflexivity);
    try (right; right; left; split; reflexivity);
    try (right; right; right; reflexivity).
  right; right.
  unfold Num.le, Num.lt, SFleb, SFltb.
  rewrite (SFcompare_antisym (S754_finite false m e) fifteen).
  destruct (SFcompare (S754_finite false m e) fifteen) as [[]|] eqn:E;
    simpl; auto; discriminate E.
Qed.

(** Whole day counts within ten years of today are classified by their
    integer value. *)
Lemma franco_whole_days z :
  (-3660 <= z <= 3660)%Z ->
  color (francoInfo_of (Num.of_Z z)) = tier_color z.
Proof.
  intros Hz.
  assert (H : forallb (fun z => String.eqb (color (francoInfo_of (Num.of_Z z)))
                                           (tier_color z))
                      (seqZ (-3660) 7321) = true) by (vm_compute; reflexivity).
  rewrite forallb_forall in H. apply String.eqb_eq, H.
  apply list_elem_of_In, elem_of_seqZ. lia.
Qed.

(** C9. [francoInfo] classifies the franco date by [daysUntil]: NaN gives
    the invalid-date banner in the alert colour; a negative count gives
    "passed by N day(s)" in the alert colour; a count from 0 to 15
    inclusive gives "N day(s) left" in the warning colour; a count above
    15 gives "N day(s) left" in the normal colour; every number falls in
    one of the four, and a whole number of days within ten years falls
    in the tier of its integer value. A date text the calendar cannot read
    counts as NaN, and so does a date that has no text form.
    With today's date the count is 1 (warning); 20 days ahead it is 21
    (normal). *)
Theorem franco_tiers :
  (forall Date_of_string today_start header francoDate,
      JS.get header "francoDate" = Ok francoDate ->
      francoInfo Date_of_string today_start header
      = Ok (francoInfo_of (daysUntil Date_of_string today_start francoDate))) /\
  (forall d, Num.is_nan d = true ->
             francoInfo_of d = Banner "Invalid Franco Date" "#b91c1c") /\
  (forall d, Num.lt d Num.zero = true ->
             francoInfo_of d
             = Banner ("Franco date passed by " ++ Num.to_string (Num.abs d)
                       ++ " day(s).")%string "#b91c1c") /\
  (forall d, Num.le Num.zero d = true -> Num.le d fifteen = true ->
             francoInfo_of d
             = Banner (Num.to_string d ++ " day(s) left until Franco date.")%string
                      "#b45309") /\
  (forall d, Num.lt fifteen d = true ->
             francoInfo_of d
             = Banner (Num.to_string d ++ " day(s) left until Franco date.")%string
                      "#065f46") /\
  (forall d,
      Num.is_nan d = true \/ Num.lt d Num.zero = true
      \/ (Num.le Num.zero d = true /\ Num.le d fifteen = true)
      \/ Num.lt fifteen d = true) /\
  (forall z, (-3660 <= z <= 3660)%Z ->
             color (francoInfo_of (Num.of_Z z)) = tier_color z) /\
  (forall Date_of_string today_start v s,
      JS.to_string v = Ok s ->
      Date_of_string (s ++ "T23:59:59")%string = Num.nan ->
      daysUntil Date_of_string today_start v = Num.nan) /\
  (forall Date_of_string today_start v e,
      JS.to_string v = Throw e ->
      daysUntil Date_of_string today_start v = Num.nan) /\
  (francoInfo_of (Num.of_Z (-1))
   = Banner "Franco date passed by 1 day(s)." "#b91c1c"
   /\ francoInfo_of (Num.of_Z 0)
      = Banner "0 day(s) left until Franco date." "#b45309"
   /\ francoInfo_of (Num.of_Z 15)
      = Banner "15 day(s) left until Franco date." "#b45309"
   /\ francoInfo_of (Num.of_Z 16)
      = Banner "16 day(s) left until Franco date." "#065f46") /\
  (daysUntil (example_calendar "2026-11-02" (1793577600000 + 86399000))
             example_today (VStr "2026-11-02") = Num.of_Z 1
   /\ daysUntil (example_calendar "2026-11-22" (1793577600000 + 20 * 86400000 + 86399000))
                example_today (VStr "2026-11-22") = Num.of_Z 21
   /\ francoInfo_of (Num.of_Z 21)
      = Banner "21 day(s) left until Franco date." "#065f46"
   /\ francoInfo_of (daysUntil (example_calendar "2026-11-02" 0)
                               example_today (VStr "soon"))
      = Banner "Invalid Franco Date" "#b91c1c").
Proof.
  split.
  { intros D t h f H. unfold francoInfo. rewrite H. reflexivity. }
  split.
  { intros d H. unfold francoInfo_of. rewrite H. reflexivity. }
  split.
  { intros d H. unfold francoInfo_of.
    rewrite (lt_not_nan _ _ H), H. reflexivity. }
  split.
  { intros d H0 H15. unfold francoInfo_of.
    rewrite (le_not_nan_r _ _ H0), (le_not_lt _ _ H0), H15. reflexivity. }
  split.
  { intros d H. unfold francoInfo_of.
    rewrite (lt_trans_zero_fifteen _ H), (lt_not_le _ _ H).
    destruct d; try reflexivity. discriminate H. }
  split; [exact franco_cases|].
  split; [exact franco_whole_days|].
  split.
  { intros D t v s Hs H. unfold daysUntil. rewrite Hs.
    cbn [mbind result_bind try_catch]. rewrite H. reflexivity. }
  split.
  { intros D t v e H. unfold daysUntil. rewrite H. reflexivity. }
  split; repeat split; vm_compute; reflexivity.
Qed.

(** The theorem at a header whose franco date is read as 16 days ahead. *)
Lemma franco_tiers_witness :
  JS.get (VObj [("francoDate", VStr "2026-11-17")]) "francoDate"
  = Ok (VStr "2026-11-17")
  /\ Num.lt fifteen (Num.of_Z 16) = true
  /\ francoInfo (example_calendar "2026-11-17" (1793577600000 + 15 * 86400000 + 86399000))
                example_today (VObj [("francoDate", VStr "2026-11-17")])
     = Ok (Banner "16 day(s) left until Franco date." "#065f46").
Proof.
  split; [reflexivity|]. split; [reflexivity|].
  rewrite (proj1 franco_tiers
             (example_calendar "2026-11-17"
                (1793577600000 + 15 * 86400000 + 86399000))
             example_today (VObj [("francoDate", VStr "2026-11-17")])
             (VStr "2026-11-17") eq_refl).
  apply (f_equal Ok).
  exact (proj1 (proj2 (proj2 (proj2 (proj2 franco_tiers))))
               (Num.of_Z 16) eq_refl).
Defined.

(** *** Migration *)

Lemma normalize_item_row r :
  JS.is_nullish r = false -> normalize_item r = Ok (normalized_row r).
Proof.
  intros Hr. unfold normalize_item, normalized_row, field_or_empty, JS.get_opt.
  destruct r; try discriminate Hr; cbn [JS.get mbind result_bind];
    try reflexivity.
  cbn [item_fields map String.eqb Ascii.eqb Bool.eqb andb].
  generalize (default VUndef (JS.assoc_get "qty" o)). intros q.
  destruct (JS.is_nullish q) eqn:E; unfold JS.coalesce; rewrite E; reflexivity.
Qed.

Lemma mapM_fmap {A B C} (f : A -> result B) (g : B -> C) (l : list A) :
  mapM (fun a => g <$> f a) l = map g <$> mapM f l.
Proof.
  induction l as [|a l IH]; [reflexivity|].
  cbn [mapM]. rewrite IH.
  destruct (f a) as [b|e]; [|reflexivity].
  destruct (mapM f l) as [bs|e]; reflexivity.
Qed.

Lemma mapM_ext {A B} (f g : A -> result B) (l : list A) :
  (forall a, f a = g a) -> mapM f l = mapM g l.
Proof.
  intros H. induction l as [|a l IH]; [reflexivity|].
  cbn [mapM]. rewrite H, IH. reflexivity.
Qed.

Lemma legacy_sale_text s : legacy_sale s = VStr <$> sale_text s.
Proof.
  unfold legacy_sale, sale_text.
  destruct s; try reflexivity.
  cbn [JS.strict_eq]. destruct (Num.strict_eq n Num.zero); reflexivity.
Qed.

Lemma mapM_legacy_sale sl :
  mapM legacy_sale sl = map VStr <$> mapM sale_text sl.
Proof.
  rewrite <- mapM_fmap. apply mapM_ext. exact legacy_sale_text.
Qed.

Lemma sale_text_stringable s :
  stringable s = true -> exists t, sale_text s = Ok t.
Proof.
  intros H. destruct s; try (eexists; reflexivity);
    apply (to_string_stringable _ H).
Qed.

Lemma sale_text_not_stringable s :
  stringable s = false -> sale_text s = Throw TypeError.
Proof.
  intros H. destruct s; try discriminate H;
    apply (to_string_not_stringable _ H).
Qed.

(** A traversal that turns every entry into a text succeeds when every
    entry has a string form, and raises at the first that has none. *)
Lemma mapM_texts (f : value -> result string) sl :
  (forall s, stringable s = true -> exists t, f s = Ok t) ->
  (forall s, stringable s = false -> f s = Throw TypeError) ->
  (Forall (fun s => stringable s = true) sl -> exists ts, mapM f sl = Ok ts)
  /\ (Exists (fun s => stringable s = false) sl -> mapM f sl = Throw TypeError).
Proof.
  intros Hok Hno. induction sl as [|s sl [IH1 IH2]].
  - split; [eexists; reflexivity | intros H; inversion H].
  - split.
    + intros H. inversion H as [|? ? Hs Hsl]; subst.
      destruct (Hok s Hs) as [t Ht]. destruct (IH1 Hsl) as [ts Hts].
      exists (t :: ts). cbn [mapM]. rewrite Ht, Hts. reflexivity.
    + intros H. cbn [mapM].
      destruct (stringable s) eqn:Es.
      * destruct (Hok s Es) as [t ->]. cbn [mbind result_bind].
        rewrite IH2; [reflexivity|].
        inversion H as [? ? Hs|? ? Hsl]; subst; [congruence | exact Hsl].
      * rewrite (Hno s Es). reflexivity.
Qed.

Lemma migrate_rows old rows :
  JS.get old "items" = Ok (VArr rows) ->
  Forall (fun r => JS.is_nullish r = false) rows ->
  migrate old
  = (sales ← match JS.get_opt old "sales" with
             | VArr sl => map VStr <$> mapM sale_text sl
             | _ => Ok []
             end;
     Ok (VObj (JS.assoc_set "sales" (VArr sales)
                 (JS.assoc_set "items" (VArr (map normalized_row rows))
                    (JS.spread old))))).
Proof.
  intros Hitems Hrows. unfold migrate. rewrite Hitems.
  cbn [mbind result_bind].
  rewrite (mapM_total normalize_item normalized_row rows).
  2:{ eapply Forall_impl; [exact Hrows|]. intros r. apply normalize_item_row. }
  cbn [fmap result_fmap mbind result_bind].
  unfold JS.get_opt.
  destruct old; try discriminate Hitems; cbn [JS.get mbind result_bind];
    try (destruct (String.eqb "sales" "length") eqn:E;
         [discriminate E | reflexivity]);
    try reflexivity.
  destruct (default VUndef (JS.assoc_get "sales" o)); try reflexivity.
  rewrite mapM_legacy_sale.
  destruct (mapM sale_text l) as [ts|e]; reflexivity.
Qed.

(** C3. The migration of a legacy shape whose [items] is an array of rows
    and whose sales entries have a string form yields a document whose
    [items] are the rows normalized (recognized fields copied, missing
    ones set to the empty string, [qty] taken from [ltsaQty] when absent)
    and whose [sales] are texts, the numeric zero and missing entries
    giving the empty text; without a sales array the sales are empty; the
    other properties of the legacy shape are kept. A sales entry without
    a string form makes the migration raise. The spec's example gives a
    row with [qty] "5" and the sales entry "". *)
Theorem migrate_legacy_shape :
  (forall old rows sl,
      JS.get old "items" = Ok (VArr rows) ->
      Forall (fun r => JS.is_nullish r = false) rows ->
      JS.get old "sales" = Ok (VArr sl) ->
      Forall (fun s => stringable s = true) sl ->
      exists m texts,
        migrate old = Ok m
        /\ mapM sale_text sl = Ok texts
        /\ JS.get m "items" = Ok (VArr (map normalized_row rows))
        /\ JS.get m "sales" = Ok (VArr (map VStr texts))
        /\ (forall k, k <> "items" -> k <> "sales" ->
                      JS.get m k = JS.get (VObj (JS.spread old)) k)) /\
  (forall old rows v,
      JS.get old "items" = Ok (VArr rows) ->
      Forall (fun r => JS.is_nullish r = false) rows ->
      JS.get old "sales" = Ok v -> JS.isArray v = false ->
      exists m,
        migrate old = Ok m
        /\ JS.get m "items" = Ok (VArr (map normalized_row rows))
        /\ JS.get m "sales" = Ok (VArr [])
        /\ (forall k, k <> "items" -> k <> "sales" ->
                      JS.get m k = JS.get (VObj (JS.spread old)) k)) /\
  (forall old rows sl,
      JS.get old "items" = Ok (VArr rows) ->
      Forall (fun r => JS.is_nullish r = false) rows ->
      JS.get old "sales" = Ok (VArr sl) ->
      Exists (fun s => stringable s = false) sl ->
      migrate old = Throw TypeError) /\
  (forall r k, In k item_fields -> k <> "qty" ->
               JS.get (normalized_row r) k
               = Ok (JS.coalesce (JS.get_opt r k) (VStr ""))) /\
  (forall r, JS.get (normalized_row r) "qty"
             = Ok (JS.coalesce (JS.coalesce (JS.get_opt r "qty")
                                            (JS.get_opt r "ltsaQty"))
                               (VStr ""))) /\
  (sale_text (VNum Num.zero) = Ok "" /\ sale_text (VNum (Num.of_Z 2)) = Ok "2"
   /\ sale_text (VStr "3 pcs") = Ok "3 pcs" /\ sale_text VNull = Ok ""
   /\ sale_text (VStr "0") = Ok "0"
   /\ sale_text no_text = Throw TypeError) /\
  (exists m row,
      migrate legacy_example = Ok m
      /\ JS.get m "items" = Ok (VArr [row])
      /\ JS.get row "qty" = Ok (VStr "5")
      /\ JS.get m "sales" = Ok (VArr [VStr ""])).
Proof.
  split.
  { intros old rows sl Hitems Hrows Hsales Hsl.
    destruct (proj1 (mapM_texts sale_text sl sale_text_stringable
                       sale_text_not_stringable) Hsl) as [texts Htexts].
    eexists _, texts. rewrite (migrate_rows old rows Hitems Hrows).
    unfold JS.get_opt. rewrite Hsales, Htexts.
    split; [reflexivity|]. split; [reflexivity|].
    split; [rewrite get_set_ne by discriminate; apply get_set_eq|].
    split; [apply get_set_eq|].
    intros k Hi Hs. rewrite get_set_ne by congruence.
    apply get_set_ne. congruence. }
  split.
  { intros old rows v Hitems Hrows Hsales Hv.
    eexists. rewrite (migrate_rows old rows Hitems Hrows).
    unfold JS.get_opt. rewrite Hsales.
    split; [destruct v; try discriminate Hv; reflexivity|].
    split; [rewrite get_set_ne by discriminate; apply get_set_eq|].
    split; [apply get_set_eq|].
    intros k Hi Hs. rewrite get_set_ne by congruence.
    apply get_set_ne. congruence. }
  split.
  { intros old rows sl Hitems Hrows Hsales Hsl.
    rewrite (migrate_rows old rows Hitems Hrows).
    unfold JS.get_opt. rewrite Hsales.
    rewrite (proj2 (mapM_texts sale_text sl sale_text_stringable
                      sale_text_not_stringable) Hsl).
    reflexivity. }
  split.
  { intros r k Hk Hq. unfold field_or_empty.
    simpl in Hk.
    repeat (destruct Hk as [<-|Hk]; [try reflexivity; congruence|]).
    destruct Hk. }
  split; [reflexivity|].
  split; [repeat split; vm_compute; reflexivity|].
  eexists _, _. repeat split; vm_compute; reflexivity.
Qed.

(** The theorem at the spec's example. *)
Lemma migrate_legacy_shape_witness :
  JS.get legacy_example "items" = Ok (VArr [VObj [("ltsaQty", VStr "5")]])
  /\ Forall (fun r => JS.is_nullish r = false) [VObj [("ltsaQty", VStr "5")]]
  /\ JS.get legacy_example "sales" = Ok (VArr [VNum Num.zero])
  /\ Forall (fun s => stringable s = true) [VNum Num.zero]
  /\ exists m,
      migrate legacy_example = Ok m
      /\ JS.get m "items"
         = Ok (VArr (map normalized_row [VObj [("ltsaQty", VStr "5")]]))
      /\ JS.get m "sales" = Ok (VArr [VStr ""]).
Proof.
  split; [reflexivity|].
  assert (H : Forall (fun r => JS.is_nullish r = false)
                     [VObj [("ltsaQty", VStr "5")]]).
  { repeat constructor. }
  assert (Hs : Forall (fun s => stringable s = true) [VNum Num.zero]).
  { repeat constructor. }
  split; [exact H|]. split; [reflexivity|]. split; [exact Hs|].
  destruct (proj1 migrate_legacy_shape legacy_example
                  [VObj [("ltsaQty", VStr "5")]] [VNum Num.zero]
                  eq_refl H eq_refl Hs)
    as (m & texts & Hm & Htexts & Hitems & Hsales & _).
  exists m. split; [exact Hm|]. split; [exact Hitems|].
  vm_compute in Htexts. injection Htexts as <-. exact Hsales.
Defined.

(** *** Loading *)

Section LoadFacts.
Variable JSON_parse : string -> result value.
Variable JSON_stringify : value -> string.

(** C2, amended. [load] always returns a document (the handler of its
    [try] covers the whole body). It behaves as the spec words it as long
    as no text it reads is malformed: the current slot is returned when
    it holds a truthy value; when it is absent or holds a falsy value,
    both legacy slots are read, the newer is preferred to the older, the
    one found is migrated, written back under the current key and
    returned; with nothing found the default is returned. A malformed
    text in the current slot, or in either legacy slot once the current
    one yielded nothing, or a migration that raises, gives the default
    document and leaves the storage as it was. *)
Theorem load_outcomes (st : storage) :
  (forall v3,
      JSON_parse (getItem_or_null st STORAGE_KEY) = Ok v3 ->
      JS.truthy v3 = true ->
      load JSON_parse JSON_stringify st = (v3, st)) /\
  (forall v3 v2 v1,
      JSON_parse (getItem_or_null st STORAGE_KEY) = Ok v3 ->
      JS.truthy v3 = false ->
      JSON_parse (getItem_or_null st "po_app_state_v2") = Ok v2 ->
      JSON_parse (getItem_or_null st "po_app_state_v1") = Ok v1 ->
      load JSON_parse JSON_stringify st
      = (if JS.truthy v2 then migrated_or_default JSON_stringify st v2
         else if JS.truthy v1 then migrated_or_default JSON_stringify st v1
         else (defaultState, st))
      /\ load JSON_parse JSON_stringify st = load_spec JSON_parse JSON_stringify st) /\
  (forall e,
      JSON_parse (getItem_or_null st STORAGE_KEY) = Throw e ->
      load JSON_parse JSON_stringify st = (defaultState, st)) /\
  (forall v3 e,
      JSON_parse (getItem_or_null st STORAGE_KEY) = Ok v3 ->
      JS.truthy v3 = false ->
      JSON_parse (getItem_or_null st "po_app_state_v2") = Throw e
      \/ JSON_parse (getItem_or_null st "po_app_state_v1") = Throw e ->
      load JSON_parse JSON_stringify st = (defaultState, st)) /\
  (forall old e, migrate old = Throw e ->
                 migrated_or_default JSON_stringify st old = (defaultState, st)) /\
  (forall old m, migrate old = Ok m ->
                 migrated_or_default JSON_stringify st old
                 = (m, <[STORAGE_KEY := JSON_stringify m]> st)).
Proof.
  unfold load, load_body, load_spec, found, migrated_or_default, JS.or_else.
  split; [|split; [|split; [|split; [|split]]]].
  - intros v3 H3 T3. rewrite H3. simpl. rewrite T3. reflexivity.
  - intros v3 v2 v1 H3 T3 H2 H1. rewrite H3, H2, H1. simpl. rewrite T3.
    destruct (JS.truthy v2) eqn:T2; [rewrite T2|];
      [|destruct (JS.truthy v1) eqn:T1]; simpl;
      try destruct (migrate _); split; reflexivity.
  - intros e H. rewrite H. reflexivity.
  - intros v3 e H3 T3 [H|H]; rewrite H3; simpl; rewrite T3.
    + rewrite H. reflexivity.
    + rewrite H.
      destruct (JSON_parse (getItem_or_null st "po_app_state_v2"));
        reflexivity.
  - intros old e H. rewrite H. reflexivity.
  - intros old m H. rewrite H. reflexivity.
Qed.

End LoadFacts.

(** C2 as stated fails: with a malformed current slot the legacy slots
    are not tried. The spec's reading finds the legacy example, migrates
    it and writes it back; the code returns the default document and
    leaves the storage alone. *)
Lemma load_malformed_current_counterexample :
  Host.parse [legacy_example] "{" = Throw SyntaxError
  /\ found (Host.parse [legacy_example]) storage_malformed_current
           "po_app_state_v2" = Some legacy_example
  /\ load (Host.parse [legacy_example]) Host.stringify storage_malformed_current
     = (defaultState, storage_malformed_current)
  /\ load (Host.parse [legacy_example]) Host.stringify storage_malformed_current
     <> load_spec (Host.parse [legacy_example]) Host.stringify
                  storage_malformed_current.
Proof.
  split; [reflexivity|]. split; [vm_compute; reflexivity|].
  split; [vm_compute; reflexivity|].
  intros H. apply (f_equal fst) in H. vm_compute in H. discriminate H.
Qed.

(** The theorem at a storage that holds the legacy example in the newer
    legacy slot. *)
Lemma load_outcomes_witness :
  Host.parse [legacy_example] (getItem_or_null storage_legacy STORAGE_KEY)
  = Ok VNull
  /\ JS.truthy VNull = false
  /\ Host.parse [legacy_example]
       (getItem_or_null storage_legacy "po_app_state_v2") = Ok legacy_example
  /\ Host.parse [legacy_example]
       (getItem_or_null storage_legacy "po_app_state_v1") = Ok VNull
  /\ load (Host.parse [legacy_example]) Host.stringify storage_legacy
     = load_spec (Host.parse [legacy_example]) Host.stringify storage_legacy.
Proof.
  assert (H3 : Host.parse [legacy_example]
                 (getItem_or_null storage_legacy STORAGE_KEY) = Ok VNull)
    by (vm_compute; reflexivity).
  assert (H2 : Host.parse [legacy_example]
                 (getItem_or_null storage_legacy "po_app_state_v2")
               = Ok legacy_example)
    by (vm_compute; reflexivity).
  assert (H1 : Host.parse [legacy_example]
                 (getItem_or_null storage_legacy "po_app_state_v1") = Ok VNull)
    by (vm_compute; reflexivity).
  split; [exact H3|]. split; [reflexivity|].
  split; [exact H2|]. split; [exact H1|].
  exact (proj2 (proj1 (proj2 (load_outcomes (Host.parse [legacy_example])
                                            Host.stringify storage_legacy))
                      VNull legacy_example VNull H3 eq_refl H2 H1)).
Defined.

(** The current slot, when it holds a truthy value, is loaded as it is. *)
Lemma load_current_slot JSON_parse JSON_stringify (st : storage) v3 :
  JSON_parse (getItem_or_null st STORAGE_KEY) = Ok v3 ->
  JS.truthy v3 = true ->
  load JSON_parse JSON_stringify st = (v3, st).
Proof.
  intros H T. unfold load, load_body. rewrite H.
  cbn [mbind result_bind]. rewrite T. reflexivity.
Qed.

(** *** Import *)

Lemma normalize_item_nullish r :
  JS.is_nullish r = true -> normalize_item r = Throw TypeError.
Proof. destruct r; try discriminate; reflexivity. Qed.

Lemma mapM_normalize_Throw rows :
  Exists (fun r => JS.is_nullish r = true) rows ->
  mapM normalize_item rows = Throw TypeError.
Proof.
  induction rows as [|r rows IH]; intros H; [inversion H|].
  cbn [mapM].
  destruct (JS.is_nullish r) eqn:E.
  - rewrite (normalize_item_nullish r E). reflexivity.
  - rewrite (normalize_item_row r E). cbn [mbind result_bind].
    rewrite IH; [reflexivity|].
    inversion H as [? ? Hr|? ? Hrest]; subst; [congruence|exact Hrest].
Qed.

Lemma mapM_normalize_Ok rows :
  Forall (fun r => JS.is_nullish r = false) rows ->
  mapM normalize_item rows = Ok (map normalized_row rows).
Proof.
  intros H. apply mapM_total.
  eapply Forall_impl; [exact H|]. intros r. apply normalize_item_row.
Qed.

Lemma imported_sale_coerced s : imported_sale s = VStr <$> coerced s.
Proof. unfold imported_sale, coerced. destruct (JS.is_nullish s); reflexivity. Qed.

Lemma coerced_stringable s :
  stringable s = true -> exists t, coerced s = Ok t.
Proof.
  intros H. unfold coerced. destruct (JS.is_nullish s); [eauto|].
  apply (to_string_stringable _ H).
Qed.

Lemma coerced_not_stringable s :
  stringable s = false -> coerced s = Throw TypeError.
Proof.
  intros H. unfold coerced.
  destruct s; try discriminate H; apply (to_string_not_stringable _ H).
Qed.

(** The sales step of the import, on data whose fields can be read. *)
Lemma import_sales_step data :
  JS.is_nullish data = false ->
  (sales ← JS.get data "sales";
   match sales with
   | VArr sl => VArr <$> mapM imported_sale sl
   | _ => Ok (VArr [])
   end)
  = VArr <$> imported_sales data.
Proof.
  intros Hn. unfold imported_sales, JS.get_opt.
  destruct (JS.get data "sales") as [v|] eqn:E;
    [|destruct data; discriminate].
  cbn [mbind result_bind].
  destruct v; try reflexivity.
  rewrite (mapM_ext imported_sale (fun s => VStr <$> coerced s) l
             imported_sale_coerced).
  rewrite mapM_fmap.
  destruct (mapM coerced l); reflexivity.
Qed.

Section ImportFacts.
Variable JSON_parse : string -> result value.
Variable JSON_stringify : value -> string.

(** An import whose data pass the test and whose rows can be read: it
    commits or fails with the sales. *)
Lemma importJSON_rows text c data rows :
  JSON_parse text = Ok data ->
  JS.truthy data = true ->
  JS.truthy (JS.get_opt data "header") = true ->
  JS.get_opt data "items" = VArr rows ->
  Forall (fun r => JS.is_nullish r = false) rows ->
  importJSON JSON_parse JSON_stringify text c
  = match imported_sales data with
    | Ok sales => imported_into JSON_stringify c (imported data rows sales)
    | Throw e => rejected c (ImportFailed e)
    end.
Proof.
  intros H T Th Hitems Hall.
  assert (Hnn : JS.is_nullish data = false) by (destruct data; easy).
  pose proof (import_sales_step data Hnn) as Hstep.
  unfold importJSON, import_body, imported. rewrite H.
  cbn [mbind result_bind]. rewrite T. cbn [negb].
  unfold JS.get_opt in Th, Hitems.
  destruct (JS.get data "header") as [h|] eqn:Eh;
    [|destruct data; discriminate].
  destruct (JS.get data "items") as [i|] eqn:Ei;
    [|destruct data; discriminate].
  subst i. cbn [mbind result_bind]. rewrite Th. cbn [negb orb JS.isArray].
  cbn [JS.as_array mbind result_bind].
  rewrite (mapM_normalize_Ok rows Hall). cbn [mbind result_bind].
  destruct (JS.get data "sales") as [sl|] eqn:Es;
    [|destruct data; discriminate].
  cbn [mbind result_bind] in Hstep |- *. rewrite Hstep.
  destruct (imported_sales data); reflexivity.
Qed.

(** An accepted import: what it commits. *)
Lemma importJSON_accepted text c data rows sales :
  JSON_parse text = Ok data ->
  JS.truthy data = true ->
  JS.truthy (JS.get_opt data "header") = true ->
  JS.get_opt data "items" = VArr rows ->
  Forall (fun r => JS.is_nullish r = false) rows ->
  imported_sales data = Ok sales ->
  importJSON JSON_parse JSON_stringify text c
  = imported_into JSON_stringify c (imported data rows sales).
Proof.
  intros H T Th Hitems Hall Hsales.
  rewrite (importJSON_rows text c data rows H T Th Hitems Hall), Hsales.
  reflexivity.
Qed.

(** C4, amended. [importJSON] reports "Import failed" when parsing the
    text raises, and also when a row of [items] is null (reading its
    fields raises) or a sales entry has no string form; it reports
    "Invalid PO file" exactly when the parsed value is falsy, or its
    [header] is falsy, or its [items] is not an array. In each of these
    cases the document and the storage stay as they were. Otherwise every
    row is normalized as in the migration, every sales entry becomes a
    text (the empty one for null), a missing sales array becomes the
    empty array, and the result is written to the current slot and
    replaces the document, with no report. *)
Theorem import_outcomes (text : string) (c : comp) :
  (forall e, JSON_parse text = Throw e ->
             importJSON JSON_parse JSON_stringify text c
             = rejected c (ImportFailed e)) /\
  (forall data,
      JSON_parse text = Ok data ->
      JS.truthy data = false
      \/ JS.truthy (JS.get_opt data "header") = false
      \/ JS.isArray (JS.get_opt data "items") = false ->
      importJSON JSON_parse JSON_stringify text c = rejected c InvalidPOFile) /\
  (forall data rows,
      JSON_parse text = Ok data ->
      JS.truthy data = true ->
      JS.truthy (JS.get_opt data "header") = true ->
      JS.get_opt data "items" = VArr rows ->
      Exists (fun r => JS.is_nullish r = true) rows ->
      importJSON JSON_parse JSON_stringify text c
      = rejected c (ImportFailed TypeError)) /\
  (forall data rows sl,
      JSON_parse text = Ok data ->
      JS.truthy data = true ->
      JS.truthy (JS.get_opt data "header") = true ->
      JS.get_opt data "items" = VArr rows ->
      Forall (fun r => JS.is_nullish r = false) rows ->
      JS.get_opt data "sales" = VArr sl ->
      Exists (fun s => stringable s = false) sl ->
      importJSON JSON_parse JSON_stringify text c
      = rejected c (ImportFailed TypeError)) /\
  (forall data rows sl,
      JSON_parse text = Ok data ->
      JS.truthy data = true ->
      JS.truthy (JS.get_opt data "header") = true ->
      JS.get_opt data "items" = VArr rows ->
      Forall (fun r => JS.is_nullish r = false) rows ->
      JS.get_opt data "sales" = VArr sl ->
      Forall (fun s => stringable s = true) sl ->
      exists texts,
        mapM coerced sl = Ok texts
        /\ importJSON JSON_parse JSON_stringify text c
           = imported_into JSON_stringify c
               (imported data rows (map VStr texts))) /\
  (forall data rows,
      JSON_parse text = Ok data ->
      JS.truthy data = true ->
      JS.truthy (JS.get_opt data "header") = true ->
      JS.get_opt data "items" = VArr rows ->
      Forall (fun r => JS.is_nullish r = false) rows ->
      JS.isArray (JS.get_opt data "sales") = false ->
      importJSON JSON_parse JSON_stringify text c
      = imported_into JSON_stringify c (imported data rows [])) /\
  (forall r, state (rejected c r) = state c /\ store (rejected c r) = store c
             /\ alerts (rejected c r) = alerts c ++ [r]) /\
  (forall s, state (imported_into JSON_stringify c s) = s
             /\ store (imported_into JSON_stringify c s)
                = <[STORAGE_KEY := JSON_stringify s]> (store c)
             /\ alerts (imported_into JSON_stringify c s) = alerts c) /\
  (coerced VNull = Ok "" /\ coerced VUndef = Ok ""
   /\ coerced (VNum Num.zero) = Ok "0" /\ coerced (VStr "3 pcs") = Ok "3 pcs"
   /\ coerced no_text = Throw TypeError).
Proof.
  split; [|split; [|split; [|split; [|split; [|split; [|split; [|split]]]]]]].
  - intros e H. unfold importJSON, import_body. rewrite H. reflexivity.
  - intros data H Hbad. unfold importJSON, import_body. rewrite H.
    cbn [mbind result_bind].
    destruct (JS.truthy data) eqn:T; [|reflexivity].
    assert (Hnn : JS.is_nullish data = false) by (destruct data; easy).
    unfold JS.get_opt in Hbad.
    destruct data; try discriminate Hnn; cbn [JS.get negb] in *;
      cbn [mbind result_bind];
      destruct Hbad as [Hbad|[Hbad|Hbad]]; try discriminate Hbad;
      try rewrite Hbad; try reflexivity;
      try (rewrite orb_true_r; reflexivity).
    all: destruct (String.eqb "header" "length"); try discriminate Hbad.
    all: cbn; reflexivity.
  - intros data rows H T Th Hitems Hex.
    unfold importJSON, import_body. rewrite H. cbn [mbind result_bind].
    rewrite T. cbn [negb].
    assert (Hnn : JS.is_nullish data = false) by (destruct data; easy).
    unfold JS.get_opt in Th, Hitems.
    destruct (JS.get data "header") as [h|] eqn:Eh;
      [|destruct data; discriminate].
    destruct (JS.get data "items") as [i|] eqn:Ei;
      [|destruct data; discriminate].
    subst i. cbn [mbind result_bind]. rewrite Th. cbn [negb orb JS.isArray].
    cbn [JS.as_array mbind result_bind].
    rewrite (mapM_normalize_Throw rows Hex). reflexivity.
  - intros data rows sl H T Th Hitems Hall Hsales Hex.
    rewrite (importJSON_rows text c data rows H T Th Hitems Hall).
    unfold imported_sales. rewrite Hsales.
    rewrite (proj2 (mapM_texts coerced sl coerced_stringable
                      coerced_not_stringable) Hex).
    reflexivity.
  - intros data rows sl H T Th Hitems Hall Hsales Hsl.
    destruct (proj1 (mapM_texts coerced sl coerced_stringable
                       coerced_not_stringable) Hsl) as [texts Htexts].
    exists texts. split; [exact Htexts|].
    apply importJSON_accepted; try assumption.
    unfold imported_sales. rewrite Hsales, Htexts. reflexivity.
  - intros data rows H T Th Hitems Hall Hsales.
    apply importJSON_accepted; try assumption.
    unfold imported_sales.
    destruct (JS.get_opt data "sales"); try reflexivity. discriminate Hsales.
  - intros r. repeat split.
  - intros s. repeat split.
  - repeat split.
Qed.

End ImportFacts.

Lemma mount_empty :
  mount (Host.parse []) Host.stringify 2 ∅ = Some (Ok settled_default).
Proof. vm_compute. reflexivity. Qed.

(** C4 as stated fails in both directions. A file whose [header] is a
    text, not an object, is accepted: nothing is reported and the document
    is replaced. A file with a null row parses, and has a header object and
    an items array, yet "Import failed" is reported. *)
Lemma import_reports_counterexample :
  (import_reports_spec (Host.parse example_files (Host.stringify file_text_header))
   = [InvalidPOFile]
   /\ alerts (importJSON (Host.parse example_files) Host.stringify
                         (Host.stringify file_text_header) settled_default) = []
   /\ JS.get (state (importJSON (Host.parse example_files) Host.stringify
                                (Host.stringify file_text_header) settled_default))
             "header" = Ok (VStr "x")) /\
  (Host.parse example_files (Host.stringify file_null_row) = Ok file_null_row
   /\ import_reports_spec (Host.parse example_files (Host.stringify file_null_row))
      = []
   /\ alerts (importJSON (Host.parse example_files) Host.stringify
                         (Host.stringify file_null_row) settled_default)
      = [ImportFailed TypeError]).
Proof. repeat split; vm_compute; reflexivity. Qed.

(** The theorem at the file with one row and no sales array. *)
Lemma import_outcomes_witness :
  Host.parse example_files (Host.stringify file_no_sales) = Ok file_no_sales
  /\ JS.truthy file_no_sales = true
  /\ JS.truthy (JS.get_opt file_no_sales "header") = true
  /\ JS.get_opt file_no_sales "items" = VArr [VObj [("qty", VStr "1")]]
  /\ Forall (fun r => JS.is_nullish r = false) [VObj [("qty", VStr "1")]]
  /\ JS.isArray (JS.get_opt file_no_sales "sales") = false
  /\ state (importJSON (Host.parse example_files) Host.stringify
                       (Host.stringify file_no_sales) settled_default)
     = imported file_no_sales [VObj [("qty", VStr "1")]] [].
Proof.
  assert (Hp : Host.parse example_files (Host.stringify file_no_sales)
               = Ok file_no_sales) by (vm_compute; reflexivity).
  assert (Hr : Forall (fun r => JS.is_nullish r = false)
                      [VObj [("qty", VStr "1")]]) by (repeat constructor).
  split; [exact Hp|]. split; [reflexivity|]. split; [reflexivity|].
  split; [reflexivity|]. split; [exact Hr|]. split; [reflexivity|].
  rewrite (proj1 (proj2 (proj2 (proj2 (proj2 (proj2
             (import_outcomes (Host.parse example_files) Host.stringify
                (Host.stringify file_no_sales) settled_default))))))
             file_no_sales [VObj [("qty", VStr "1")]]
             Hp eq_refl eq_refl eq_refl Hr eq_refl).
  reflexivity.
Defined.

(** *** Rounding never produces NaN *)

Section Rounding.
Variables prec emax : Z.

Lemma shr_1_nonneg mrs : (0 <= shr_m mrs)%Z -> (0 <= shr_m (shr_1 mrs))%Z.
Proof.
  destruct mrs as [m r s]. cbn [shr_m]. intros Hm.
  destruct m as [|p|p]; [reflexivity| |lia].
  destruct p; cbn; lia.
Qed.

Lemma iter_shr_1_nonneg p mrs :
  (0 <= shr_m mrs)%Z -> (0 <= shr_m (SpecFloat.iter_pos shr_1 p mrs))%Z.
Proof.
  revert mrs. induction p as [p IH|p IH|]; intros mrs Hm; cbn [SpecFloat.iter_pos].
  - apply IH, IH, shr_1_nonneg, Hm.
  - apply IH, IH, Hm.
  - apply shr_1_nonneg, Hm.
Qed.

Lemma shr_fexp_nonneg m e l :
  (0 <= m)%Z -> (0 <= shr_m (fst (shr_fexp prec emax m e l)))%Z.
Proof.
  intros Hm. unfold shr_fexp, shr.
  assert (H0 : (0 <= shr_m (shr_record_of_loc m l))%Z).
  { destruct l as [|[]]; exact Hm. }
  destruct (fexp prec emax (Zdigits2 m + e) - e)%Z; cbn [fst];
    [exact H0 | apply iter_shr_1_nonneg, H0 | exact H0].
Qed.

Lemma round_nearest_even_nonneg m l :
  (0 <= m)%Z -> (0 <= round_nearest_even m l)%Z.
Proof.
  intros Hm. unfold round_nearest_even.
  destruct l as [|[]]; try destruct (Z.even m); lia.
Qed.

Lemma binary_round_aux_not_nan s m e l :
  (0 <= m)%Z -> Num.is_nan (binary_round_aux prec emax s m e l) = false.
Proof.
  intros Hm. unfold binary_round_aux.
  pose proof (shr_fexp_nonneg m e l Hm) as H1.
  destruct (shr_fexp prec emax m e l) as [mrs' e'] eqn:E1. cbn [fst] in H1.
  pose proof (shr_fexp_nonneg
                (round_nearest_even (shr_m mrs') (loc_of_shr_record mrs'))
                e' loc_Exact (round_nearest_even_nonneg _ _ H1)) as H2.
  destruct (shr_fexp prec emax _ e' loc_Exact) as [mrs'' e''] eqn:E2.
  cbn [fst] in H2.
  destruct (shr_m mrs'') as [|p|p]; [reflexivity| |lia].
  destruct (e'' <=? emax - prec)%Z; reflexivity.
Qed.

Lemma binary_normalize_not_nan z e s :
  Num.is_nan (binary_normalize prec emax z e s) = false.
Proof.
  destruct z as [|p|p]; [reflexivity| |];
    unfold binary_normalize, binary_round;
    destruct (shl_align _ _ _) as [mz ez];
    apply binary_round_aux_not_nan; lia.
Qed.

End Rounding.

Lemma SFeqb_refl x : Num.is_nan x = false -> SFeqb x x = true.
Proof.
  destruct x as [s|s| |s m e]; try discriminate; intros _; unfold SFeqb;
    cbn [SFcompare]; try (destruct s; reflexivity).
  destruct s; rewrite Z.compare_refl;
    change (Pos.compare_cont Eq m m) with (m ?= m)%positive;
    rewrite Pos.compare_refl; reflexivity.
Qed.

(** An array has the length it has: [a.length === a.length]. *)
Lemma length_strict_eq {A B} (l : list A) (l' : list B) :
  length l = length l' ->
  JS.strict_eq (JS.length_of l) (JS.length_of l') = true.
Proof.
  intros H. unfold JS.length_of. rewrite H. cbn [JS.strict_eq].
  apply SFeqb_refl, binary_normalize_not_nan.
Qed.

(** *** Rendering *)

Lemma mapM_Ok_Forall {A B} (f : A -> result B) (l : list A) :
  Forall (fun a => exists b, f a = Ok b) l -> exists bs, mapM f l = Ok bs.
Proof.
  induction 1 as [|a l [b Hb] _ [bs IH]]; [eexists; reflexivity|].
  exists (b :: bs). cbn [mapM]. rewrite Hb, IH. reflexivity.
Qed.

Lemma mapM_Ok_each {A B} (f : A -> result B) (l : list A) (bs : list B) :
  mapM f l = Ok bs -> Forall (fun a => exists b, f a = Ok b) l.
Proof.
  revert bs. induction l as [|a l IH]; intros bs H; [constructor|].
  cbn [mapM] in H.
  apply bind_Ok in H as (b & Hb & H).
  apply bind_Ok in H as (bs' & Hbs & _).
  constructor; eauto.
Qed.

Lemma mapM_Ok_results {A B} (f : A -> result B) (P : B -> Prop)
      (l : list A) (bs : list B) :
  (forall a b, f a = Ok b -> P b) -> mapM f l = Ok bs -> Forall P bs.
Proof.
  intros Hf. revert bs. induction l as [|a l IH]; intros bs H; cbn [mapM] in H.
  - injection H as <-. constructor.
  - apply bind_Ok in H as (b & Hb & H).
    apply bind_Ok in H as (bs' & Hbs & H). injection H as <-.
    constructor; eauto.
Qed.

(** The quantities a render could read. *)
Lemma lineTotals_qtys rows lt :
  lineTotals (VArr rows) = Ok lt ->
  Forall (fun r => exists q, qtyOf r = Ok q) rows.
Proof.
  unfold lineTotals. cbn [JS.as_array mbind result_bind]. intros H.
  apply mapM_Ok_each in H.
  eapply Forall_impl; [exact H|]. cbn beta. intros r [b Hb].
  apply bind_Ok in Hb as (q & Hq & _). eauto.
Qed.

(** The remaining quantities can be computed when every quantity and
    every sales entry can be read as a number. *)
Lemma remainingByRow_Ok rows sales :
  Forall (fun r => exists q, qtyOf r = Ok q) rows ->
  Forall (fun s => exists n, parseNum s = Ok n) sales ->
  exists r, remainingByRow (VArr rows) (VArr sales) = Ok r.
Proof.
  intros Hrows Hsales.
  unfold remainingByRow. cbn [JS.as_array mbind result_bind].
  apply mapM_Ok_Forall. apply Forall_forall. intros [i r] Hir.
  apply elem_of_lookup_imap in Hir as (j & y & [= -> ->] & Hj).
  destruct (proj1 (Forall_lookup _ _) Hrows _ _ Hj) as [q Hq].
  rewrite Hq. run_reads.
  destruct (sales !! j) as [s|] eqn:Es; cbn [default from_option id].
  - destruct (proj1 (Forall_lookup _ _) Hsales _ _ Es) as [n ->].
    eexists; reflexivity.
  - eexists; reflexivity.
Qed.

Lemma texts_parse (sales : list value) :
  Forall (fun v => exists t, v = VStr t) sales ->
  Forall (fun s => exists n, parseNum s = Ok n) sales.
Proof.
  intros H. eapply Forall_impl; [exact H|]. cbn beta.
  intros v [t ->]. eexists; reflexivity.
Qed.

(** A render that succeeds reads an object whose [items] is an array. *)
Lemma render_Ok s snap :
  render s = Ok snap ->
  exists o rows,
    s = VObj o
    /\ r_items snap = VArr rows
    /\ snap = Snapshot (default VUndef (JS.assoc_get "option" o))
                       (default VUndef (JS.assoc_get "header" o))
                       (default VUndef (JS.assoc_get "items" o))
                       (default VUndef (JS.assoc_get "sales" o)).
Proof.
  unfold render. intros H.
  apply bind_Ok in H as (opt & Hopt & H).
  apply bind_Ok in H as (hdr & Hhdr & H).
  apply bind_Ok in H as (items & Hitems & H).
  apply bind_Ok in H as (sales & Hsales & H).
  apply bind_Ok in H as (lt & Hlt & H).
  unfold lineTotals in Hlt. apply bind_Ok in Hlt as (rows & Hrows & _).
  destruct items; try discriminate Hrows. injection Hrows as ->.
  ok_steps. subst snap.
  destruct s; try discriminate Hopt; cbn [JS.get] in *.
  - destruct (String.eqb "items" "length") eqn:E; [discriminate E|].
    discriminate Hitems.
  - destruct (String.eqb "items" "length") eqn:E; [discriminate E|].
    discriminate Hitems.
  - discriminate Hitems.
  - discriminate Hitems.
  - injection Hopt as <-. injection Hhdr as <-. injection Hsales as <-.
    injection Hitems as Hitems. exists o, rows.
    rewrite Hitems. repeat split; reflexivity.
Qed.

(** Replacing the header by an object keeps the render going. *)
Lemma render_set_header o h snap :
  render (VObj o) = Ok snap ->
  render (VObj (JS.assoc_set "header" (VObj h) o))
  = Ok (Snapshot (r_option snap) (VObj h) (r_items snap) (r_sales snap)).
Proof.
  unfold render. cbn [JS.get mbind result_bind].
  rewrite assoc_get_set_eq.
  rewrite !assoc_get_set_ne by discriminate.
  cbn [default].
  intros H.
  apply bind_Ok in H as (lt & Hlt & H). rewrite Hlt.
  apply bind_Ok in H as (fd & _ & H).
  apply bind_Ok in H as (n & Hn & H). cbn [mbind result_bind]. rewrite Hn.
  apply bind_Ok in H as (rem & Hrem & H). cbn [mbind result_bind]. rewrite Hrem.
  injection H as <-. reflexivity.
Qed.

(** Replacing the sales by an array of entries that can be read as
    numbers keeps the render going. *)
Lemma render_set_sales o sales snap :
  render (VObj o) = Ok snap ->
  Forall (fun s => exists n, parseNum s = Ok n) sales ->
  render (VObj (JS.assoc_set "sales" (VArr sales) o))
  = Ok (Snapshot (r_option snap) (r_header snap) (r_items snap) (VArr sales)).
Proof.
  intros H Hsales.
  destruct (render_Ok _ _ H) as (o' & rows & [= <-] & Hrows & Hsnap).
  revert H. unfold render. cbn [JS.get mbind result_bind].
  rewrite assoc_get_set_eq.
  rewrite !assoc_get_set_ne by discriminate.
  cbn [default].
  intros H.
  apply bind_Ok in H as (lt & Hlt & H). rewrite Hlt.
  apply bind_Ok in H as (fd & Hfd & H). cbn [mbind result_bind]. rewrite Hfd.
  apply bind_Ok in H as (n & Hn & H). cbn [mbind result_bind]. rewrite Hn.
  apply bind_Ok in H as (rem & Hrem & H). cbn [mbind result_bind].
  injection H as <-. cbn [r_items] in Hrows |- *.
  unfold id in *. rewrite Hrows in Hlt |- *.
  destruct (remainingByRow_Ok rows sales (lineTotals_qtys _ _ Hlt) Hsales)
    as [r ->].
  reflexivity.
Qed.

(** *** The two sync rules *)

Lemma nextSales_length items sales next rows :
  items = VArr rows -> nextSales items sales = Ok next ->
  length next = length rows.
Proof.
  intros -> H. unfold nextSales in H. cbn [JS.as_array mbind result_bind] in H.
  apply mapM_Ok_length in H. rewrite H. apply length_seq.
Qed.

Lemma imported_sale_text s v :
  imported_sale s = Ok v -> exists t, v = VStr t.
Proof.
  unfold imported_sale. destruct (JS.is_nullish s).
  - intros [= <-]. eauto.
  - intros H. apply fmap_Ok in H as (t & _ & ->). eauto.
Qed.

(** The sales the second effect writes are texts. *)
Lemma nextSales_texts items sales next :
  nextSales items sales = Ok next ->
  Forall (fun v => exists t, v = VStr t) next.
Proof.
  unfold nextSales. intros H. apply bind_Ok in H as (l & _ & H).
  eapply mapM_Ok_results; [|exact H]. cbn beta.
  intros i v Hv. apply bind_Ok in Hv as (x & _ & Hv).
  exact (imported_sale_text _ _ Hv).
Qed.

Section SyncFacts.
Variable JSON_stringify : value -> string.

Lemma sync_header_idem option o next :
  sync_header option (VObj o) = Ok next ->
  exists h, next = VObj (JS.assoc_set "header" (VObj h) o)
            /\ sync_header option next = Ok next.
Proof.
  unfold sync_header. intros H.
  apply bind_Ok in H as (b & Hb & H). rewrite Hb.
  apply bind_Ok in H as (hdr & Hhdr & H).
  apply bind_Ok in H as (bn & Hbn & H).
  apply bind_Ok in H as (ln & Hln & H).
  injection H as <-. eexists. split; [reflexivity|].
  cbn [mbind result_bind].
  rewrite get_set_eq. cbn [mbind result_bind]. rewrite Hbn, Hln.
  cbn [mbind result_bind JS.spread].
  rewrite assoc_set_set.
  rewrite (assoc_set_id "beneficiaryName" bn).
  2:{ rewrite assoc_get_set_ne by discriminate. apply assoc_get_set_eq. }
  rewrite assoc_set_set. reflexivity.
Qed.

(** C7. Each of the two sync rules is idempotent: run on a component it
    has already been run on, the option-to-header rule and the
    item-count-to-sales-length rule each return that component
    unchanged (document, storage, reports and all). *)
Theorem sync_rules_idempotent :
  (forall c c', run_sync_header JSON_stringify c = Ok c' ->
                run_sync_header JSON_stringify c' = Ok c') /\
  (forall c c', run_sync_sales JSON_stringify c = Ok c' ->
                run_sync_sales JSON_stringify c' = Ok c').
Proof.
  split.
  - intros c c' H. unfold run_sync_header in H.
    apply bind_Ok in H as (snap & Hsnap & H).
    destruct (render_Ok _ _ Hsnap) as (o & rows & Hs & _ & _).
    apply setAndSave_Ok in H as (next & Hnext & ->).
    rewrite Hs in Hnext, Hsnap.
    destruct (sync_header_idem _ _ _ Hnext) as (h & -> & Hagain).
    unfold run_sync_header. cbn [state].
    rewrite (render_set_header o h snap Hsnap).
    cbn [mbind result_bind r_option].
    unfold setAndSave, with_state. cbn [state store alerts option_dep length_dep].
    rewrite Hagain. cbn [mbind result_bind].
    rewrite insert_insert_eq. reflexivity.
  - intros c c' H. pose proof H as H0. unfold run_sync_sales in H.
    apply bind_Ok in H as (snap & Hsnap & H).
    apply bind_Ok in H as (u & Hu & H).
    destruct (render_Ok _ _ Hsnap) as (o & rows & Hs & Hrows & _).
    unfold sync_sales in Hu.
    apply bind_Ok in Hu as (sl & Hsl & Hu).
    apply bind_Ok in Hu as (il & Hil & Hu).
    destruct (negb (JS.strict_eq sl il)) eqn:Hne.
    + apply bind_Ok in Hu as (next & Hnext & Hu). injection Hu as <-.
      cbn [apply_opt] in H.
      apply setAndSave_Ok in H as (s' & Hs' & ->).
      rewrite Hs in Hs'. unfold set_sales in Hs'. cbn [JS.spread] in Hs'.
      injection Hs' as <-.
      unfold run_sync_sales. cbn [state].
      rewrite Hs in Hsnap.
      rewrite (render_set_sales o next snap Hsnap
                 (texts_parse _ (nextSales_texts _ _ _ Hnext))).
      cbn [mbind result_bind]. unfold sync_sales. cbn [r_sales r_items].
      rewrite Hrows. cbn [JS.get mbind result_bind].
      replace (String.eqb "length" "length") with true by reflexivity.
      rewrite (length_strict_eq next rows
                 (nextSales_length _ _ _ _ Hrows Hnext)).
      reflexivity.
    + injection Hu as <-. cbn [apply_opt] in H. injection H as <-. exact H0.
Qed.

End SyncFacts.

(** The theorem at the default document, where the first run of each rule
    commits a document and a second run changes nothing. *)
Lemma sync_rules_idempotent_witness :
  let c := Comp defaultState ∅ [] None None in
  exists c1 c2,
    run_sync_header Host.stringify c = Ok c1
    /\ run_sync_header Host.stringify c1 = Ok c1
    /\ run_sync_sales Host.stringify c = Ok c2
    /\ run_sync_sales Host.stringify c2 = Ok c2
    /\ state c2 = newPO_state.
Proof.
  intros c.
  destruct (run_sync_header Host.stringify c) as [c1|] eqn:E1;
    [|vm_compute in E1; discriminate E1].
  destruct (run_sync_sales Host.stringify c) as [c2|] eqn:E2;
    [|vm_compute in E2; discriminate E2].
  exists c1, c2.
  split; [reflexivity|].
  split; [exact (proj1 (sync_rules_idempotent Host.stringify) c c1 E1)|].
  split; [reflexivity|].
  split; [exact (proj2 (sync_rules_idempotent Host.stringify) c c2 E2)|].
  vm_compute in E2. injection E2 as <-. reflexivity.
Defined.

(** *** The item list *)

Lemma remove_at_shift (k i : nat) (l : list value) :
  omap (fun '(x, v) => if (x =? i)%nat then None else Some v)
       (imap (fun j v => (k + j, v)) l)
  = if (k <=? i)%nat then delete (i - k) l else l.
Proof.
  revert k. induction l as [|x l IH]; intros k.
  - destruct (k <=? i)%nat; reflexivity.
  - rewrite imap_cons.
    rewrite (imap_ext _ (fun j v => (S k + j, v))).
    2:{ intros j v _. cbn. f_equal. lia. }
    cbn [omap list_omap]. fold (@omap list _ _ _
      (fun '(x, v) => if (x =? i)%nat then None else Some v : option value)
      (imap (fun j v => (S k + j, v)) l)).
    rewrite (IH (S k)). rewrite Nat.add_0_r.
    destruct (k =? i)%nat eqn:E.
    + apply Nat.eqb_eq in E. subst i.
      rewrite Nat.sub_diag, Nat.leb_refl.
      destruct (S k <=? k)%nat eqn:E'; [apply Nat.leb_le in E'; lia|].
      reflexivity.
    + apply Nat.eqb_neq in E.
      destruct (k <=? i)%nat eqn:E1.
      * apply Nat.leb_le in E1.
        destruct (S k <=? i)%nat eqn:E2; [|apply Nat.leb_gt in E2; lia].
        replace (i - k) with (S (i - S k)) by lia. reflexivity.
      * apply Nat.leb_gt in E1.
        destruct (S k <=? i)%nat eqn:E2; [apply Nat.leb_le in E2; lia|].
        reflexivity.
Qed.

(** [filter((_, x) => x !== i)] removes the element at position [i]. *)
Lemma remove_at_delete i (l : list value) : remove_at i l = delete i l.
Proof.
  unfold remove_at.
  change (imap pair l) with (imap (fun j v => (0 + j, v)) l).
  rewrite remove_at_shift. rewrite Nat.sub_0_r. reflexivity.
Qed.

Lemma delete_length_ge {A} i (l : list A) : length l - 1 <= length (delete i l).
Proof.
  revert i. induction l as [|x l IH]; intros i; [reflexivity|].
  destruct i as [|i]; [cbn; lia|].
  specialize (IH i).
  change (delete (S i) (x :: l)) with (x :: delete i l).
  cbn [length]. lia.
Qed.

(** C6 as stated fails: a file whose [items] is the empty array is
    imported without a report and leaves the editor with no item; the
    migration of a legacy shape with no row does the same. *)
Lemma import_empty_items_counterexample :
  Host.parse [file_no_items] (Host.stringify file_no_items) = Ok file_no_items
  /\ alerts (importJSON (Host.parse [file_no_items]) Host.stringify
                        (Host.stringify file_no_items) settled_default) = []
  /\ JS.get (state (importJSON (Host.parse [file_no_items]) Host.stringify
                               (Host.stringify file_no_items) settled_default))
            "items" = Ok (VArr [])
  /\ (exists m, migrate file_no_items = Ok m /\ JS.get m "items" = Ok (VArr [])).
Proof.
  split; [vm_compute; reflexivity|]. split; [vm_compute; reflexivity|].
  split; [vm_compute; reflexivity|].
  eexists. split; vm_compute; reflexivity.
Qed.

Section ItemFacts.
Variable JSON_parse : string -> result value.
Variable JSON_stringify : value -> string.

(** C6, amended. [removeRow] on a document with exactly one item changes
    nothing, and never empties a list that has an item; [addRow] always
    leaves at least one item; [clearAllItems], [newPO] and the default
    document have exactly one. The migration and an accepted import keep
    as many rows as the [items] array they are given (the migration puts
    one default row when there is no array), and a current slot is loaded
    as it is stored: after them the list has an item exactly when that
    array has one. An import that fails on its sales leaves the document
    as it was. *)
Theorem item_list_nonempty :
  (forall c i row,
      JS.get (state c) "items" = Ok (VArr [row]) ->
      exists c', removeRow JSON_stringify i c = Ok c' /\ state c' = state c) /\
  (forall c c' i rows,
      JS.get (state c) "items" = Ok (VArr rows) -> rows <> [] ->
      removeRow JSON_stringify i c = Ok c' ->
      exists rows', JS.get (state c') "items" = Ok (VArr rows') /\ rows' <> []) /\
  (forall c c',
      addRow JSON_stringify c = Ok c' ->
      exists rows', JS.get (state c') "items" = Ok (VArr rows') /\ rows' <> []) /\
  (forall c c',
      clearAllItems JSON_stringify c = Ok c' ->
      JS.get (state c') "items" = Ok (VArr [defaultItem])) /\
  (forall c, exists c',
      newPO JSON_stringify c = Ok c'
      /\ JS.get (state c') "items" = Ok (VArr [defaultItem])) /\
  JS.get defaultState "items" = Ok (VArr [defaultItem]) /\
  (forall old m,
      migrate old = Ok m ->
      exists rows',
        JS.get m "items" = Ok (VArr rows')
        /\ (forall rows, JS.get_opt old "items" = VArr rows ->
                         length rows' = length rows)
        /\ (JS.isArray (JS.get_opt old "items") = false ->
            rows' = [defaultItem])) /\
  (forall text c data rows,
      JSON_parse text = Ok data ->
      JS.truthy data = true ->
      JS.truthy (JS.get_opt data "header") = true ->
      JS.get_opt data "items" = VArr rows ->
      Forall (fun r => JS.is_nullish r = false) rows ->
      (forall sales,
          imported_sales data = Ok sales ->
          JS.get (state (importJSON JSON_parse JSON_stringify text c)) "items"
          = Ok (VArr (map normalized_row rows))
          /\ length (map normalized_row rows) = length rows)
      /\ (forall e,
            imported_sales data = Throw e ->
            state (importJSON JSON_parse JSON_stringify text c) = state c)) /\
  (forall st v3,
      JSON_parse (getItem_or_null st STORAGE_KEY) = Ok v3 ->
      JS.truthy v3 = true ->
      fst (load JSON_parse JSON_stringify st) = v3).
Proof.
  split; [|split; [|split; [|split; [|split; [|split; [|split; [|split]]]]]]].
  - intros c i row H. unfold removeRow, setAndSave.
    rewrite H. cbn [mbind result_bind JS.get].
    replace (String.eqb "length" "length") with true by reflexivity.
    replace (JS.strict_eq (JS.length_of [row]) (VNum (Num.of_Z 1)))
      with true by reflexivity.
    eexists. split; reflexivity.
  - intros c c' i rows H Hne Hr. unfold removeRow in Hr.
    apply setAndSave_Ok in Hr as (next & Hnext & ->). cbn [state].
    rewrite H in Hnext. cbn [mbind result_bind] in Hnext.
    apply bind_Ok in Hnext as (n & Hn & Hnext).
    cbn [JS.get] in Hn.
    replace (String.eqb "length" "length") with true in Hn by reflexivity.
    injection Hn as <-.
    destruct (JS.strict_eq (JS.length_of rows) (VNum (Num.of_Z 1))) eqn:E.
    + injection Hnext as <-. exists rows. split; assumption.
    + cbn [JS.as_array mbind result_bind] in Hnext.
      apply bind_Ok in Hnext as (sales & _ & Hnext).
      apply bind_Ok in Hnext as (sl & _ & Hnext).
      injection Hnext as <-.
      exists (remove_at i rows). split.
      * rewrite get_set_ne by discriminate. apply get_set_eq.
      * rewrite remove_at_delete. intros Hnil.
        pose proof (delete_length_ge i rows) as Hlen. rewrite Hnil in Hlen.
        destruct rows as [|r [|r' rows]]; [congruence| |cbn in Hlen; lia].
        discriminate E.
  - intros c c' H. unfold addRow in H.
    apply setAndSave_Ok in H as (next & Hnext & ->). cbn [state].
    apply bind_Ok in Hnext as (items & _ & Hnext).
    apply bind_Ok in Hnext as (l & _ & Hnext).
    apply bind_Ok in Hnext as (sales & _ & Hnext).
    apply bind_Ok in Hnext as (sl & _ & Hnext).
    injection Hnext as <-.
    exists (l ++ [defaultItem]). split.
    + rewrite get_set_ne by discriminate. apply get_set_eq.
    + destruct l; discriminate.
  - intros c c' H. unfold clearAllItems in H.
    apply setAndSave_Ok in H as (next & Hnext & ->). cbn [state].
    injection Hnext as <-.
    rewrite get_set_ne by discriminate. apply get_set_eq.
  - intros c. eexists. split; reflexivity.
  - reflexivity.
  - intros old m H. unfold migrate in H.
    apply bind_Ok in H as (old_items & Hoi & H).
    apply bind_Ok in H as (items & Hitems & H).
    apply bind_Ok in H as (old_sales & _ & H).
    apply bind_Ok in H as (sales & _ & H).
    injection H as <-.
    unfold JS.get_opt. rewrite Hoi.
    destruct old_items;
      try (injection Hitems as <-; exists [defaultItem];
           split; [rewrite get_set_ne by discriminate; apply get_set_eq|];
           split; [intros rows; discriminate | reflexivity]).
    apply fmap_Ok in Hitems as (rows' & Hrows' & ->).
    exists rows'. split; [rewrite get_set_ne by discriminate; apply get_set_eq|].
    split; [|discriminate].
    intros rows [= <-]. apply (mapM_Ok_length _ _ _ Hrows').
  - intros text c data rows H T Th Hitems Hall.
    rewrite (importJSON_rows JSON_parse JSON_stringify text c data rows
               H T Th Hitems Hall).
    split.
    + intros sales ->. split; [|apply length_map].
      cbn [state imported_into]. unfold imported.
      rewrite get_set_ne by discriminate. apply get_set_eq.
    + intros e ->. reflexivity.
  - intros st v3 H T.
    rewrite (load_current_slot JSON_parse JSON_stringify st v3 H T).
    reflexivity.
Qed.

End ItemFacts.

(** The theorem at the default document: removing its only row changes
    nothing. *)
Lemma item_list_nonempty_witness :
  JS.get (state settled_default) "items" = Ok (VArr [defaultItem])
  /\ exists c', removeRow Host.stringify 0 settled_default = Ok c'
                /\ state c' = state settled_default.
Proof.
  split; [reflexivity|].
  exact (proj1 (item_list_nonempty (Host.parse []) Host.stringify)
               settled_default 0 defaultItem eq_refl).
Defined.

(** *** The option *)

Lemma option_valid_object s : option_valid s -> exists o, s = VObj o.
Proof.
  intros (opt & k & b & Hopt & Hk & Hb).
  destruct s; try discriminate Hopt; [..|eauto];
    cbn in Hopt; injection Hopt as <-; cbn in Hk; injection Hk as <-;
    vm_compute in Hb; discriminate Hb.
Qed.

Lemma option_valid_lookup s :
  option_valid s ->
  exists opt b, JS.get s "option" = Ok opt /\ lookup_option opt = Ok b
                /\ is_object b = true.
Proof.
  intros (opt & k & b & Hopt & Hk & Hb). exists opt, b. split; [exact Hopt|].
  unfold lookup_option. rewrite Hk. cbn [mbind result_bind]. rewrite Hb.
  split; [reflexivity|].
  cbn in Hb.
  repeat match type of Hb with
         | (if ?c then _ else _) = _ => destruct c
         end; try discriminate Hb; injection Hb as <-; reflexivity.
Qed.

Lemma option_valid_set k v o :
  k <> "option" -> option_valid (VObj o) ->
  option_valid (VObj (JS.assoc_set k v o)).
Proof.
  intros Hk (opt & k' & b & Hopt & Hk' & Hb). exists opt, k', b.
  split; [|split; [exact Hk'|exact Hb]].
  rewrite get_set_ne by exact Hk. exact Hopt.
Qed.

(** C8 as stated fails: an imported file can carry an option that is no
    key of the table. The import accepts it without a report, the
    document then holds that option, its preset lookup is undefined, and
    the next render's header sync raises. A current slot holding the same
    text is loaded as it is. *)
Lemma unknown_option_counterexample :
  alerts (importJSON (Host.parse [file_unknown_option]) Host.stringify
                     (Host.stringify file_unknown_option) settled_default) = []
  /\ JS.get (state (importJSON (Host.parse [file_unknown_option]) Host.stringify
                      (Host.stringify file_unknown_option) settled_default))
            "option" = Ok (VStr "OTHER")
  /\ lookup_option (VStr "OTHER") = Ok VUndef
  /\ ~ option_valid
       (state (importJSON (Host.parse [file_unknown_option]) Host.stringify
                 (Host.stringify file_unknown_option) settled_default))
  /\ settle Host.stringify 2
       (importJSON (Host.parse [file_unknown_option]) Host.stringify
          (Host.stringify file_unknown_option) settled_default)
     = Some (Throw TypeError)
  /\ fst (load (Host.parse [file_unknown_option]) Host.stringify
               {[ STORAGE_KEY := Host.stringify file_unknown_option ]})
     = file_unknown_option.
Proof.
  split; [vm_compute; reflexivity|]. split; [vm_compute; reflexivity|].
  split; [vm_compute; reflexivity|].
  split; [|split; vm_compute; reflexivity].
  intros (opt & k & b & Hopt & Hk & Hb). vm_compute in Hopt.
  injection Hopt as <-. injection Hk as <-. discriminate Hb.
Qed.

Section OptionFacts.
Variable JSON_parse : string -> result value.
Variable JSON_stringify : value -> string.

(** Reduces a goal about the document an updater returned to the
    document it was given. *)
Ltac updated H :=
  apply setAndSave_Ok in H as (?next & ?Hnext & ->); cbn [state];
  repeat match goal with
    | Hn : _ ≫= _ = Ok _ |- _ =>
        apply bind_Ok in Hn as (? & ? & Hn)
    end.

Lemma action_keeps_option f c c' :
  keeps_option JSON_stringify f -> option_valid (state c) -> f c = Ok c' ->
  option_valid (state c').
Proof.
  intros Hf Hv H. destruct (option_valid_object _ Hv) as [o Ho].
  rewrite Ho in Hv.
  destruct Hf.
  - unfold updateHeader in H. updated H. rewrite Ho in *.
    injection Hnext as <-. apply option_valid_set; [discriminate|exact Hv].
  - unfold updateItem in H. updated H. rewrite Ho in *.
    injection Hnext as <-. apply option_valid_set; [discriminate|exact Hv].
  - unfold addRow in H. updated H. rewrite Ho in *.
    injection Hnext as <-.
    do 2 (apply option_valid_set; [discriminate|]). exact Hv.
  - unfold removeRow in H. updated H. rewrite Ho in *.
    destruct (JS.strict_eq _ _).
    + injection Hnext as <-. exact Hv.
    + apply bind_Ok in Hnext as (? & ? & Hnext).
      apply bind_Ok in Hnext as (? & ? & Hnext).
      apply bind_Ok in Hnext as (? & ? & Hnext).
      injection Hnext as <-.
      do 2 (apply option_valid_set; [discriminate|]). exact Hv.
  - unfold clearAllItems in H. updated H. rewrite Ho in *.
    injection Hnext as <-.
    do 2 (apply option_valid_set; [discriminate|]). exact Hv.
  - unfold editSold in H.
    apply bind_Ok in H as (items & _ & H).
    apply bind_Ok in H as (stored & _ & H).
    updated H. rewrite Ho in *.
    injection Hnext as <-. apply option_valid_set; [discriminate|exact Hv].
  - unfold run_sync_header in H.
    apply bind_Ok in H as (snap & _ & H). updated H. rewrite Ho in *.
    destruct (sync_header_idem _ _ _ Hnext) as (h & -> & _).
    apply option_valid_set; [discriminate|exact Hv].
  - unfold run_sync_sales in H.
    apply bind_Ok in H as (snap & _ & H).
    apply bind_Ok in H as ([u|] & Hu & H); cbn [apply_opt] in H.
    + unfold sync_sales in Hu.
      apply bind_Ok in Hu as (? & _ & Hu).
      apply bind_Ok in Hu as (? & _ & Hu).
      destruct (negb _); [|discriminate Hu].
      apply bind_Ok in Hu as (? & _ & Hu). injection Hu as <-.
      updated H. rewrite Ho in *. injection Hnext as <-.
      apply option_valid_set; [discriminate|exact Hv].
    + injection H as <-. rewrite Ho. exact Hv.
Qed.

(** C8, amended. The option picker, which offers the keys of the table,
    [newPO] and the default document give a valid option, and a valid
    option has a defined preset; every other action and both sync rules
    keep a valid option valid. The migration and an accepted import copy
    the option of the data they are given, and a current slot is loaded as
    it is stored: after them the option is valid exactly when the stored
    or imported one is. An import that fails on its sales leaves the
    document as it was. *)
Theorem option_validity :
  (forall c key,
      In key (map fst BENEFICIARY_OPTIONS) ->
      exists c', setOption JSON_stringify key c = Ok c'
                 /\ option_valid (state c')) /\
  (forall c, exists c', newPO JSON_stringify c = Ok c'
                        /\ option_valid (state c')) /\
  option_valid defaultState /\
  (forall s, option_valid s ->
             exists opt b, JS.get s "option" = Ok opt
                           /\ lookup_option opt = Ok b /\ is_object b = true) /\
  (forall f c c',
      keeps_option JSON_stringify f -> option_valid (state c) -> f c = Ok c' ->
      option_valid (state c')) /\
  (forall o m, migrate (VObj o) = Ok m ->
               JS.get m "option" = JS.get (VObj o) "option") /\
  (forall text c o rows,
      JSON_parse text = Ok (VObj o) ->
      JS.truthy (JS.get_opt (VObj o) "header") = true ->
      JS.get_opt (VObj o) "items" = VArr rows ->
      Forall (fun r => JS.is_nullish r = false) rows ->
      (forall sales,
          imported_sales (VObj o) = Ok sales ->
          JS.get (state (importJSON JSON_parse JSON_stringify text c)) "option"
          = JS.get (VObj o) "option")
      /\ (forall e,
            imported_sales (VObj o) = Throw e ->
            state (importJSON JSON_parse JSON_stringify text c) = state c)) /\
  (forall st v3,
      JSON_parse (getItem_or_null st STORAGE_KEY) = Ok v3 ->
      JS.truthy v3 = true ->
      fst (load JSON_parse JSON_stringify st) = v3).
Proof.
  split; [|split; [|split; [|split; [|split; [|split; [|split]]]]]].
  - intros c key Hkey. eexists. split; [reflexivity|].
    exists (VStr key), key. cbn [JS.to_string].
    cbn in Hkey. destruct Hkey as [<-|[<-|[]]];
      eexists; (split; [apply get_set_eq | split; reflexivity]).
  - intros c. eexists. split; [reflexivity|].
    eexists _, _, _. repeat split; reflexivity.
  - eexists _, _, _. repeat split; reflexivity.
  - exact option_valid_lookup.
  - exact action_keeps_option.
  - intros o m H. unfold migrate in H.
    apply bind_Ok in H as (? & _ & H).
    apply bind_Ok in H as (? & _ & H).
    apply bind_Ok in H as (? & _ & H).
    apply bind_Ok in H as (? & _ & H).
    injection H as <-. rewrite !get_set_ne by discriminate. reflexivity.
  - intros text c o rows H Th Hitems Hall.
    rewrite (importJSON_rows JSON_parse JSON_stringify text c (VObj o) rows
               H eq_refl Th Hitems Hall).
    split.
    + intros sales ->. cbn [state imported_into]. unfold imported.
      rewrite !get_set_ne by discriminate. reflexivity.
    + intros e ->. reflexivity.
  - intros st v3 H T.
    rewrite (load_current_slot JSON_parse JSON_stringify st v3 H T).
    reflexivity.
Qed.

End OptionFacts.

(** The theorem at the default document: adding a row keeps its option
    valid. *)
Lemma option_validity_witness :
  option_valid (state settled_default)
  /\ exists c', addRow Host.stringify settled_default = Ok c'
                /\ option_valid (state c').
Proof.
  assert (Hv : option_valid (state settled_default)).
  { eexists _, _, _. repeat split; reflexivity. }
  split; [exact Hv|].
  eexists. split; [reflexivity|].
  eapply (proj1 (proj2 (proj2 (proj2 (proj2
            (option_validity (Host.parse []) Host.stringify)))))
            (addRow Host.stringify) settled_default).
  - constructor.
  - exact Hv.
  - reflexivity.
Defined.

(** *** Sales and items *)

Section SalesFacts.
Variable JSON_stringify : value -> string.

(** Whenever the length rule runs, the sales end up as long as the
    items. *)
Lemma run_sync_sales_aligns c c' :
  run_sync_sales JSON_stringify c = Ok c' ->
  exists items sales sl il,
    JS.get (state c') "items" = Ok items
    /\ JS.get (state c') "sales" = Ok sales
    /\ JS.get sales "length" = Ok sl
    /\ JS.get items "length" = Ok il
    /\ JS.strict_eq sl il = true.
Proof.
  intros H. unfold run_sync_sales in H.
  apply bind_Ok in H as (snap & Hsnap & H).
  apply bind_Ok in H as (u & Hu & H).
  destruct (render_Ok _ _ Hsnap) as (o & rows & Hs & Hrows & Hfields).
  unfold sync_sales in Hu.
  apply bind_Ok in Hu as (sl & Hsl & Hu).
  apply bind_Ok in Hu as (il & Hil & Hu).
  destruct (JS.strict_eq sl il) eqn:E; cbn [negb] in Hu.
  - injection Hu as <-. cbn [apply_opt] in H. injection H as <-.
    exists (r_items snap), (r_sales snap), sl, il.
    rewrite Hs, Hfields. cbn [JS.get r_items r_sales].
    rewrite Hfields in Hsl, Hil. cbn [r_items r_sales] in Hsl, Hil.
    repeat split; assumption.
  - apply bind_Ok in Hu as (next & Hnext & Hu). injection Hu as <-.
    cbn [apply_opt] in H. apply setAndSave_Ok in H as (s' & Hs' & ->).
    rewrite Hs in Hs'. injection Hs' as <-. cbn [state JS.spread].
    exists (VArr rows), (VArr next),
      (JS.length_of next), (JS.length_of rows).
    split.
    { rewrite get_set_ne by discriminate.
      rewrite Hfields in Hrows. cbn [r_items] in Hrows.
      cbn [JS.get]. rewrite Hrows. reflexivity. }
    split; [apply get_set_eq|].
    split; [reflexivity|]. split; [reflexivity|].
    apply length_strict_eq. eapply nextSales_length; eassumption.
Qed.

Lemma length_delete_eq {A B} i (l : list A) (l' : list B) :
  length l = length l' -> length (delete i l) = length (delete i l').
Proof.
  revert i l'. induction l as [|x l IH]; intros i [|y l'] H;
    try discriminate H; [reflexivity|].
  destruct i as [|i]; cbn in *; [lia|]. f_equal. apply IH. lia.
Qed.

(** The actions that change the item count keep aligned sales aligned,
    and the resets align them. *)
Lemma row_actions_keep_aligned c c' :
  aligned (state c) ->
  (addRow JSON_stringify c = Ok c'
   \/ (exists i, removeRow JSON_stringify i c = Ok c')
   \/ clearAllItems JSON_stringify c = Ok c'
   \/ newPO JSON_stringify c = Ok c') ->
  aligned (state c').
Proof.
  intros (rows & sales & Hitems & Hsales & Hlen) [H|[[i H]|[H|H]]].
  - unfold addRow in H. apply setAndSave_Ok in H as (next & Hnext & ->).
    rewrite Hitems, Hsales in Hnext. injection Hnext as <-.
    exists (rows ++ [defaultItem]), (sales ++ [VStr ""]). cbn [state].
    split; [rewrite get_set_ne by discriminate; apply get_set_eq|].
    split; [apply get_set_eq|]. rewrite !length_app, Hlen. reflexivity.
  - unfold removeRow in H. apply setAndSave_Ok in H as (next & Hnext & ->).
    rewrite Hitems in Hnext. cbn [mbind result_bind JS.get] in Hnext.
    replace (String.eqb "length" "length") with true in Hnext by reflexivity.
    destruct (JS.strict_eq _ _).
    + injection Hnext as <-. exists rows, sales. repeat split; assumption.
    + rewrite Hsales in Hnext. injection Hnext as <-.
      exists (remove_at i rows), (remove_at i sales). cbn [state].
      split; [rewrite get_set_ne by discriminate; apply get_set_eq|].
      split; [apply get_set_eq|].
      rewrite !remove_at_delete. apply length_delete_eq, Hlen.
  - unfold clearAllItems in H. apply setAndSave_Ok in H as (next & Hnext & ->).
    injection Hnext as <-. exists [defaultItem], [VStr ""]. cbn [state].
    split; [rewrite get_set_ne by discriminate; apply get_set_eq|].
    split; [apply get_set_eq|reflexivity].
  - injection H as <-. exists [defaultItem], [VStr ""]. repeat split.
Qed.

End SalesFacts.

(** C1. The code at the failing input: the editor has settled on the
    default document (one item, sales [""]); a file with one item and no
    sales array is imported. The import puts the empty array in [sales];
    the item count is 1 as before, so the length rule does not run, and
    the editor settles with one item and no sales entry. *)
Theorem import_skips_sales_sync :
  mount (Host.parse example_files) Host.stringify 2 ∅ = Some (Ok settled_default)
  /\ JS.get (state settled_default) "sales" = Ok (VArr [VStr ""])
  /\ Host.parse example_files (Host.stringify file_no_sales) = Ok file_no_sales
  /\ exists c,
      settle Host.stringify 2
             (importJSON (Host.parse example_files) Host.stringify
                         (Host.stringify file_no_sales) settled_default)
      = Some (Ok c)
      /\ alerts c = []
      /\ JS.get (state c) "items"
         = Ok (VArr [normalized_row (VObj [("qty", VStr "1")])])
      /\ JS.get (state c) "sales" = Ok (VArr []).
Proof.
  split; [vm_compute; reflexivity|]. split; [reflexivity|].
  split; [vm_compute; reflexivity|].
  eexists. split; [vm_compute; reflexivity|].
  repeat split; vm_compute; reflexivity.
Qed.

(** *** Settling *)

Lemma number_eqb_refl x : JS.number_eqb x x = true.
Proof.
  destruct x as [s|s| |s m e]; cbn; try apply eqb_reflx; try reflexivity.
  rewrite eqb_reflx, Pos.eqb_refl, Z.eqb_refl. reflexivity.
Qed.

Lemma same_value_refl : forall v, JS.same_value v v = true.
Proof.
  fix IH 1. intros [| |b|n|s|l|o]; cbn; try reflexivity.
  - apply eqb_reflx.
  - apply number_eqb_refl.
  - apply String.eqb_refl.
  - induction l as [|x l IHl]; [reflexivity|].
    rewrite (IH x). exact IHl.
  - induction o as [|[k x] o IHo]; [reflexivity|].
    rewrite String.eqb_refl, (IH x). exact IHo.
Qed.

Section SettleFacts.
Variable JSON_stringify : value -> string.

Lemma apply_opt_state u c c' :
  apply_opt JSON_stringify u c = Ok c' ->
  option_dep c' = option_dep c /\ length_dep c' = length_dep c
  /\ (u = None -> c' = c).
Proof.
  destruct u as [f|]; cbn [apply_opt]; intros H.
  - apply setAndSave_Ok in H as (next & _ & ->). repeat split. discriminate.
  - injection H as <-. repeat split.
Qed.

(** What a commit leaves behind: the dependencies of the render it made;
    and the document still has the option and the items of that render. *)
Lemma commit_Ok c b c' :
  commit JSON_stringify c = Ok (b, c') ->
  exists o o' opt rows,
    state c = VObj o /\ state c' = VObj o'
    /\ JS.assoc_get "option" o' = JS.assoc_get "option" o
    /\ JS.assoc_get "items" o' = JS.assoc_get "items" o
    /\ default VUndef (JS.assoc_get "option" o) = opt
    /\ default VUndef (JS.assoc_get "items" o) = VArr rows
    /\ option_dep c' = Some opt
    /\ length_dep c' = Some (JS.length_of rows).
Proof.
  unfold commit. intros H.
  apply bind_Ok in H as (snap & Hsnap & H).
  apply bind_Ok in H as (il & Hil & H).
  apply bind_Ok in H as (u2 & Hu2 & H).
  apply bind_Ok in H as (c1 & Hc1 & H).
  apply bind_Ok in H as (c2 & Hc2 & H).
  injection H as _ <-.
  destruct (render_Ok _ _ Hsnap) as (o & rows & Hs & Hrows & Hfields).
  rewrite Hfields in Hrows, Hil, Hc1, Hu2. cbn [r_items r_option] in *.
  rewrite Hrows in Hil. cbn in Hil. injection Hil as <-.
  assert (H1 : exists o1, state c1 = VObj o1
                 /\ JS.assoc_get "option" o1 = JS.assoc_get "option" o
                 /\ JS.assoc_get "items" o1 = JS.assoc_get "items" o
                 /\ option_dep c1 = Some (default VUndef (JS.assoc_get "option" o))
                 /\ length_dep c1 = Some (JS.length_of rows)).
  { destruct (dep_changed (option_dep c) _); cbn [apply_opt] in Hc1.
    - apply setAndSave_Ok in Hc1 as (next & Hnext & ->). cbn [state] in Hnext.
      rewrite Hs in Hnext.
      destruct (sync_header_idem _ _ _ Hnext) as (h & -> & _).
      eexists. split; [reflexivity|].
      rewrite !assoc_get_set_ne by discriminate. repeat split.
    - injection Hc1 as <-. exists o. rewrite Hs. repeat split. }
  destruct H1 as (o1 & Hs1 & Hopt1 & Hit1 & Hd1 & Hl1).
  assert (H2 : exists o2, state c2 = VObj o2
                 /\ JS.assoc_get "option" o2 = JS.assoc_get "option" o1
                 /\ JS.assoc_get "items" o2 = JS.assoc_get "items" o1
                 /\ option_dep c2 = option_dep c1
                 /\ length_dep c2 = length_dep c1).
  { destruct u2 as [f|]; cbn [apply_opt] in Hc2.
    - destruct (dep_changed (length_dep c) _); [|discriminate Hu2].
      unfold sync_sales in Hu2.
      apply bind_Ok in Hu2 as (? & _ & Hu2).
      apply bind_Ok in Hu2 as (? & _ & Hu2).
      destruct (negb _); [|discriminate Hu2].
      apply bind_Ok in Hu2 as (next & _ & Hu2). injection Hu2 as <-.
      apply setAndSave_Ok in Hc2 as (s2 & Hs2 & ->).
      rewrite Hs1 in Hs2. injection Hs2 as <-.
      eexists. split; [reflexivity|].
      cbn [JS.spread]. rewrite !assoc_get_set_ne by discriminate. repeat split.
    - injection Hc2 as <-. exists o1. repeat split. exact Hs1. }
  destruct H2 as (o2 & Hs2 & Hopt2 & Hit2 & Hd2 & Hl2).
  exists o, o2, (default VUndef (JS.assoc_get "option" o)), rows.
  repeat split; try congruence.
Qed.

(** After a commit the next one finds both dependencies unchanged: it
    raises or commits nothing. *)
Lemma commit_then_stable c b c1 :
  commit JSON_stringify c = Ok (b, c1) ->
  (exists e, commit JSON_stringify c1 = Throw e)
  \/ (exists c2, commit JSON_stringify c1 = Ok (false, c2)).
Proof.
  intros H.
  destruct (commit_Ok _ _ _ H)
    as (o & o' & opt & rows & _ & Hs' & Hopt & Hitems & Hopt0 & Hrows & Hd & Hl).
  destruct (commit JSON_stringify c1) as [[b2 c2]|e] eqn:E; [|eauto].
  right. exists c2. f_equal. f_equal.
  unfold commit in E.
  apply bind_Ok in E as (snap & Hsnap & E).
  apply bind_Ok in E as (il & Hil & E).
  destruct (render_Ok _ _ Hsnap) as (o1 & rows1 & Hs1 & Hrows1 & Hfields).
  rewrite Hs' in Hs1. injection Hs1 as <-.
  rewrite Hfields in Hil, E. cbn [r_items r_option] in Hil, E.
  rewrite Hitems, Hrows in Hil. cbn in Hil. injection Hil as <-.
  rewrite Hd, Hl, Hopt, Hopt0 in E. cbn [dep_changed] in E.
  rewrite !same_value_refl in E. cbn [negb mbind result_bind apply_opt] in E.
  injection E as <- _. reflexivity.
Qed.

(** Two renders are enough for [settle] to give its result. *)
Lemma settle_enough c : settle JSON_stringify 2 c <> None.
Proof.
  cbn [settle].
  destruct (commit JSON_stringify c) as [[[] c1]|e] eqn:E; try discriminate.
  destruct (commit_then_stable _ _ _ E) as [[e ->]|[c2 ->]]; discriminate.
Qed.

End SettleFacts.

(* ================================================================== *)
(** ** Further properties: displayed values *)
(* ================================================================== *)

Lemma take_digits_no_digit c r :
  Num.is_digit c = false -> Num.take_digits (c :: r) = ([], c :: r).
Proof. intros H. cbn [Num.take_digits]. rewrite H. reflexivity. Qed.

(** A text made of dots and minus signs only is no number. *)
Lemma parseFloat_no_digit cs :
  Forall (fun c => c = "."%char \/ c = "-"%char) cs ->
  Num.parseFloat (string_of_list_ascii cs) = Num.nan.
Proof.
  intros H. unfold Num.parseFloat.
  rewrite list_ascii_of_string_of_list_ascii.
  assert (Hnd : forall c, c = "."%char \/ c = "-"%char ->
                          Num.is_digit c = false
                          /\ Num.is_space c = false
                          /\ Ascii.eqb "I" c = false).
  { intros c [->| ->]; repeat split. }
  assert (Htail : forall l, Forall (fun c => c = "."%char \/ c = "-"%char) l ->
            Num.take_digits l = ([], l)
            /\ Num.starts_with (list_ascii_of_string "Infinity") l = false).
  { intros l Hl. destruct Hl as [|c r Hc Hr]; [split; reflexivity|].
    destruct (Hnd c Hc) as (Hd & _ & HI).
    rewrite (take_digits_no_digit c r Hd). split; [reflexivity|].
    cbn [Num.starts_with list_ascii_of_string]. rewrite HI. reflexivity. }
  destruct H as [|c r Hc Hr]; [reflexivity|].
  destruct (Hnd c Hc) as (Hd & Hs & HI).
  cbn [Num.skip_spaces]. rewrite Hs.
  destruct Hc as [->| ->]; cbn [Num.take_sign].
  - cbn [Num.starts_with list_ascii_of_string]. cbn [Ascii.eqb Bool.eqb].
    rewrite (take_digits_no_digit "." r eq_refl).
    destruct Hr as [|c2 r2 Hc2 Hr2]; [reflexivity|].
    destruct (Hnd c2 Hc2) as (Hd2 & _ & _).
    rewrite (take_digits_no_digit c2 r2 Hd2). reflexivity.
  - destruct (Htail r Hr) as (Htd & Hsw). rewrite Hsw, Htd.
    destruct Hr as [|c2 r2 Hc2 Hr2]; [reflexivity|].
    destruct Hc2 as [->| ->]; [|reflexivity].
    destruct Hr2 as [|c3 r3 Hc3 Hr3]; [reflexivity|].
    destruct (Hnd c3 Hc3) as (Hd3 & _ & _).
    rewrite (take_digits_no_digit c3 r3 Hd3). reflexivity.
Qed.

Lemma strip_no_digit s :
  Forall (fun c => Num.is_digit c = false) (list_ascii_of_string s) ->
  Forall (fun c => c = "."%char \/ c = "-"%char)
         (filter (fun c => keeps c = true) (list_ascii_of_string s)).
Proof.
  intros H. induction H as [|c r Hc _ IH]; [constructor|].
  rewrite filter_cons. destruct (decide (keeps c = true)) as [Hk|Hk]; [|exact IH].
  constructor; [|exact IH].
  unfold keeps in Hk. rewrite Hc in Hk. cbn [orb] in Hk.
  apply orb_true_iff in Hk as [Hk|Hk]; apply Ascii.eqb_eq in Hk; auto.
Qed.

Lemma parseNum_no_digit s :
  Forall (fun c => Num.is_digit c = false) (list_ascii_of_string s) ->
  parseNum (VStr s) = Ok Num.zero.
Proof.
  intros H. unfold parseNum, strip. cbn [JS.to_string mbind result_bind].
  rewrite (parseFloat_no_digit _ (strip_no_digit s H)). reflexivity.
Qed.

(** X1. [parseNum] reads 0, and [money] shows "0.00", for every text that
    holds no digit and for every number that is not finite (NaN and the
    infinities), as for null and undefined. A total that is printed with
    an exponent is read back without it: the cell of the total 1e-7 shows
    "1.00" and the cell of 1e21 shows "121.00". *)
Theorem money_fallback :
  (forall s,
      Forall (fun c => Num.is_digit c = false) (list_ascii_of_string s) ->
      parseNum (VStr s) = Ok Num.zero /\ money (VStr s) = Ok "0.00") /\
  (forall x, Num.isFinite x = false ->
             parseNum (VNum x) = Ok Num.zero /\ money_cell x = Ok "0.00") /\
  (money VNull = Ok "0.00" /\ money VUndef = Ok "0.00") /\
  (money_cell (Num.of_decimal false 1 (-7)) = Ok "1.00"
   /\ money_cell (Num.of_decimal false 1 21) = Ok "121.00").
Proof.
  split; [|split; [|split; split; vm_compute; reflexivity]].
  - intros s H. unfold money. rewrite (parseNum_no_digit s H).
    split; reflexivity.
  - intros [s|[]| |s m e] H; try discriminate H;
      split; vm_compute; reflexivity.
Qed.

(** The theorem at the text "KWD". *)
Lemma money_fallback_witness :
  Forall (fun c => Num.is_digit c = false) (list_ascii_of_string "KWD")
  /\ money (VStr "KWD") = Ok "0.00".
Proof.
  assert (H : Forall (fun c => Num.is_digit c = false)
                     (list_ascii_of_string "KWD")) by (repeat constructor).
  split; [exact H|].
  exact (proj2 (proj1 money_fallback "KWD" H)).
Defined.

Lemma binary_round_aux_nonneg prec emax m e l :
  (0 <= m)%Z ->
  Num.le Num.zero (binary_round_aux prec emax false m e l) = true.
Proof.
  intros Hm. unfold binary_round_aux.
  pose proof (shr_fexp_nonneg prec emax m e l Hm) as H1.
  destruct (shr_fexp prec emax m e l) as [mrs' e'] eqn:E1. cbn [fst] in H1.
  pose proof (shr_fexp_nonneg prec emax
                (round_nearest_even (shr_m mrs') (loc_of_shr_record mrs'))
                e' loc_Exact (round_nearest_even_nonneg _ _ H1)) as H2.
  destruct (shr_fexp prec emax _ e' loc_Exact) as [mrs'' e''] eqn:E2.
  cbn [fst] in H2.
  destruct (shr_m mrs'') as [|p|p]; [reflexivity| |lia].
  destruct (e'' <=? emax - prec)%Z; reflexivity.
Qed.

Lemma binary_normalize_pos_nonneg prec emax p e :
  Num.le Num.zero (binary_normalize prec emax (Zpos p) e false) = true.
Proof.
  unfold binary_normalize, binary_round.
  destruct (shl_align _ _ _) as [mz ez].
  apply binary_round_aux_nonneg. lia.
Qed.

Lemma sub_not_nan a b :
  Num.isFinite a = true -> Num.isFinite b = true ->
  Num.is_nan (Num.sub a b) = false.
Proof.
  destruct a as [sa| | |sa ma ea], b as [sb| | |sb mb eb];
    try discriminate; intros _ _; unfold Num.sub; cbn [SFsub];
    try reflexivity.
  - destruct sa, sb; reflexivity.
  - apply binary_normalize_not_nan.
Qed.

Lemma mul_not_nan a b :
  Num.isFinite a = true -> Num.isFinite b = true ->
  Num.is_nan (Num.mul a b) = false.
Proof.
  destruct a as [sa| | |sa ma ea], b as [sb| | |sb mb eb];
    try discriminate; intros _ _; unfold Num.mul; cbn [SFmul];
    try reflexivity.
  apply binary_round_aux_not_nan. lia.
Qed.

Lemma add_not_nan a b :
  Num.is_nan a = false -> Num.isFinite b = true ->
  Num.is_nan (Num.add a b) = false.
Proof.
  destruct a as [sa|sa| |sa ma ea], b as [sb| | |sb mb eb];
    try discriminate; intros _ _; unfold Num.add; cbn [SFadd];
    try reflexivity.
  - destruct sa, sb; reflexivity.
  - apply binary_normalize_not_nan.
Qed.

Lemma le_zero_cases x :
  Num.le Num.zero x = true ->
  (exists s, x = S754_zero s) \/ x = S754_infinity false
  \/ exists m e, x = S754_finite false m e.
Proof.
  destruct x as [s|[]| |[] m e]; try discriminate; eauto.
Qed.

Lemma add_nonneg a b :
  Num.le Num.zero a = true -> Num.le Num.zero b = true ->
  Num.le Num.zero (Num.add a b) = true.
Proof.
  intros Ha Hb.
  destruct (le_zero_cases a Ha) as [[sa ->]|[->|(ma & ea & ->)]];
    destruct (le_zero_cases b Hb) as [[sb ->]|[->|(mb & eb & ->)]];
    unfold Num.add; cbn [SFadd]; try reflexivity.
  - destruct sa, sb; reflexivity.
  - cbn [cond_Zopp Z.add]. apply binary_normalize_pos_nonneg.
Qed.

Lemma max_zero_nonneg x :
  Num.is_nan x = false -> Num.le Num.zero (Num.max x Num.zero) = true.
Proof. destruct x as [[]|[]| |[] m e]; try discriminate; reflexivity. Qed.

Lemma foldl_add_nonneg l acc :
  Num.le Num.zero acc = true ->
  Forall (fun x => Num.le Num.zero x = true) l ->
  Num.le Num.zero (foldl Num.add acc l) = true.
Proof.
  intros Hacc Hl. revert acc Hacc.
  induction Hl as [|x l Hx _ IH]; intros acc Hacc; [exact Hacc|].
  cbn [foldl]. apply IH, add_nonneg; assumption.
Qed.

(** X2. The remaining quantity of a row is never negative and never NaN,
    whatever the quantity and the sold texts are, there is one per item
    row, and their total is not negative either. *)
Theorem remaining_never_negative :
  forall items sales rem,
    remainingByRow items sales = Ok rem ->
    Forall (fun x => Num.le Num.zero x = true) rem
    /\ (forall rows, items = VArr rows -> length rem = length rows)
    /\ exists total, totalRemaining items sales = Ok total
                     /\ Num.le Num.zero total = true.
Proof.
  intros items sales rem H.
  assert (Hrem : Forall (fun x => Num.le Num.zero x = true) rem).
  { unfold remainingByRow in H. apply bind_Ok in H as (l & _ & H).
    eapply mapM_Ok_results; [|exact H].
    intros [i r] b Hb. apply bind_Ok in Hb as (qty & Hqty & Hb).
    apply bind_Ok in Hb as (sale & _ & Hb).
    apply bind_Ok in Hb as (sold & Hsold & Hb).
    injection Hb as <-.
    apply max_zero_nonneg, sub_not_nan; eapply parseNum_finite; eassumption. }
  split; [exact Hrem|]. split.
  - intros rows ->. unfold remainingByRow in H.
    cbn [JS.as_array mbind result_bind] in H.
    apply mapM_Ok_length in H. rewrite H. apply length_imap.
  - unfold totalRemaining. rewrite H. cbn [mbind result_bind].
    eexists. split; [reflexivity|].
    apply foldl_add_nonneg; [reflexivity|exact Hrem].
Qed.

(** The theorem at a row of quantity "5" with "9" sold: nothing remains. *)
Lemma remaining_never_negative_witness :
  remainingByRow (VArr [VObj [("qty", VStr "5")]]) (VArr [VStr "9"])
  = Ok [Num.zero]
  /\ Forall (fun x => Num.le Num.zero x = true) [Num.zero].
Proof.
  assert (H : remainingByRow (VArr [VObj [("qty", VStr "5")]]) (VArr [VStr "9"])
              = Ok [Num.zero]) by (vm_compute; reflexivity).
  split; [exact H|].
  exact (proj1 (remaining_never_negative _ _ _ H)).
Defined.

Lemma sum_sold_not_nan l acc total :
  Num.is_nan acc = false -> sum_sold acc l = Ok total ->
  Num.is_nan total = false.
Proof.
  revert acc. induction l as [|x l IH]; intros acc Hacc H; cbn [sum_sold] in H.
  - injection H as <-. exact Hacc.
  - apply bind_Ok in H as (n & Hn & H).
    apply (IH _ (add_not_nan _ _ Hacc (parseNum_finite _ _ Hn)) H).
Qed.

(** X3. No line total is NaN and the total of the sold column is never
    NaN: a text that reads as no number counts as 0 instead. There is one
    line total per item row. *)
Theorem totals_never_nan :
  (forall items totals,
      lineTotals items = Ok totals ->
      Forall (fun x => Num.is_nan x = false) totals
      /\ forall rows, items = VArr rows -> length totals = length rows) /\
  (forall sales total,
      totalSold sales = Ok total -> Num.is_nan total = false).
Proof.
  split.
  - intros items totals H. unfold lineTotals in H.
    apply bind_Ok in H as (l & Hl & H). split.
    + eapply mapM_Ok_results; [|exact H].
      intros r b Hb. apply bind_Ok in Hb as (qty & Hqty & Hb).
      apply bind_Ok in Hb as (up & _ & Hb).
      apply bind_Ok in Hb as (price & Hprice & Hb). injection Hb as <-.
      apply mul_not_nan; eapply parseNum_finite; eassumption.
    + intros rows ->. injection Hl as <-. apply (mapM_Ok_length _ _ _ H).
  - intros sales total H. unfold totalSold in H.
    apply bind_Ok in H as (l & _ & H).
    apply (sum_sold_not_nan l Num.zero total eq_refl H).
Qed.

(** The theorem at two rows, one of them with texts that are no number. *)
Lemma totals_never_nan_witness :
  lineTotals (VArr [VObj [("qty", VStr "2"); ("unitPrice", VStr "1.5 KWD")];
                    VObj [("qty", VStr "n/a"); ("unitPrice", VNull)]])
  = Ok [Num.of_Z 3; Num.zero]
  /\ Forall (fun x => Num.is_nan x = false) [Num.of_Z 3; Num.zero].
Proof.
  assert (H : lineTotals
                (VArr [VObj [("qty", VStr "2"); ("unitPrice", VStr "1.5 KWD")];
                       VObj [("qty", VStr "n/a"); ("unitPrice", VNull)]])
              = Ok [Num.of_Z 3; Num.zero]) by (vm_compute; reflexivity).
  split; [exact H|].
  exact (proj1 (proj1 totals_never_nan _ _ H)).
Defined.

(* ================================================================== *)
(** ** Further properties: the actions on a document *)
(* ================================================================== *)

Section ActionFacts.
Variable JSON_stringify : value -> string.

Lemma setAndSave_committed f c s :
  f (state c) = Ok s ->
  setAndSave JSON_stringify f c = Ok (committed JSON_stringify c s).
Proof. intros H. unfold setAndSave. rewrite H. reflexivity. Qed.

(** What each action commits on an object whose items and sales are
    arrays. *)
Lemma addRow_object c o rows sales :
  state c = VObj o ->
  JS.assoc_get "items" o = Some (VArr rows) ->
  JS.assoc_get "sales" o = Some (VArr sales) ->
  addRow JSON_stringify c
  = Ok (committed JSON_stringify c
          (VObj (JS.assoc_set "sales" (VArr (sales ++ [VStr ""]))
                   (JS.assoc_set "items" (VArr (rows ++ [defaultItem])) o)))).
Proof.
  intros Hs Hi Hsl. apply setAndSave_committed. rewrite Hs.
  run_reads. rewrite Hi, Hsl. reflexivity.
Qed.

Lemma removeRow_object c o rows sales i :
  state c = VObj o ->
  JS.assoc_get "items" o = Some (VArr rows) ->
  JS.assoc_get "sales" o = Some (VArr sales) ->
  removeRow JSON_stringify i c
  = Ok (committed JSON_stringify c
          (if JS.strict_eq (JS.length_of rows) (VNum (Num.of_Z 1))
           then VObj o
           else VObj (JS.assoc_set "sales" (VArr (delete i sales))
                        (JS.assoc_set "items" (VArr (delete i rows)) o)))).
Proof.
  intros Hs Hi Hsl. apply setAndSave_committed. rewrite Hs.
  run_reads. rewrite Hi. run_reads.
  replace (String.eqb "length" "length") with true by reflexivity.
  run_reads.
  destruct (JS.strict_eq _ _); [reflexivity|].
  rewrite Hsl. run_reads.
  rewrite !remove_at_delete. reflexivity.
Qed.

Lemma updateItem_object c o rows i k v :
  state c = VObj o ->
  JS.assoc_get "items" o = Some (VArr rows) ->
  updateItem JSON_stringify i k v c
  = Ok (committed JSON_stringify c
          (VObj (JS.assoc_set "items"
                   (VArr (imap (fun idx r =>
                                  if (idx =? i)%nat
                                  then VObj (JS.assoc_set k v (JS.spread r))
                                  else r) rows))
                   o))).
Proof.
  intros Hs Hi. apply setAndSave_committed. rewrite Hs.
  run_reads. rewrite Hi. reflexivity.
Qed.

Lemma updateHeader_object c o patch :
  state c = VObj o ->
  updateHeader JSON_stringify patch c
  = Ok (committed JSON_stringify c
          (VObj (JS.assoc_set "header"
                   (VObj (foldl (fun o '(k, v) => JS.assoc_set k v o)
                                (JS.spread (default VUndef
                                              (JS.assoc_get "header" o)))
                                patch))
                   o))).
Proof. intros Hs. apply setAndSave_committed. rewrite Hs. reflexivity. Qed.

Lemma setOption_object c o key :
  state c = VObj o ->
  setOption JSON_stringify key c
  = Ok (committed JSON_stringify c
          (VObj (JS.assoc_set "option" (VStr key) o))).
Proof. intros Hs. apply setAndSave_committed. rewrite Hs. reflexivity. Qed.

Lemma clearAllItems_object c o :
  state c = VObj o ->
  clearAllItems JSON_stringify c
  = Ok (committed JSON_stringify c
          (VObj (JS.assoc_set "sales" (VArr [VStr ""])
                   (JS.assoc_set "items" (VArr [defaultItem]) o)))).
Proof. intros Hs. apply setAndSave_committed. rewrite Hs. reflexivity. Qed.

Lemma editSold_object c o rows sales i t :
  state c = VObj o ->
  JS.assoc_get "items" o = Some (VArr rows) ->
  JS.assoc_get "sales" o = Some (VArr sales) ->
  editSold JSON_stringify i t c
  = (stored ← sold_text (VArr rows) i t;
     Ok (committed JSON_stringify c
           (VObj (JS.assoc_set "sales"
                    (VArr (JS.array_store sales i (VStr stored))) o)))).
Proof.
  intros Hs Hi Hsl. unfold editSold. rewrite Hs.
  run_reads. rewrite Hi. run_reads.
  destruct (sold_text (VArr rows) i t) as [stored|e]; [|reflexivity].
  run_reads.
  apply setAndSave_committed. rewrite Hs.
  run_reads. rewrite Hsl. reflexivity.
Qed.

End ActionFacts.

(** *** Sound documents *)

Lemma get_not_nullish v k :
  JS.is_nullish v = false -> JS.get v k = Ok (JS.get_opt v k).
Proof. unfold JS.get_opt. destruct v; try discriminate; reflexivity. Qed.



Lemma option_valid_key o key :
  In key (map fst BENEFICIARY_OPTIONS) ->
  JS.assoc_get "option" o = Some (VStr key) ->
  option_valid (VObj o).
Proof.
  intros Hkey Hopt. exists (VStr key), key. cbn [JS.get]. rewrite Hopt.
  cbn [map fst BENEFICIARY_OPTIONS In] in Hkey.
  destruct Hkey as [<- | [<- | []]]; eexists; repeat split; reflexivity.
Qed.

Lemma sound_newPO_state : sound newPO_state.
Proof.
  eexists _, [defaultItem], [VStr ""]. split; [reflexivity|].
  repeat split; try reflexivity; try discriminate.
  - repeat constructor.
  - apply (option_valid_key _ "KNPC_73000"); [left|]; reflexivity.
Qed.

(** *** Plain documents *)

Lemma texts_only_get ro k :
  texts_only ro ->
  default VUndef (JS.assoc_get k ro) = VUndef
  \/ exists t, default VUndef (JS.assoc_get k ro) = VStr t.
Proof.
  induction 1 as [|[k' v] ro [t Ht] _ IH]; cbn [JS.assoc_get];
    [left; reflexivity|].
  destruct (String.eqb k k'); [|exact IH].
  right. cbn in Ht. subst v. eauto.
Qed.

Lemma texts_only_set k t ro :
  texts_only ro -> texts_only (JS.assoc_set k (VStr t) ro).
Proof.
  induction 1 as [|[k' v] ro Hv Hro IH]; cbn [JS.assoc_set].
  - repeat constructor. cbn. eauto.
  - destruct (String.eqb k k'); constructor; try assumption. cbn. eauto.
Qed.

Lemma parseNum_field ro k :
  texts_only ro ->
  exists n, parseNum (default VUndef (JS.assoc_get k ro)) = Ok n.
Proof.
  intros H. destruct (texts_only_get ro k H) as [-> | [t ->]];
    eexists; reflexivity.
Qed.

Lemma qtyOf_plain r :
  (r = VUndef \/ exists ro, r = VObj ro /\ texts_only ro) ->
  exists q, qtyOf r = Ok q.
Proof.
  intros [-> | (ro & -> & Hro)]; [eexists; reflexivity|].
  exact (parseNum_field ro "qty" Hro).
Qed.

Lemma lineTotals_plain rows :
  Forall (fun r => exists ro, r = VObj ro /\ texts_only ro) rows ->
  exists totals, lineTotals (VArr rows) = Ok totals.
Proof.
  intros H. unfold lineTotals. run_reads.
  apply mapM_Ok_Forall. eapply Forall_impl; [exact H|]. cbn beta.
  intros r (ro & -> & Hro).
  destruct (qtyOf_plain (VObj ro)) as [q ->]; [eauto|].
  run_reads.
  destruct (parseNum_field ro "unitPrice" Hro) as [p ->].
  eexists; reflexivity.
Qed.

Lemma plain_sound s : plain s -> sound s.
Proof.
  intros (o & key & hdr & rows & texts & -> & Hopt & Hkey & Hh & _ & Hi & Hne
          & Hrows & Hs & Hlen).
  exists o, rows, (map VStr texts). split; [reflexivity|].
  rewrite Hh. repeat split; try assumption.
  - eapply Forall_impl; [exact Hrows|]. cbn beta. intros r (ro & -> & _).
    reflexivity.
  - rewrite length_map. exact Hlen.
  - exact (option_valid_key o key Hkey Hopt).
Qed.

Lemma plain_newPO_state : plain newPO_state.
Proof.
  exists (JS.spread newPO_state), "KNPC_73000", (JS.spread defaultHeader),
    [defaultItem], [""].
  split; [reflexivity|]. split; [reflexivity|]. split; [left; reflexivity|].
  split; [reflexivity|].
  split; [repeat constructor; cbn; eauto|].
  split; [reflexivity|]. split; [discriminate|].
  split; [|split; reflexivity].
  constructor; [|constructor]. eexists. split; [reflexivity|].
  repeat constructor; cbn; eauto.
Qed.

(** The render of a plain document succeeds. *)
Lemma render_plain s :
  plain s ->
  exists o rows sales,
    s = VObj o
    /\ JS.assoc_get "items" o = Some (VArr rows)
    /\ JS.assoc_get "sales" o = Some (VArr sales)
    /\ render s
       = Ok (Snapshot (default VUndef (JS.assoc_get "option" o))
                      (default VUndef (JS.assoc_get "header" o))
                      (VArr rows) (VArr sales)).
Proof.
  intros (o & key & hdr & rows & texts & -> & Hopt & Hkey & Hh & _ & Hi & Hne
          & Hrows & Hs & Hlen).
  exists o, rows, (map VStr texts). repeat split; try assumption.
  unfold render. run_reads. rewrite Hi, Hs, Hh. run_reads.
  destruct (lineTotals_plain rows Hrows) as [totals Ht]. rewrite Ht. run_reads.
  replace (String.eqb "length" "length") with true by reflexivity.
  destruct (remainingByRow_Ok rows (map VStr texts)
              (lineTotals_qtys _ _ Ht)) as [rem ->]; [|reflexivity].
  apply texts_parse. apply Forall_forall. intros v Hv.
  apply list_elem_of_fmap in Hv as (t & -> & _). eauto.
Qed.

(** The header effect on a plain document writes the two texts of the
    preset into the header, and leaves the document plain. *)
Lemma sync_header_plain o :
  plain (VObj o) ->
  exists key hdr bn ln,
    JS.assoc_get "option" o = Some (VStr key)
    /\ JS.assoc_get "header" o = Some (VObj hdr)
    /\ lookup_option (VStr key)
       = Ok (default VUndef (JS.assoc_get key BENEFICIARY_OPTIONS))
    /\ JS.get (default VUndef (JS.assoc_get key BENEFICIARY_OPTIONS))
              "beneficiaryName" = Ok (VStr bn)
    /\ JS.get (default VUndef (JS.assoc_get key BENEFICIARY_OPTIONS))
              "ltsaNumber" = Ok (VStr ln)
    /\ sync_header (VStr key) (VObj o)
       = Ok (VObj (JS.assoc_set "header"
                     (VObj (JS.assoc_set "ltsaNumber" (VStr ln)
                              (JS.assoc_set "beneficiaryName" (VStr bn) hdr)))
                     o))
    /\ plain (VObj (JS.assoc_set "header"
                      (VObj (JS.assoc_set "ltsaNumber" (VStr ln)
                               (JS.assoc_set "beneficiaryName" (VStr bn) hdr)))
                      o)).
Proof.
  intros (o' & key & hdr & rows & texts & [= <-] & Hopt & Hkey & Hh & Hhdr & Hi
          & Hne & Hrows & Hs & Hlen).
  assert (Hb : exists bn ln,
             lookup_option (VStr key)
             = Ok (default VUndef (JS.assoc_get key BENEFICIARY_OPTIONS))
             /\ JS.get (default VUndef (JS.assoc_get key BENEFICIARY_OPTIONS))
                       "beneficiaryName" = Ok (VStr bn)
             /\ JS.get (default VUndef (JS.assoc_get key BENEFICIARY_OPTIONS))
                       "ltsaNumber" = Ok (VStr ln)).
  { cbn [map fst BENEFICIARY_OPTIONS In] in Hkey.
    destruct Hkey as [<- | [<- | []]]; eexists _, _; repeat split. }
  destruct Hb as (bn & ln & Hb & Hbn & Hln).
  exists key, hdr, bn, ln.
  split; [exact Hopt|]. split; [exact Hh|]. split; [exact Hb|].
  split; [exact Hbn|]. split; [exact Hln|]. split.
  - unfold sync_header. rewrite Hb. run_reads. rewrite Hh, Hbn, Hln.
    reflexivity.
  - eexists _, key, _, rows, texts. split; [reflexivity|].
    rewrite assoc_get_set_eq.
    rewrite !assoc_get_set_ne by discriminate.
    repeat split; try assumption.
    do 2 apply texts_only_set. exact Hhdr.
Qed.

Section SoundFacts.
Variable JSON_stringify : value -> string.

(** A render of a sound document, when it succeeds, runs at most the
    header effect. *)
Lemma commit_sound c :
  sound (state c) ->
  exists o rows h,
    state c = VObj o
    /\ JS.assoc_get "items" o = Some (VArr rows)
    /\ commit JSON_stringify c
       = (_ ← render (VObj o);
          Ok (dep_changed (option_dep c)
                          (default VUndef (JS.assoc_get "option" o)),
              let c0 := Comp (VObj o) (store c) (alerts c)
                             (Some (default VUndef (JS.assoc_get "option" o)))
                             (Some (JS.length_of rows)) in
              if dep_changed (option_dep c)
                             (default VUndef (JS.assoc_get "option" o))
              then committed JSON_stringify c0
                     (VObj (JS.assoc_set "header" (VObj h) o))
              else c0))
    /\ sync_header (default VUndef (JS.assoc_get "option" o)) (VObj o)
       = Ok (VObj (JS.assoc_set "header" (VObj h) o)).
Proof.
  intros (o & rows & sales & Hs & Hi & _ & Hrows & Hsl & Hlen & Hh & Hv).
  rewrite Hs in Hv.
  destruct (option_valid_lookup _ Hv) as (opt & b & Hopt & Hb & Hobj).
  cbn [JS.get] in Hopt. injection Hopt as Hopt.
  assert (Hsync : exists h,
             sync_header (default VUndef (JS.assoc_get "option" o)) (VObj o)
             = Ok (VObj (JS.assoc_set "header" (VObj h) o))).
  { unfold sync_header. rewrite Hopt, Hb. run_reads.
    destruct b; try discriminate Hobj; run_reads; eexists; reflexivity. }
  destruct Hsync as [h Hsync]. exists o, rows, h.
  split; [exact Hs|]. split; [exact Hi|]. split; [|exact Hsync].
  unfold commit. rewrite Hs.
  destruct (render (VObj o)) as [snap|e] eqn:Hr; [|reflexivity].
  destruct (render_Ok _ _ Hr) as (o' & rows' & [= <-] & _ & ->).
  rewrite Hi, Hsl. run_reads.
  cbn [r_items r_option r_sales]. run_reads.
  replace (String.eqb "length" "length") with true by reflexivity.
  assert (Hu2 : (if dep_changed (length_dep c) (JS.length_of rows)
                 then sync_sales (Snapshot
                        (default VUndef (JS.assoc_get "option" o))
                        (default VUndef (JS.assoc_get "header" o))
                        (VArr rows) (VArr sales))
                 else Ok None) = Ok None).
  { destruct (dep_changed _ _); [|reflexivity].
    unfold sync_sales. cbn [r_items r_sales]. run_reads.
    replace (String.eqb "length" "length") with true by reflexivity.
    rewrite (length_strict_eq sales rows Hlen). reflexivity. }
  rewrite Hu2. run_reads.
  destruct (dep_changed (option_dep c) _); cbn [apply_opt queued orb].
  - rewrite (setAndSave_committed JSON_stringify (sync_header _)
               (Comp (VObj o) _ _ _ _) _ Hsync).
    reflexivity.
  - reflexivity.
Qed.

(** A render of a plain document succeeds, and leaves it plain. *)
Lemma commit_plain c :
  plain (state c) ->
  exists o rows h,
    state c = VObj o
    /\ JS.assoc_get "items" o = Some (VArr rows)
    /\ commit JSON_stringify c
       = Ok (dep_changed (option_dep c)
                         (default VUndef (JS.assoc_get "option" o)),
             let c0 := Comp (VObj o) (store c) (alerts c)
                            (Some (default VUndef (JS.assoc_get "option" o)))
                            (Some (JS.length_of rows)) in
             if dep_changed (option_dep c)
                            (default VUndef (JS.assoc_get "option" o))
             then committed JSON_stringify c0
                    (VObj (JS.assoc_set "header" (VObj h) o))
             else c0)
    /\ sync_header (default VUndef (JS.assoc_get "option" o)) (VObj o)
       = Ok (VObj (JS.assoc_set "header" (VObj h) o))
    /\ plain (VObj (JS.assoc_set "header" (VObj h) o)).
Proof.
  intros Hplain.
  destruct (commit_sound c (plain_sound _ Hplain))
    as (o & rows & h & Hst & Hi & Hc & Hsync).
  exists o, rows, h. split; [exact Hst|]. split; [exact Hi|].
  rewrite Hst in Hplain.
  destruct (render_plain _ Hplain) as (o1 & rows1 & sales1 & [= <-] & _ & _ & Hr).
  rewrite Hr in Hc. split; [exact Hc|]. split; [exact Hsync|].
  destruct (sync_header_plain o Hplain)
    as (key & hdr & bn & ln & Hopt & _ & _ & _ & _ & Hsync' & Hplain').
  rewrite Hopt in Hsync. cbn [default from_option id] in Hsync.
  rewrite Hsync' in Hsync. injection Hsync as <-. exact Hplain'.
Qed.

End SoundFacts.




Lemma plain_set_option o key :
  In key (map fst BENEFICIARY_OPTIONS) ->
  plain (VObj o) ->
  plain (VObj (JS.assoc_set "option" (VStr key) o)).
Proof.
  intros Hkey (o' & key0 & hdr & rows & texts & [= <-] & _ & _ & Hh & Hhdr & Hi
               & Hne & Hrows & Hs & Hlen).
  eexists _, key, hdr, rows, texts. split; [reflexivity|].
  rewrite assoc_get_set_eq.
  rewrite !assoc_get_set_ne by discriminate.
  repeat split; assumption.
Qed.

Lemma single_row_length {A} (l : list A) :
  length l = 1 -> JS.strict_eq (JS.length_of l) (VNum (Num.of_Z 1)) = true.
Proof. intros H. unfold JS.length_of. rewrite H. reflexivity. Qed.

Lemma array_store_length (l : list value) i x :
  i < length l -> length (JS.array_store l i x) = length l.
Proof.
  intros H. unfold JS.array_store.
  destruct (Nat.ltb_spec i (length l)); [|lia].
  apply length_insert.
Qed.

Section Invariant.
Variable JSON_stringify : value -> string.



(** X5. No handler raises on a plain document, one whose option is a key
    of the table and whose header, rows and sales hold texts: each
    handler, with any argument, and the render with its effects, returns
    a component; and the export offers the pretty-printed document for
    download. *)
Theorem handlers_never_raise c f :
  plain (state c) -> handler JSON_stringify f ->
  (exists c', f c = Ok c')
  /\ forall JSON_pretty, exists name,
       exportJSON JSON_pretty c = Downloaded name (JSON_pretty (state c)).
Proof.
  intros Hplain Hf.
  pose proof Hplain as (o & key & hdr & rows & texts & Hst & Hopt & Hkey & Hh
                        & Hhdr & Hi & Hne & Hrows & Hs & Hlen).
  split.
  - destruct Hf.
    + eexists. apply (setAndSave_committed JSON_stringify _ c newPO_state eq_refl).
    + eexists. unfold clearStorage, newPO.
      apply (setAndSave_committed JSON_stringify _ _ newPO_state eq_refl).
    + eexists. apply (setOption_object JSON_stringify c o key0 Hst).
    + eexists. apply (updateHeader_object JSON_stringify c o patch Hst).
    + eexists. apply (updateItem_object JSON_stringify c o rows i k v Hst Hi).
    + eexists. apply (addRow_object JSON_stringify c o rows _ Hst Hi Hs).
    + eexists. apply (removeRow_object JSON_stringify c o rows _ i Hst Hi Hs).
    + eexists. apply (clearAllItems_object JSON_stringify c o Hst).
    + rewrite (editSold_object JSON_stringify c o rows _ i t Hst Hi Hs).
      unfold sold_text. run_reads.
      destruct (qtyOf_plain (default VUndef (rows !! i))) as [q ->].
      { destruct (rows !! i) as [r|] eqn:E; [right|left; reflexivity].
        exact (Forall_lookup_1 _ _ _ _ Hrows E). }
      run_reads. eexists. reflexivity.
    + destruct (commit_plain JSON_stringify c Hplain)
        as (o1 & rows1 & h & _ & _ & Hc & _).
      rewrite Hc. eexists. reflexivity.
  - intros JSON_pretty. unfold exportJSON, export_body. rewrite Hst.
    run_reads. rewrite Hh. run_reads.
    destruct (texts_only_get hdr "poNumber" Hhdr) as [-> | [t ->]].
    + eexists. reflexivity.
    + unfold JS.or_else. destruct (JS.truthy (VStr t)); eexists; reflexivity.
Qed.

End Invariant.

(** *** Renders and their effects *)

Lemma lengths_equal_set_header o h :
  lengths_equal (VObj o) ->
  lengths_equal (VObj (JS.assoc_set "header" h o)).
Proof.
  intros (items & sales & sl & il & Hi & Hs & Hsl & Hil & E).
  exists items, sales, sl, il.
  rewrite !get_set_ne by discriminate. repeat split; assumption.
Qed.

Lemma same_value_text v k : JS.same_value v (VStr k) = true -> v = VStr k.
Proof.
  destruct v; cbn; try discriminate.
  intros H. apply String.eqb_eq in H. congruence.
Qed.

Section RenderFacts.
Variable JSON_stringify : value -> string.

(** What a commit does to the document, the storage and the alerts. *)
Lemma commit_result c b c' :
  commit JSON_stringify c = Ok (b, c') ->
  (b = false -> state c' = state c /\ store c' = store c)
  /\ (b = true -> saved JSON_stringify c')
  /\ alerts c' = alerts c
  /\ (option_dep c = None -> b = true)
  /\ (length_dep c = None \/ lengths_equal (state c) ->
      lengths_equal (state c')).
Proof.
  unfold commit. intros H.
  apply bind_Ok in H as (snap & Hsnap & H).
  apply bind_Ok in H as (il & Hil & H).
  apply bind_Ok in H as (u2 & Hu2 & H).
  apply bind_Ok in H as (c1 & Hc1 & H).
  apply bind_Ok in H as (c2 & Hc2 & H).
  destruct (render_Ok _ _ Hsnap) as (o & rows & Hs & Hrows & Hfields).
  rewrite Hfields in Hrows, Hil, Hc1, Hu2, H. cbn [r_items r_option] in *.
  rewrite Hrows in Hil. cbn in Hil. injection Hil as <-.
  set (opt := default VUndef (JS.assoc_get "option" o)) in *.
  assert (H1 : exists o1,
             state c1 = VObj o1 /\ alerts c1 = alerts c
             /\ JS.assoc_get "items" o1 = JS.assoc_get "items" o
             /\ (lengths_equal (VObj o) -> lengths_equal (VObj o1))
             /\ if dep_changed (option_dep c) opt
                then saved JSON_stringify c1
                else state c1 = state c /\ store c1 = store c).
  { destruct (dep_changed (option_dep c) opt); cbn [apply_opt] in Hc1.
    - apply setAndSave_Ok in Hc1 as (next & Hnext & ->). cbn [state] in Hnext.
      rewrite Hs in Hnext.
      destruct (sync_header_idem _ _ _ Hnext) as (h & -> & _).
      eexists. split; [reflexivity|]. split; [reflexivity|].
      split; [apply assoc_get_set_ne; discriminate|].
      split; [apply lengths_equal_set_header|].
      unfold saved. cbn [store state]. apply lookup_insert_eq.
    - injection Hc1 as <-. exists o. cbn [state store alerts].
      repeat split; try assumption. intros HH; exact HH. }
  destruct H1 as (o1 & Hs1 & Ha1 & Hit1 & Hle1 & Hsv1).
  assert (Hrun1 : option_dep c = None -> dep_changed (option_dep c) opt = true)
    by (intros ->; reflexivity).
  destruct u2 as [f|]; cbn [apply_opt] in Hc2.
  - destruct (dep_changed (length_dep c) (JS.length_of rows));
      [|discriminate Hu2].
    unfold sync_sales in Hu2. cbn [r_items r_sales] in Hu2.
    apply bind_Ok in Hu2 as (sl & _ & Hu2).
    apply bind_Ok in Hu2 as (il & _ & Hu2).
    destruct (negb (JS.strict_eq sl il)); [|discriminate Hu2].
    apply bind_Ok in Hu2 as (next & Hnext & Hu2). injection Hu2 as <-.
    apply setAndSave_Ok in Hc2 as (s2 & Hs2 & ->).
    rewrite Hs1 in Hs2. injection Hs2 as <-.
    rewrite orb_true_r in H. injection H as <- <-.
    cbn [state store alerts JS.spread].
    split; [discriminate|].
    split; [intros _; unfold saved; cbn [store state]; apply lookup_insert_eq|].
    split; [exact Ha1|]. split; [reflexivity|]. intros _.
    exists (VArr rows), (VArr next), (JS.length_of next), (JS.length_of rows).
    split.
    { rewrite get_set_ne by discriminate. cbn [JS.get].
      rewrite Hit1, Hrows. reflexivity. }
    split; [apply get_set_eq|].
    split; [reflexivity|]. split; [reflexivity|].
    apply length_strict_eq. eapply nextSales_length; [|exact Hnext].
    exact Hrows.
  - injection Hc2 as <-. rewrite orb_false_r in H.
    assert (Hle : length_dep c = None \/ lengths_equal (state c) ->
                  lengths_equal (VObj o)).
    { intros Hdep.
      destruct (dep_changed (length_dep c) (JS.length_of rows)) eqn:E2.
      - unfold sync_sales in Hu2. cbn [r_items r_sales] in Hu2.
        apply bind_Ok in Hu2 as (sl & Hsl & Hu2).
        apply bind_Ok in Hu2 as (il & Hil & Hu2).
        destruct (JS.strict_eq sl il) eqn:E; cbn [negb] in Hu2.
        + eexists _, _, sl, il. cbn [JS.get].
          split; [reflexivity|]. split; [reflexivity|].
          repeat split; assumption.
        + apply bind_Ok in Hu2 as (next & _ & Hu2). discriminate Hu2.
      - destruct Hdep as [Hnone | Hle].
        + rewrite Hnone in E2. discriminate E2.
        + rewrite <- Hs. exact Hle. }
    destruct (dep_changed (option_dep c) opt) eqn:E1;
      cbn [queued] in H; injection H as <- <-.
    + split; [discriminate|]. split; [intros _; exact Hsv1|].
      split; [exact Ha1|]. split; [reflexivity|].
      intros Hdep. rewrite Hs1. apply Hle1, Hle, Hdep.
    + split; [intros _; exact Hsv1|]. split; [discriminate|].
      split; [exact Ha1|].
      split; [intros Hnone; specialize (Hrun1 Hnone); discriminate|].
      intros Hdep. rewrite Hs1. apply Hle1, Hle, Hdep.
Qed.

(** Every commit leaves both effects with the document they saw. *)
Lemma commit_quiet c b c' :
  commit JSON_stringify c = Ok (b, c') -> quiet c'.
Proof.
  intros H.
  destruct (commit_Ok _ _ _ _ H)
    as (o & o' & opt & rows & _ & Hs' & Hopt & Hitems & Hopt0 & Hrows & Hd & Hl).
  exists o', rows. rewrite Hopt, Hitems, Hopt0.
  repeat split; assumption.
Qed.

(** More than two renders change nothing. *)
Lemma settle_two c n :
  settle JSON_stringify (2 + n) c = settle JSON_stringify 2 c.
Proof.
  cbn [settle Nat.add].
  destruct (commit JSON_stringify c) as [[[] c1]|e] eqn:E; try reflexivity.
  destruct (commit_then_stable _ _ _ _ E) as [[e E1]|[c2 E1]]; rewrite E1.
  - destruct n; reflexivity.
  - destruct n; reflexivity.
Qed.

(** What [settle] ends with, when it ends with a component. *)
Lemma settle_result c c' :
  settle JSON_stringify 2 c = Some (Ok c') ->
  quiet c'
  /\ (length_dep c = None \/ lengths_equal (state c) ->
      lengths_equal (state c'))
  /\ (option_dep c = None \/ saved JSON_stringify c ->
      saved JSON_stringify c').
Proof.
  cbn [settle]. intros H.
  destruct (commit JSON_stringify c) as [[b c1]|e] eqn:E;
    [|discriminate H].
  pose proof (commit_result _ _ _ E) as (Hf & Ht & _ & Hnone & Hle).
  pose proof (commit_quiet _ _ _ E) as Hq.
  destruct b.
  - destruct (commit JSON_stringify c1) as [[b2 c2]|e] eqn:E1;
      [|discriminate H].
    pose proof (commit_result _ _ _ E1) as (Hf2 & _ & _ & _ & Hle2).
    pose proof (commit_quiet _ _ _ E1) as Hq2.
    destruct b2; [discriminate H|]. injection H as <-.
    destruct (Hf2 eq_refl) as [Hst Hsto].
    split; [exact Hq2|]. split.
    + intros Hdep. apply Hle2. right. apply Hle, Hdep.
    + intros _. unfold saved. rewrite Hst, Hsto. exact (Ht eq_refl).
  - injection H as <-. destruct (Hf eq_refl) as [Hst Hsto].
    split; [exact Hq|]. split; [exact Hle|].
    intros [Hdep | Hsv].
    + specialize (Hnone Hdep). discriminate Hnone.
    + unfold saved. rewrite Hst, Hsto. exact Hsv.
Qed.

End RenderFacts.

Section Renders.
Variable JSON_stringify : value -> string.

(** A settled plain component is a fixed point of the render. *)
Lemma commit_fixed c :
  plain (state c) -> quiet c -> commit JSON_stringify c = Ok (false, c).
Proof.
  intros Hplain (o & rows & Hst & Hod & Hit & Hld).
  destruct (commit_plain JSON_stringify c Hplain)
    as (o1 & rows1 & h & Hst1 & Hi1 & Hc & _).
  rewrite Hst in Hst1. injection Hst1 as <-.
  rewrite Hi1 in Hit. injection Hit as <-.
  rewrite Hc, Hod. cbn [dep_changed]. rewrite same_value_refl. cbn [negb].
  destruct c as [s st al od ld]. cbn [state option_dep length_dep] in *.
  subst. reflexivity.
Qed.

(** X6. On a plain document, one whose option is a key of the table and
    whose header, rows and sales hold texts, the effects settle after one
    render that commits and one that finds nothing to do, whatever the
    effects had seen before: the settled document is plain again, both
    effects have seen it, a further render returns the component
    unchanged, and its option, items and sales are those the render
    started from. *)
Theorem effects_settle c :
  plain (state c) ->
  exists c',
    (forall n, settle JSON_stringify (2 + n) c = Some (Ok c'))
    /\ plain (state c') /\ quiet c'
    /\ commit JSON_stringify c' = Ok (false, c')
    /\ JS.get (state c') "option" = JS.get (state c) "option"
    /\ JS.get (state c') "items" = JS.get (state c) "items"
    /\ JS.get (state c') "sales" = JS.get (state c) "sales".
Proof.
  intros Hplain.
  destruct (commit_plain JSON_stringify c Hplain)
    as (o & rows & h & Hst & Hi & Hc & _ & Hplain').
  remember (dep_changed (option_dep c)
              (default VUndef (JS.assoc_get "option" o))) as b eqn:Hb.
  cbv zeta in Hc.
  match type of Hc with _ = Ok (_, ?x) => set (c1 := x) in Hc end.
  assert (Hs1 : plain (state c1)).
  { subst c1. destruct b; cbn [committed state]; [exact Hplain'|].
    rewrite <- Hst. exact Hplain. }
  assert (Hq1 : quiet c1) by exact (commit_quiet JSON_stringify c b c1 Hc).
  pose proof (commit_fixed c1 Hs1 Hq1) as Hfix.
  exists c1. split.
  { intros n. rewrite settle_two. cbn [settle]. rewrite Hc.
    destruct b; [rewrite Hfix|]; reflexivity. }
  split; [exact Hs1|]. split; [exact Hq1|]. split; [exact Hfix|].
  rewrite Hst. subst c1.
  destruct b; cbn [committed state];
    rewrite ?get_set_ne by discriminate; repeat split.
Qed.

(** X13. As long as the option is the one the header effect saw last, a
    render of a plain document commits nothing: the document, the storage
    and the alerts stay as they are, whatever texts were typed into the
    header, the rows or the sales, and however many rows there are. *)
Theorem render_follows_option c opt :
  plain (state c) ->
  JS.get (state c) "option" = Ok opt ->
  option_dep c = Some opt ->
  exists c',
    commit JSON_stringify c = Ok (false, c')
    /\ state c' = state c /\ store c' = store c /\ alerts c' = alerts c
    /\ quiet c'.
Proof.
  intros Hplain Hopt Hdep.
  destruct (commit_plain JSON_stringify c Hplain)
    as (o & rows & h & Hst & Hi & Hc & _).
  rewrite Hst in Hopt. cbn [JS.get] in Hopt. injection Hopt as Hopt.
  rewrite Hopt, Hdep in Hc. cbn [dep_changed] in Hc.
  rewrite same_value_refl in Hc. cbn [negb] in Hc.
  eexists. split; [exact Hc|].
  cbn [state store alerts]. rewrite Hst. repeat split.
  exists o, rows. cbn [state option_dep length_dep]. rewrite Hi.
  repeat split. congruence.
Qed.

(** X14. On a plain document, choosing another option of the table and
    rendering fills the header from the preset: the render commits a
    document whose header has the beneficiary name and the LTSA number of
    the chosen preset and every other field as before, whose option is the
    chosen key and whose items and sales are untouched; and the slot holds
    it. *)
Theorem option_change_syncs_header c o hdr key c1 :
  plain (state c) -> quiet c ->
  state c = VObj o ->
  JS.assoc_get "header" o = Some (VObj hdr) ->
  In key (map fst BENEFICIARY_OPTIONS) ->
  JS.get (state c) "option" <> Ok (VStr key) ->
  setOption JSON_stringify key c = Ok c1 ->
  exists c2 h b,
    commit JSON_stringify c1 = Ok (true, c2)
    /\ state c2 = VObj (JS.assoc_set "header" (VObj h)
                          (JS.assoc_set "option" (VStr key) o))
    /\ lookup_option (VStr key) = Ok b
    /\ JS.assoc_get key BENEFICIARY_OPTIONS = Some b
    /\ JS.get (VObj h) "beneficiaryName" = JS.get b "beneficiaryName"
    /\ JS.get (VObj h) "ltsaNumber" = JS.get b "ltsaNumber"
    /\ (forall k, k <> "beneficiaryName" -> k <> "ltsaNumber" ->
                  JS.assoc_get k h = JS.assoc_get k hdr)
    /\ saved JSON_stringify c2.
Proof.
  intros Hplain (o' & rows & Hst' & Hod & _ & _) Hst Hhdr Hkey Hne Hset.
  rewrite Hst in Hst'. injection Hst' as <-.
  rewrite (setOption_object JSON_stringify c o key Hst) in Hset.
  injection Hset as <-.
  assert (Hs1 : plain (state (committed JSON_stringify c
                                (VObj (JS.assoc_set "option" (VStr key) o))))).
  { cbn [committed state]. apply plain_set_option; [exact Hkey|].
    rewrite <- Hst. exact Hplain. }
  destruct (commit_plain JSON_stringify _ Hs1)
    as (o1 & rows1 & h & Hst1 & _ & Hc & Hsync & _).
  cbn [committed state] in Hst1. injection Hst1 as <-.
  cbn [committed option_dep] in Hc.
  rewrite assoc_get_set_eq in Hc, Hsync. cbn [default from_option id] in Hc, Hsync.
  rewrite Hod in Hc. cbn [dep_changed] in Hc.
  destruct (JS.same_value (default VUndef (JS.assoc_get "option" o)) (VStr key))
    eqn:E.
  { apply same_value_text in E. exfalso. apply Hne.
    rewrite Hst. cbn [JS.get]. rewrite E. reflexivity. }
  cbn [negb] in Hc.
  cbn [committed state] in Hs1.
  destruct (sync_header_plain _ Hs1)
    as (key' & hdr' & bn & ln & Hopt' & Hhdr' & Hb & Hbn & Hln & Hsync' & _).
  rewrite assoc_get_set_eq in Hopt'. injection Hopt' as <-.
  rewrite assoc_get_set_ne, Hhdr in Hhdr' by discriminate.
  injection Hhdr' as <-.
  rewrite Hsync' in Hsync. injection Hsync as Hsync.
  assert (Hh : h = JS.assoc_set "ltsaNumber" (VStr ln)
                     (JS.assoc_set "beneficiaryName" (VStr bn) hdr)).
  { assert (Hg : JS.assoc_get "header"
                   (JS.assoc_set "header" (VObj h)
                      (JS.assoc_set "option" (VStr key) o))
                 = Some (VObj h)) by apply assoc_get_set_eq.
    rewrite <- Hsync, assoc_get_set_eq in Hg. congruence. }
  assert (Hsome : JS.assoc_get key BENEFICIARY_OPTIONS
                  = Some (default VUndef (JS.assoc_get key BENEFICIARY_OPTIONS))).
  { cbn [map fst BENEFICIARY_OPTIONS In] in Hkey.
    destruct Hkey as [<- | [<- | []]]; reflexivity. }
  eexists _, h, _. split; [exact Hc|].
  split; [reflexivity|]. split; [exact Hb|]. split; [exact Hsome|].
  rewrite Hbn, Hln, Hh.
  split; [rewrite get_set_ne by discriminate; apply get_set_eq|].
  split; [apply get_set_eq|].
  split.
  - intros k Hk1 Hk2. rewrite !assoc_get_set_ne by congruence. reflexivity.
  - unfold saved. cbn [committed store state]. apply lookup_insert_eq.
Qed.

(** A render raises on a document whose [items] is not an array. *)
Lemma commit_no_items c :
  JS.isArray (JS.get_opt (state c) "items") = false ->
  commit JSON_stringify c = Throw TypeError.
Proof.
  intros H. unfold commit, render, lineTotals.
  destruct (state c) as [| |b|n|s|l|o]; try reflexivity.
  cbn [JS.get_opt JS.get] in H. cbn [JS.get mbind result_bind].
  destruct (default VUndef (JS.assoc_get "items" o));
    try discriminate H; reflexivity.
Qed.

End Renders.

Section Start.
Variable JSON_parse : string -> result value.
Variable JSON_stringify : value -> string.

(** X7. The start of the editor always comes to an end within two
    renders, on any storage: it either raises or settles; and when it
    settles, the sales are as long as the items, the current slot holds
    the text of the document, and both effects have seen that document. *)
Theorem mount_settles (st : storage) :
  exists r,
    (forall n, mount JSON_parse JSON_stringify (2 + n) st = Some r)
    /\ forall c, r = Ok c ->
         quiet c /\ lengths_equal (state c) /\ saved JSON_stringify c.
Proof.
  unfold mount. destruct (load JSON_parse JSON_stringify st) as [s st'].
  destruct (settle JSON_stringify 2 (Comp s st' [] None None)) as [r|] eqn:E;
    [|exfalso; exact (settle_enough JSON_stringify _ E)].
  exists r. split.
  - intros n. rewrite settle_two. exact E.
  - intros c ->.
    destruct (settle_result JSON_stringify _ _ E) as (Hq & Hle & Hsv).
    split; [exact Hq|].
    split; [apply Hle | apply Hsv]; left; reflexivity.
Qed.

(** X8. A current slot that holds a truthy value without an items
    array, an object with other fields or a number or a text, is loaded
    as the document without a check, and the first render raises a
    TypeError: the editor does not start, with any number of renders
    allowed. *)
Theorem mount_without_items_raises (st : storage) v3 n :
  JSON_parse (getItem_or_null st STORAGE_KEY) = Ok v3 ->
  JS.truthy v3 = true ->
  JS.isArray (JS.get_opt v3 "items") = false ->
  mount JSON_parse JSON_stringify (S n) st = Some (Throw TypeError).
Proof.
  intros Hparse Htruthy Hitems. unfold mount.
  rewrite (load_current_slot JSON_parse JSON_stringify st v3 Hparse Htruthy).
  cbn [settle]. rewrite commit_no_items by exact Hitems. reflexivity.
Qed.

End Start.

Lemma plain_set_header o h :
  texts_only h -> plain (VObj o) ->
  plain (VObj (JS.assoc_set "header" (VObj h) o)).
Proof.
  intros Hh (o' & key & hdr & rows & texts & [= <-] & Hopt & Hkey & _ & _ & Hi
             & Hne & Hrows & Hs & Hlen).
  eexists _, key, h, rows, texts. split; [reflexivity|].
  rewrite assoc_get_set_eq.
  rewrite !assoc_get_set_ne by discriminate.
  repeat split; assumption.
Qed.


Lemma handlers_never_raise_witness :
  plain (state settled_default)
  /\ (exists c', editSold Host.stringify 0 "3" settled_default = Ok c')
  /\ exists c', snd <$> commit Host.stringify settled_default = Ok c'.
Proof.
  split; [exact plain_newPO_state|]. split.
  - exact (proj1 (handlers_never_raise Host.stringify settled_default _
                    plain_newPO_state (handler_editSold Host.stringify 0 "3"))).
  - exact (proj1 (handlers_never_raise Host.stringify settled_default _
                    plain_newPO_state (handler_render Host.stringify))).
Defined.

Lemma effects_settle_witness :
  plain (state (Comp newPO_state ∅ [] None None))
  /\ exists c', settle Host.stringify 2 (Comp newPO_state ∅ [] None None)
                = Some (Ok c')
                /\ commit Host.stringify c' = Ok (false, c').
Proof.
  split; [exact plain_newPO_state|].
  destruct (effects_settle Host.stringify (Comp newPO_state ∅ [] None None)
              plain_newPO_state) as (c' & Hn & _ & _ & Hfix & _).
  exists c'. split; [exact (Hn 0) | exact Hfix].
Defined.

Lemma render_follows_option_witness :
  exists c1,
    updateHeader Host.stringify [("beneficiaryName", VStr "Other")]
                 settled_default = Ok c1
    /\ plain (state c1)
    /\ JS.get (state c1) "option" = Ok (VStr "KNPC_73000")
    /\ option_dep c1 = Some (VStr "KNPC_73000")
    /\ exists c', commit Host.stringify c1 = Ok (false, c')
                  /\ state c' = state c1.
Proof.
  eexists. split.
  { apply (updateHeader_object Host.stringify settled_default
             (JS.spread newPO_state)). reflexivity. }
  match goal with |- plain (state ?c) /\ _ =>
    assert (Hs : plain (state c))
  end.
  { cbn [committed state]. apply plain_set_header; [|exact plain_newPO_state].
    repeat constructor; cbn; eauto. }
  split; [exact Hs|]. split; [reflexivity|]. split; [reflexivity|].
  destruct (render_follows_option Host.stringify _ (VStr "KNPC_73000") Hs
              eq_refl eq_refl) as (c' & Hc & Hst & _).
  exists c'. split; [exact Hc | exact Hst].
Defined.

Lemma option_change_syncs_header_witness :
  exists c1 c2 h,
    setOption Host.stringify "KIPIC_71449" settled_default = Ok c1
    /\ commit Host.stringify c1 = Ok (true, c2)
    /\ JS.get (VObj h) "ltsaNumber" = Ok (VStr "71449")
    /\ JS.assoc_get "poNumber" h = Some (VStr "419513").
Proof.
  assert (Hq : quiet settled_default).
  { eexists _, _. repeat split; reflexivity. }
  assert (Hne : JS.get (state settled_default) "option"
                <> Ok (VStr "KIPIC_71449")) by discriminate.
  assert (Hin : In "KIPIC_71449" (map fst BENEFICIARY_OPTIONS))
    by (right; left; reflexivity).
  destruct (option_change_syncs_header Host.stringify settled_default
              (JS.spread newPO_state) (JS.spread defaultHeader)
              "KIPIC_71449" _ plain_newPO_state Hq eq_refl eq_refl Hin Hne
              eq_refl)
    as (c2 & h & b & Hc & _ & _ & Hb & _ & Hln & Hrest & _).
  eexists _, c2, h. split; [reflexivity|]. split; [exact Hc|].
  injection Hb as <-.
  split; [exact Hln|].
  rewrite Hrest by discriminate. reflexivity.
Defined.

Lemma mount_without_items_raises_witness :
  Host.parse [VObj [("header", defaultHeader)]]
    (getItem_or_null
       {[ STORAGE_KEY := Host.stringify (VObj [("header", defaultHeader)]) ]}
       STORAGE_KEY)
  = Ok (VObj [("header", defaultHeader)])
  /\ mount (Host.parse [VObj [("header", defaultHeader)]]) Host.stringify 2
           {[ STORAGE_KEY := Host.stringify (VObj [("header", defaultHeader)]) ]}
     = Some (Throw TypeError).
Proof.
  assert (H : Host.parse [VObj [("header", defaultHeader)]]
                (getItem_or_null
                   {[ STORAGE_KEY
                      := Host.stringify (VObj [("header", defaultHeader)]) ]}
                   STORAGE_KEY)
              = Ok (VObj [("header", defaultHeader)]))
    by (vm_compute; reflexivity).
  split; [exact H|].
  exact (mount_without_items_raises _ Host.stringify _ _ 1 H eq_refl eq_refl).
Defined.

(* ================================================================== *)
(** ** Further properties: storage, files and migration *)
(* ================================================================== *)

Section Persistence.
Variable JSON_parse : string -> result value.
Variable JSON_stringify : value -> string.

Lemma setAndSave_saved f c c' :
  setAndSave JSON_stringify f c = Ok c' -> saved JSON_stringify c'.
Proof.
  intros H. apply setAndSave_Ok in H as (next & _ & ->).
  unfold saved. cbn [store state]. apply lookup_insert_eq.
Qed.

Lemma step_saved c c' :
  saved JSON_stringify c -> step JSON_stringify c c' ->
  saved JSON_stringify c'.
Proof.
  intros Hsaved Hstep.
  destruct Hstep as [c c' H | c c' H | key c c' Hkey H | patch c c' H
                    | i k v c c' H | c c' H | i c c' H | c c' H
                    | i t rows0 c c' Hrows0 Hi0 H | b c c' H];
    try exact (setAndSave_saved _ _ _ H).
  - unfold editSold in H.
    apply bind_Ok in H as (items & _ & H).
    apply bind_Ok in H as (nextVal & _ & H).
    exact (setAndSave_saved _ _ _ H).
  - destruct (commit_result JSON_stringify _ _ _ H) as (Hf & Ht & _).
    destruct b; [exact (Ht eq_refl)|].
    destruct (Hf eq_refl) as [Hst Hsto].
    unfold saved. rewrite Hst, Hsto. exact Hsaved.
Qed.

(** X9. What the page does is saved, and a reload gives it back up to
    the header sync: after any sequence of events from a component whose
    slot holds its document, the slot holds the text of the current
    document; when the host's JSON reads that text back, the state
    initializer of a reload returns exactly that document and leaves the
    storage as it is; and when the document is plain, the renders that
    follow settle on that document with the beneficiary name and the LTSA
    number of its header set to those of the option's preset, every other
    field, the option, the items and the sales as they were, and save it.
    A name or number typed over the preset's is thus lost by a reload; a
    header that holds the preset's two texts comes back unchanged. *)
Theorem reload_restores c c' :
  saved JSON_stringify c ->
  rtc (step JSON_stringify) c c' ->
  JS.truthy (state c') = true ->
  JSON_stringify (state c') <> "" ->
  JSON_parse (JSON_stringify (state c')) = Ok (state c') ->
  store c' !! STORAGE_KEY = Some (JSON_stringify (state c'))
  /\ load JSON_parse JSON_stringify (store c') = (state c', store c')
  /\ (plain (state c') ->
      exists o key hdr rows bn ln,
        state c' = VObj o
        /\ JS.assoc_get "option" o = Some (VStr key)
        /\ JS.assoc_get "header" o = Some (VObj hdr)
        /\ JS.assoc_get "items" o = Some (VArr rows)
        /\ JS.get (default VUndef (JS.assoc_get key BENEFICIARY_OPTIONS))
                  "beneficiaryName" = Ok (VStr bn)
        /\ JS.get (default VUndef (JS.assoc_get key BENEFICIARY_OPTIONS))
                  "ltsaNumber" = Ok (VStr ln)
        /\ (forall n,
              mount JSON_parse JSON_stringify (2 + n) (store c')
              = Some (Ok (committed JSON_stringify
                            (Comp (VObj o) (store c') [] (Some (VStr key))
                                  (Some (JS.length_of rows)))
                            (VObj (JS.assoc_set "header"
                                     (VObj (JS.assoc_set "ltsaNumber" (VStr ln)
                                              (JS.assoc_set "beneficiaryName"
                                                 (VStr bn) hdr)))
                                     o)))))
        /\ (JS.assoc_get "beneficiaryName" hdr = Some (VStr bn) ->
            JS.assoc_get "ltsaNumber" hdr = Some (VStr ln) ->
            VObj (JS.assoc_set "header"
                    (VObj (JS.assoc_set "ltsaNumber" (VStr ln)
                             (JS.assoc_set "beneficiaryName" (VStr bn) hdr)))
                    o)
            = state c')).
Proof.
  intros Hsaved Hsteps Htruthy Hne Hparse.
  assert (Hsaved' : saved JSON_stringify c').
  { induction Hsteps as [c | c c1 c2 Hstep _ IH]; [exact Hsaved|].
    apply IH; try assumption. exact (step_saved c c1 Hsaved Hstep). }
  assert (Hload : load JSON_parse JSON_stringify (store c')
                  = (state c', store c')).
  { apply (load_current_slot JSON_parse JSON_stringify (store c') (state c'));
      [|exact Htruthy].
    unfold getItem_or_null. rewrite Hsaved'.
    destruct (String.eqb_spec (JSON_stringify (state c')) ""); [contradiction|].
    exact Hparse. }
  split; [exact Hsaved'|]. split; [exact Hload|].
  intros Hplain.
  destruct (commit_plain JSON_stringify
              (Comp (state c') (store c') [] None None) Hplain)
    as (o & rows & h & Hst & Hi & Hc & Hsync & Hplain1).
  cbn [state store alerts option_dep] in Hst, Hc. rewrite Hst in Hplain.
  destruct (sync_header_plain o Hplain)
    as (key & hdr & bn & ln & Hopt & Hh & _ & Hbn & Hln & Hsync' & _).
  rewrite Hopt in Hsync, Hc. cbn [default from_option id] in Hsync, Hc.
  rewrite Hsync' in Hsync. injection Hsync as Hsync.
  exists o, key, hdr, rows, bn, ln.
  split; [exact Hst|]. split; [exact Hopt|]. split; [exact Hh|].
  split; [exact Hi|]. split; [exact Hbn|]. split; [exact Hln|]. split.
  - intros n. unfold mount. rewrite Hload.
    rewrite settle_two. cbn [settle]. rewrite Hc.
    cbn [dep_changed]. rewrite Hsync.
    match goal with
    | |- match commit _ ?c1 with _ => _ end = _ =>
        assert (Hfix : commit JSON_stringify c1 = Ok (false, c1))
    end.
    { apply commit_fixed; [exact Hplain1|].
      eexists _, rows. cbn [committed state option_dep length_dep].
      split; [reflexivity|].
      rewrite !assoc_get_set_ne by discriminate. rewrite Hopt, Hi.
      repeat split. }
    rewrite Hfix. reflexivity.
  - intros Hbn' Hln'.
    rewrite (assoc_set_id "beneficiaryName" _ hdr Hbn').
    rewrite (assoc_set_id "ltsaNumber" _ hdr Hln').
    rewrite (assoc_set_id "header" _ o Hh). symmetry. exact Hst.
Qed.

(** X10. The "clear storage" button does what "new PO" does: the
    removal of the slot is undone by the save that follows. Afterwards
    the document is the default one, the current slot holds its text, and
    every other slot, the legacy ones included, is as before. *)
Theorem clearStorage_rewrites_slot c :
  clearStorage JSON_stringify c = newPO JSON_stringify c
  /\ exists c',
       clearStorage JSON_stringify c = Ok c'
       /\ state c' = newPO_state
       /\ store c' !! STORAGE_KEY = Some (JSON_stringify newPO_state)
       /\ (forall k, k <> STORAGE_KEY -> store c' !! k = store c !! k)
       /\ alerts c' = alerts c.
Proof.
  assert (H : clearStorage JSON_stringify c
              = Ok (committed JSON_stringify c newPO_state)).
  { unfold clearStorage, newPO, setAndSave, with_state, committed.
    cbn [state store alerts option_dep length_dep mbind result_bind].
    rewrite insert_delete_eq. reflexivity. }
  split.
  - rewrite H. symmetry.
    apply (setAndSave_committed JSON_stringify _ c newPO_state eq_refl).
  - eexists. split; [exact H|]. cbn [committed state store alerts].
    split; [reflexivity|]. split; [apply lookup_insert_eq|].
    split; [|reflexivity].
    intros k Hk. apply lookup_insert_ne. congruence.
Qed.

End Persistence.

(** *** Rows and sales of the current shape *)

Lemma coalesce_keep v d : JS.is_nullish v = false -> JS.coalesce v d = v.
Proof. unfold JS.coalesce. intros ->. reflexivity. Qed.

Lemma is_row_normalized r :
  is_row r -> normalized_row r = r /\ JS.is_nullish r = false.
Proof.
  intros (o & -> & Hkeys & Hvals). split; [|reflexivity].
  unfold item_fields in Hkeys.
  repeat (destruct o as [|[? ?] o]; [discriminate Hkeys|]).
  destruct o; [|discriminate Hkeys].
  cbn [map fst] in Hkeys. injection Hkeys as -> -> -> -> -> -> -> -> ->.
  repeat match goal with
         | H : Forall _ (_ :: _) |- _ =>
             apply Forall_cons in H as [? H]
         end.
  cbn [snd] in *.
  unfold normalized_row, field_or_empty, item_fields.
  cbn [map String.eqb Ascii.eqb Bool.eqb JS.get_opt JS.get JS.assoc_get
       default from_option id].
  repeat match goal with
         | H : JS.is_nullish ?v = false |- context [JS.coalesce ?v ?d] =>
             rewrite (coalesce_keep v d H)
         end.
  reflexivity.
Qed.

Lemma normalized_row_is_row r : is_row (normalized_row r).
Proof.
  unfold normalized_row. eexists. split; [reflexivity|]. split.
  - rewrite map_map. cbn [fst]. apply map_id.
  - apply Forall_map. apply Forall_forall. intros k _. cbn [snd].
    destruct (String.eqb k "qty"); unfold field_or_empty, JS.coalesce;
      repeat match goal with
             | |- context [if JS.is_nullish ?x then _ else _] =>
                 destruct (JS.is_nullish x) eqn:?
             end; try reflexivity; assumption.
Qed.

Lemma normalize_item_fixed r r' :
  normalize_item r = Ok r' -> normalize_item r' = Ok r'.
Proof.
  intros H. destruct (JS.is_nullish r) eqn:E.
  - rewrite (normalize_item_nullish r E) in H. discriminate H.
  - rewrite (normalize_item_row r E) in H. injection H as <-.
    destruct (is_row_normalized _ (normalized_row_is_row r)) as [Hfix Hnn].
    rewrite (normalize_item_row _ Hnn), Hfix. reflexivity.
Qed.

Lemma mapM_normalize_fixed l l' :
  mapM normalize_item l = Ok l' -> mapM normalize_item l' = Ok l'.
Proof.
  revert l'. induction l as [|r l IH]; intros l' H; cbn [mapM] in H.
  - injection H as <-. reflexivity.
  - apply bind_Ok in H as (r' & Hr & H).
    apply bind_Ok in H as (rs & Hrs & H). injection H as <-.
    cbn [mapM]. rewrite (normalize_item_fixed _ _ Hr).
    cbn [mbind result_bind]. rewrite (IH _ Hrs). reflexivity.
Qed.

Lemma coerced_texts texts : mapM coerced (map VStr texts) = Ok texts.
Proof.
  induction texts as [|t texts IH]; [reflexivity|].
  cbn [map mapM]. rewrite IH. reflexivity.
Qed.

Lemma legacy_sale_fixed s v : legacy_sale s = Ok v -> legacy_sale v = Ok v.
Proof.
  rewrite (legacy_sale_text s). intros H.
  apply fmap_Ok in H as (t & _ & ->). reflexivity.
Qed.

Lemma mapM_legacy_sale_fixed l l' :
  mapM legacy_sale l = Ok l' -> mapM legacy_sale l' = Ok l'.
Proof.
  revert l'. induction l as [|s l IH]; intros l' H; cbn [mapM] in H.
  - injection H as <-. reflexivity.
  - apply bind_Ok in H as (v & Hv & H).
    apply bind_Ok in H as (vs & Hvs & H). injection H as <-.
    cbn [mapM]. rewrite (legacy_sale_fixed _ _ Hv).
    cbn [mbind result_bind]. rewrite (IH _ Hvs). reflexivity.
Qed.

(** X12. The migration is idempotent: a document it produced is of the
    current shape already, and migrating it again returns it unchanged. *)
Theorem migrate_idempotent old m :
  migrate old = Ok m -> migrate m = Ok m.
Proof.
  intros H. unfold migrate in H.
  apply bind_Ok in H as (old_items & _ & H).
  apply bind_Ok in H as (items & Hitems & H).
  apply bind_Ok in H as (old_sales & _ & H).
  apply bind_Ok in H as (sales & Hsales & H).
  injection H as <-.
  unfold migrate.
  assert (Hfixs : match sales with
                  | VArr l => VArr <$> mapM legacy_sale l
                  | _ => Ok (VArr [])
                  end = Ok sales).
  { destruct old_sales; try (injection Hsales as <-; reflexivity).
    apply fmap_Ok in Hsales as (l' & Hl' & ->).
    rewrite (mapM_legacy_sale_fixed _ _ Hl'). reflexivity. }
  assert (Hfix : match items with
                 | VArr l => VArr <$> mapM normalize_item l
                 | _ => Ok (VArr [defaultItem])
                 end = Ok items).
  { destruct old_items; try (injection Hitems as <-; reflexivity).
    apply fmap_Ok in Hitems as (l' & Hl' & ->).
    rewrite (mapM_normalize_fixed _ _ Hl'). reflexivity. }
  rewrite (get_set_ne "sales" "items") by discriminate.
  rewrite !get_set_eq. cbn [mbind result_bind].
  rewrite Hfix. cbn [mbind result_bind].
  rewrite Hfixs. cbn [mbind result_bind JS.spread].
  rewrite (assoc_set_id "items" items)
    by (rewrite assoc_get_set_ne by discriminate; apply assoc_get_set_eq).
  rewrite assoc_set_set. reflexivity.
Qed.

Lemma migrate_idempotent_witness :
  exists m, migrate legacy_example = Ok m /\ migrate m = Ok m.
Proof.
  eexists. split; [vm_compute; reflexivity|].
  apply (migrate_idempotent legacy_example). vm_compute. reflexivity.
Defined.

Section Files.
Variable JSON_parse : string -> result value.
Variable JSON_stringify : value -> string.
Variable JSON_pretty : value -> string.

(** X11. Export and import are inverse on documents of the current
    shape: when the host's JSON reads the exported text back, importing
    that file into any editor commits exactly the exported document,
    without an alert. (An option that is an object or an array comes
    back as a new object, which the header effect has not seen.) *)
Theorem export_import_round_trip c name text c0 :
  current_shape (state c) ->
  exportJSON JSON_pretty c = Downloaded name text ->
  JSON_parse text = Ok (state c) ->
  text = JSON_pretty (state c)
  /\ importJSON JSON_parse JSON_stringify text c0
     = imported_into JSON_stringify c0 (state c)
  /\ (is_object (JS.get_opt (state c) "option") = false ->
      importJSON JSON_parse JSON_stringify text c0
      = committed JSON_stringify c0 (state c)).
Proof.
  intros (o & rows & texts & Hst & Hi & Hrows & Hs & Hh) Hexp Hparse.
  assert (Hnn : JS.is_nullish (default VUndef (JS.assoc_get "header" o)) = false)
    by (destruct (default VUndef (JS.assoc_get "header" o));
        try reflexivity; discriminate Hh).
  assert (Htext : text = JSON_pretty (state c)).
  { unfold exportJSON, export_body in Hexp. rewrite Hst in Hexp.
    cbn [JS.get mbind result_bind] in Hexp.
    rewrite (get_not_nullish _ "poNumber" Hnn) in Hexp.
    cbn [mbind result_bind] in Hexp.
    destruct (JS.to_string _) in Hexp; [|discriminate Hexp].
    cbn in Hexp. injection Hexp as _ <-. rewrite Hst. reflexivity. }
  split; [exact Htext|].
  assert (Himp : importJSON JSON_parse JSON_stringify text c0
                 = imported_into JSON_stringify c0 (state c));
    [|split; [exact Himp|]].
  2:{ intros Hprim. rewrite Himp. unfold imported_into, committed.
      destruct (JS.get_opt (state c) "option"); try reflexivity;
        discriminate Hprim. }
  rewrite Hst in Hparse |- *.
  rewrite (importJSON_accepted JSON_parse JSON_stringify text c0 (VObj o) rows
             (map VStr texts) Hparse eq_refl).
  - unfold imported. cbn [JS.spread].
    assert (Hmap : map normalized_row rows = rows).
    { clear -Hrows. induction Hrows as [|r l Hr _ IH]; [reflexivity|].
      cbn [map]. rewrite IH, (proj1 (is_row_normalized r Hr)). reflexivity. }
    rewrite Hmap, (assoc_set_id "items" _ o Hi), (assoc_set_id "sales" _ o Hs).
    reflexivity.
  - cbn [JS.get_opt JS.get]. exact Hh.
  - cbn [JS.get_opt JS.get]. rewrite Hi. reflexivity.
  - eapply Forall_impl; [exact Hrows|]. intros r Hr.
    exact (proj2 (is_row_normalized r Hr)).
  - unfold imported_sales. cbn [JS.get_opt JS.get]. rewrite Hs.
    cbn [default from_option id]. rewrite coerced_texts. reflexivity.
Qed.

End Files.

(** The reload after a row was added to the default document: the
    initializer returns the document, and the renders settle on it. *)
Lemma reload_restores_witness :
  exists c',
    addRow Host.stringify settled_default = Ok c'
    /\ Host.parse [state c'] (Host.stringify (state c')) = Ok (state c')
    /\ load (Host.parse [state c']) Host.stringify (store c')
       = (state c', store c')
    /\ exists c2,
         mount (Host.parse [state c']) Host.stringify 2 (store c') = Some (Ok c2)
         /\ state c2 = state c'.
Proof.
  eexists. split.
  { apply (addRow_object Host.stringify settled_default
             (JS.spread newPO_state) [defaultItem] [VStr ""]); reflexivity. }
  match goal with |- ?P (Host.stringify ?s) = _ /\ _ =>
    assert (Hparse : P (Host.stringify s) = Ok s) by (vm_compute; reflexivity)
  end.
  split; [exact Hparse|].
  match goal with |- load _ _ (store ?c) = _ /\ _ =>
    assert (Hplain : plain (state c))
  end.
  { exists (JS.spread (state (committed Host.stringify settled_default
              (VObj (JS.assoc_set "sales" (VArr ([VStr ""] ++ [VStr ""]))
                       (JS.assoc_set "items"
                          (VArr ([defaultItem] ++ [defaultItem]))
                          (JS.spread newPO_state))))))),
      "KNPC_73000", (JS.spread defaultHeader), [defaultItem; defaultItem],
      [""; ""].
    split; [reflexivity|]. split; [reflexivity|]. split; [left; reflexivity|].
    split; [reflexivity|].
    split; [repeat constructor; cbn; eauto|].
    split; [reflexivity|]. split; [discriminate|].
    split; [|split; reflexivity].
    repeat constructor; (eexists; split; [reflexivity|]);
      repeat constructor; cbn; eauto. }
  destruct (reload_restores _ Host.stringify settled_default _
              (eq_refl : saved Host.stringify settled_default)
              (rtc_once _ _ (step_addRow Host.stringify settled_default _
                               eq_refl))
              eq_refl
              ltac:(vm_compute; discriminate) Hparse)
    as (_ & Hload & Hmount).
  split; [exact Hload|].
  destruct (Hmount Hplain)
    as (o & key & hdr & rows & bn & ln & Hst & Hopt & Hh & _ & Hbn & Hln & Hm
        & Hsame).
  eexists. split; [exact (Hm 0)|].
  cbn [committed state]. apply Hsame.
  - injection Hst as <-. injection Hopt as <-. injection Hh as <-.
    injection Hbn as <-. reflexivity.
  - injection Hst as <-. injection Hopt as <-. injection Hh as <-.
    injection Hln as <-. reflexivity.
Defined.

Lemma export_import_round_trip_witness :
  current_shape (state settled_default)
  /\ importJSON (Host.parse [newPO_state]) Host.stringify
                (Host.stringify newPO_state) settled_default
     = committed Host.stringify settled_default newPO_state.
Proof.
  assert (Hshape : current_shape (state settled_default)).
  { exists (JS.spread newPO_state), [defaultItem], [""].
    split; [reflexivity|]. split; [reflexivity|].
    split; [|split; reflexivity].
    constructor; [|constructor].
    eexists. split; [reflexivity|]. split; [reflexivity|].
    repeat constructor. }
  split; [exact Hshape|].
  refine (proj2 (proj2 (export_import_round_trip (Host.parse [newPO_state])
                          Host.stringify Host.stringify settled_default
                          _ _ settled_default Hshape eq_refl _)) eq_refl).
  vm_compute. reflexivity.
Defined.

(* ================================================================== *)
(** ** Further properties: rows *)
(* ================================================================== *)

(** *** The item count compared with one *)

Lemma shr_fexp_exponent prec emax m e l :
  (e <= snd (shr_fexp prec emax m e l))%Z.
Proof.
  unfold shr_fexp, shr.
  destruct (fexp prec emax (Zdigits2 m + e) - e)%Z; cbn [snd]; lia.
Qed.

(** Rounding keeps the sign and never lowers the exponent. *)
Lemma binary_round_aux_finite prec emax s m e l s' m' e' :
  binary_round_aux prec emax s m e l = S754_finite s' m' e' ->
  s' = s /\ (e <= e')%Z.
Proof.
  unfold binary_round_aux.
  pose proof (shr_fexp_exponent prec emax m e l) as H1.
  destruct (shr_fexp prec emax m e l) as [mrs1 e1]. cbn [snd] in H1.
  pose proof (shr_fexp_exponent prec emax
                (round_nearest_even (shr_m mrs1) (loc_of_shr_record mrs1))
                e1 loc_Exact) as H2.
  destruct (shr_fexp prec emax _ e1 loc_Exact) as [mrs2 e2]. cbn [snd] in H2.
  destruct (shr_m mrs2); try discriminate.
  destruct (e2 <=? emax - prec)%Z; try discriminate.
  intros [= <- <- <-]. split; [reflexivity | lia].
Qed.

Lemma digits2_pos_ge_2 p : p <> 1%positive -> (2 <= Zpos (digits2_pos p))%Z.
Proof. destruct p; cbn [digits2_pos]; intros H; lia. Qed.

Lemma of_Z_exponent p s m e :
  p <> 1%positive ->
  Num.of_Z (Zpos p) = S754_finite s m e -> s = false /\ (-52 < e)%Z.
Proof.
  intros Hp. unfold Num.of_Z, binary_normalize, binary_round, shl_align.
  pose proof (digits2_pos_ge_2 p Hp) as Hd.
  assert (Hf : (-51 <= fexp Num.prec Num.emax (Zpos (digits2_pos p) + 0))%Z).
  { unfold fexp, emin, Num.prec, Num.emax. lia. }
  destruct (fexp Num.prec Num.emax (Zpos (digits2_pos p) + 0) - 0)%Z eqn:E;
    intros H; apply binary_round_aux_finite in H as [-> H];
    (split; [reflexivity | lia]).
Qed.

Lemma length_one_iff {A} (l : list A) :
  JS.strict_eq (JS.length_of l) (VNum (Num.of_Z 1)) = true <-> length l = 1.
Proof.
  split; [|apply single_row_length].
  unfold JS.length_of. cbn [JS.strict_eq].
  destruct (length l) as [|[|n]]; [discriminate | reflexivity |].
  intros H. exfalso. revert H.
  set (p := Pos.of_succ_nat (S n)).
  replace (Z.of_nat (S (S n))) with (Zpos p) by (subst p; lia).
  assert (Hp : p <> 1%positive) by (subst p; lia).
  unfold Num.strict_eq, SFeqb.
  replace (Num.of_Z 1) with (S754_finite false 4503599627370496 (-52))
    by (vm_compute; reflexivity).
  destruct (Num.of_Z (Zpos p)) as [[]|[]| |s m e] eqn:E; cbn [SFcompare];
    try discriminate.
  destruct (of_Z_exponent p s m e Hp E) as [-> He].
  destruct (Z.compare_spec e (-52)); try lia; discriminate.
Qed.

(** *** Setting two fields of an object *)

Lemma assoc_set_comm k k' v v' o :
  k <> k' -> JS.assoc_get k o <> None ->
  JS.assoc_set k v (JS.assoc_set k' v' o)
  = JS.assoc_set k' v' (JS.assoc_set k v o).
Proof.
  intros Hk. induction o as [|[k0 v0] o IH]; cbn [JS.assoc_get JS.assoc_set];
    [congruence|].
  intros Hget.
  destruct (String.eqb_spec k k0) as [->|Hk0].
  - destruct (String.eqb_spec k' k0) as [->|Hk0']; [congruence|].
    cbn [JS.assoc_set]. rewrite String.eqb_refl.
    destruct (String.eqb_spec k' k0); [congruence|]. reflexivity.
  - destruct (String.eqb_spec k' k0) as [->|Hk0'].
    + cbn [JS.assoc_set].
      destruct (String.eqb_spec k k0); [congruence|].
      rewrite String.eqb_refl. reflexivity.
    + cbn [JS.assoc_set].
      destruct (String.eqb_spec k k0); [congruence|].
      destruct (String.eqb_spec k' k0); [congruence|].
      rewrite IH by exact Hget. reflexivity.
Qed.

Lemma imap_other (rows : list value) (f : value -> value) i j :
  j <> i ->
  imap (fun idx r => if (idx =? i)%nat then f r else r) rows !! j = rows !! j.
Proof.
  intros Hj. rewrite list_lookup_imap.
  destruct (rows !! j); [|reflexivity]. cbn.
  destruct (Nat.eqb_spec j i); [contradiction | reflexivity].
Qed.

Lemma imap_beyond (rows : list value) (f : value -> value) i :
  length rows <= i ->
  imap (fun idx r => if (idx =? i)%nat then f r else r) rows = rows.
Proof.
  intros Hi. apply list_eq. intros j.
  destruct (Nat.eq_dec j i) as [->|Hj]; [|apply imap_other; exact Hj].
  rewrite list_lookup_imap.
  rewrite (lookup_ge_None_2 rows i Hi). reflexivity.
Qed.

Lemma delete_last {A} (l : list A) x : delete (length l) (l ++ [x]) = l.
Proof.
  induction l as [|a l IH]; [reflexivity|].
  cbn [length app]. change (a :: delete (length l) (l ++ [x]) = a :: l).
  rewrite IH. reflexivity.
Qed.

Section Rows.
Variable JSON_stringify : value -> string.

(** X15. [updateItem(i, k, v)] writes one field of one row: the item
    list keeps its length, every other row is the same, an object row
    [i] has [v] in field [k] and its other fields as before, the rest of
    the document is untouched, and an index past the last row changes
    nothing. *)
Theorem updateItem_writes_one_field c o rows i k v c' :
  state c = VObj o ->
  JS.assoc_get "items" o = Some (VArr rows) ->
  updateItem JSON_stringify i k v c = Ok c' ->
  exists rows',
    state c' = VObj (JS.assoc_set "items" (VArr rows') o)
    /\ length rows' = length rows
    /\ (forall j, j <> i -> rows' !! j = rows !! j)
    /\ (forall ro, rows !! i = Some (VObj ro) ->
          exists ro', rows' !! i = Some (VObj ro')
                      /\ JS.assoc_get k ro' = Some v
                      /\ forall k', k' <> k ->
                           JS.assoc_get k' ro' = JS.assoc_get k' ro)
    /\ (length rows <= i -> state c' = state c).
Proof.
  intros Hst Hi H.
  rewrite (updateItem_object JSON_stringify c o rows i k v Hst Hi) in H.
  injection H as <-. eexists. split; [reflexivity|].
  split; [apply length_imap|].
  split; [intros j Hj; apply imap_other; exact Hj|].
  split.
  - intros ro Hro. eexists. rewrite list_lookup_imap, Hro. cbn.
    rewrite Nat.eqb_refl. split; [reflexivity|].
    split; [apply assoc_get_set_eq|].
    intros k' Hk'. apply assoc_get_set_ne. congruence.
  - intros Hle. cbn [committed state].
    rewrite (imap_beyond rows (fun r => VObj (JS.assoc_set k v (JS.spread r)))
               i Hle).
    rewrite (assoc_set_id "items" _ o Hi). symmetry. exact Hst.
Qed.


(** X17. Adding a row and removing it again gives the document back: on
    a sound document, [addRow] followed by [removeRow] of the new last
    row commits the document it started from. *)
Theorem addRow_removeRow_round_trip c rows c1 c2 :
  sound (state c) ->
  JS.get (state c) "items" = Ok (VArr rows) ->
  addRow JSON_stringify c = Ok c1 ->
  removeRow JSON_stringify (length rows) c1 = Ok c2 ->
  state c2 = state c /\ saved JSON_stringify c2.
Proof.
  intros (o & rows0 & sales & Hst & Hi & Hne & _ & Hs & Hlen & _) Hrows Hadd Hrem.
  rewrite Hst in Hrows. cbn [JS.get] in Hrows. rewrite Hi in Hrows.
  injection Hrows as ->.
  rewrite (addRow_object JSON_stringify c o rows sales Hst Hi Hs) in Hadd.
  injection Hadd as <-.
  assert (Hlen2 : length (rows ++ [defaultItem]) <> 1).
  { rewrite length_app. cbn [length]. destruct rows; [congruence|].
    cbn [length]. lia. }
  pose proof (removeRow_object JSON_stringify
                (committed JSON_stringify c
                   (VObj (JS.assoc_set "sales" (VArr (sales ++ [VStr ""]))
                            (JS.assoc_set "items"
                               (VArr (rows ++ [defaultItem])) o))))
                _ (rows ++ [defaultItem]) (sales ++ [VStr ""]) (length rows)
                eq_refl) as Hobj.
  rewrite assoc_get_set_ne, !assoc_get_set_eq in Hobj by discriminate.
  specialize (Hobj eq_refl eq_refl).
  destruct (JS.strict_eq (JS.length_of (rows ++ [defaultItem]))
              (VNum (Num.of_Z 1))) eqn:E.
  { apply length_one_iff in E. contradiction. }
  rewrite Hobj in Hrem. injection Hrem as <-.
  split; [|unfold saved; cbn [committed store state]; apply lookup_insert_eq].
  cbn [committed state]. rewrite Hst. f_equal.
  rewrite delete_last. rewrite <- Hlen, delete_last.
  rewrite (assoc_set_comm "items" "sales")
    by (try discriminate; rewrite assoc_get_set_eq; discriminate).
  rewrite !assoc_set_set, (assoc_set_id "items" _ o Hi).
  apply assoc_set_id. exact Hs.
Qed.

(** X18. Typing a sold quantity into an existing row changes that
    row's sale only: the sales keep their length, every other sale is the
    same, sale [i] is the text the field stores, and the items and the
    rest of the document are untouched. *)
Theorem editSold_writes_one_sale c o rows sales i t c' :
  state c = VObj o ->
  JS.assoc_get "items" o = Some (VArr rows) ->
  JS.assoc_get "sales" o = Some (VArr sales) ->
  i < length sales ->
  editSold JSON_stringify i t c = Ok c' ->
  exists stored sales',
    sold_text (VArr rows) i t = Ok stored
    /\ state c' = VObj (JS.assoc_set "sales" (VArr sales') o)
    /\ length sales' = length sales
    /\ sales' !! i = Some (VStr stored)
    /\ forall j, j <> i -> sales' !! j = sales !! j.
Proof.
  intros Hst Hi Hs Hlt H.
  rewrite (editSold_object JSON_stringify c o rows sales i t Hst Hi Hs) in H.
  apply bind_Ok in H as (stored & Hstored & H). injection H as <-.
  exists stored, (JS.array_store sales i (VStr stored)).
  split; [exact Hstored|]. split; [reflexivity|].
  split; [apply array_store_length; exact Hlt|].
  split; [apply array_store_lookup|].
  intros j Hj. unfold JS.array_store.
  destruct (Nat.ltb_spec i (length sales)); [|lia].
  apply list_lookup_insert_ne. congruence.
Qed.

End Rows.

Lemma updateItem_writes_one_field_witness :
  exists c' rows',
    updateItem Host.stringify 0 "qty" (VStr "5") settled_default = Ok c'
    /\ JS.get (state c') "items" = Ok (VArr rows')
    /\ length rows' = 1.
Proof.
  destruct (updateItem_writes_one_field Host.stringify settled_default
              (JS.spread newPO_state) [defaultItem] 0 "qty" (VStr "5") _
              eq_refl eq_refl eq_refl) as (rows' & Hst & Hlen & _).
  eexists _, rows'. split; [reflexivity|].
  split; [rewrite Hst; apply get_set_eq | exact Hlen].
Defined.


Lemma addRow_removeRow_round_trip_witness :
  sound (state settled_default)
  /\ addRow Host.stringify settled_default
     = Ok (committed Host.stringify settled_default
             (VObj (JS.assoc_set "sales" (VArr [VStr ""; VStr ""])
                      (JS.assoc_set "items" (VArr [defaultItem; defaultItem])
                         (JS.spread newPO_state)))))
  /\ exists c2,
       removeRow Host.stringify 1
         (committed Host.stringify settled_default
            (VObj (JS.assoc_set "sales" (VArr [VStr ""; VStr ""])
                     (JS.assoc_set "items" (VArr [defaultItem; defaultItem])
                        (JS.spread newPO_state))))) = Ok c2
       /\ state c2 = state settled_default.
Proof.
  split; [exact sound_newPO_state|].
  split; [reflexivity|].
  destruct (removeRow Host.stringify 1
              (committed Host.stringify settled_default
                 (VObj (JS.assoc_set "sales" (VArr [VStr ""; VStr ""])
                          (JS.assoc_set "items"
                             (VArr [defaultItem; defaultItem])
                             (JS.spread newPO_state))))))
    as [c2|e] eqn:E; [|discriminate E].
  exists c2. split; [reflexivity|].
  exact (proj1 (addRow_removeRow_round_trip Host.stringify settled_default
                  [defaultItem] _ c2 sound_newPO_state eq_refl eq_refl E)).
Defined.

Lemma editSold_writes_one_sale_witness :
  exists c' stored,
    editSold Host.stringify 0 "7" settled_default = Ok c'
    /\ JS.get (state c') "sales" = Ok (VArr [VStr stored]).
Proof.
  assert (Hlt : 0 < length [VStr ""]) by (cbn [length]; lia).
  destruct (editSold_writes_one_sale Host.stringify settled_default
              (JS.spread newPO_state) [defaultItem] [VStr ""] 0 "7" _
              eq_refl eq_refl eq_refl Hlt eq_refl)
    as (stored & sales' & _ & Hst & Hlen & Hi & _).
  eexists _, stored. split; [reflexivity|].
  rewrite Hst, get_set_eq.
  destruct sales' as [|x [|y sales']]; try discriminate Hlen.
  cbn in Hi. injection Hi as ->. reflexivity.
Defined.
